(** * Volume management of the recovery environment (roots.cpp)

    A shallow embedding of [roots.cpp]: the volume table and its lookups,
    path resolution with filesystem-type detection, the mount manager, the
    format engine and the install-mount orchestrator, followed by the
    properties established about them.

    Conventions.
    - A [Volume*] into [fstab->recs] is the index of the record; [nullptr]
      is [None].  Dereferencing an index outside the table has no defined
      behaviour.
    - A [const char*] path is a [string]; paths are non-null.
    - Calls that act on the operating system are recorded, in order, in the
      [trace] of the state, so that "the call is never issued" is a statement
      about the trace.
    - Stateful functions live in the monad [M]: a computation takes the state
      and either yields a result and a new state, or has no defined behaviour
      ([None]): a dangling pointer, a table that was never loaded, a label
      that does not fit its buffer. *)

From Stdlib Require Import ZArith String Ascii DecimalString Lia.
From stdpp Require Import base option list gmap strings.

Local Open Scope string_scope.
Local Open Scope Z_scope.
Local Open Scope list_scope.

(** ** C strings *)

Module CStr.

(** [std::string::find_last_of(c)]: index of the last occurrence. *)
Fixpoint find_last_of (c : ascii) (s : string) : option nat :=
  match s with
  | EmptyString => None
  | String a s' =>
      match find_last_of c s' with
      | Some k => Some (S k)
      | None => if Ascii.eqb a c then Some 0%nat else None
      end
  end.

(** [strchr(s, c)]: index of the first occurrence. *)
Fixpoint strchr (s : string) (c : ascii) : option nat :=
  match s with
  | EmptyString => None
  | String a s' => if Ascii.eqb a c then Some 0%nat else S <$> strchr s' c
  end.

(** [str.substr(0, n)], also [memcpy(dst, s, n)] into a zeroed buffer. *)
Definition take (n : nat) (s : string) : string := String.substring 0 n s.

(** [p + n] on a string known to have at least [n] characters. *)
Fixpoint skip (n : nat) (s : string) : string :=
  match n, s with
  | O, _ => s
  | S n', String _ s' => skip n' s'
  | S _, EmptyString => EmptyString
  end.

(** [memcmp(s, lit, strlen(lit)) == 0].  The comparison stops at the first
    difference, which a shorter [s] has at its terminator at the latest. *)
Fixpoint starts_with (lit s : string) : bool :=
  match lit, s with
  | EmptyString, _ => true
  | String a lit', String b s' => Ascii.eqb a b && starts_with lit' s'
  | String _ _, EmptyString => false
  end.

(** [c] does not occur in [s]. *)
Fixpoint free_of (c : ascii) (s : string) : bool :=
  match s with
  | EmptyString => true
  | String a s' => negb (Ascii.eqb a c) && free_of c s'
  end.

(** [std::to_string] on an integer. *)
Definition to_string (z : Z) : string := NilZero.string_of_int (Z.to_int z).

End CStr.

Definition slash : ascii := "/"%char.

(** ** Fixed-width integers *)

Definition INT64_MAX : Z := 2 ^ 63 - 1.
Definition INT64_MIN : Z := - 2 ^ 63.
Definition to_uint64 (z : Z) : Z := z mod 2 ^ 64.
Definition to_int64 (z : Z) : Z := (z + 2 ^ 63) mod 2 ^ 64 - 2 ^ 63.
Definition int64_range (z : Z) : Prop := INT64_MIN <= z <= INT64_MAX.
Definition uint64_range (z : Z) : Prop := 0 <= z < 2 ^ 64.

(** [limits.h] *)
Definition PATH_MAX : nat := 4096.

(** Modelled from the spec: [CRYPT_FOOTER_OFFSET] of [cryptfs.h], the "fixed
    encryption-footer reservation"; the header is not part of the sources and
    16 KiB is the value it has in the platform. *)
Definition CRYPT_FOOTER_OFFSET : Z := 16384.

(** ** Data model *)

(** [Volume] is [struct fstab_rec] of fs_mgr, restricted to the fields
    roots.cpp reads.  [voldmanaged] is what [fs_mgr_is_voldmanaged] returns
    for the record. *)
Record Volume := mkVolume {
  blk_device : string;
  mount_point : string;
  fs_type : string;
  flags : Z;
  fs_options : option string;
  length : Z;
  key_loc : option string;
  label : option string;
  voldmanaged : bool;
  logical_blk_size : Z;
  erase_blk_size : Z
}.

Definition fs_mgr_is_voldmanaged (v : Volume) : bool := voldmanaged v.

(** What the kernel knows about a mount, besides where it is. *)
Record Backing := mkBacking {
  device : string;
  filesystem : string
}.

(** An entry of the scanned snapshot. *)
Record MountedVolume := mkMountedVolume {
  mv_mount_point : string;
  mv_backing : Backing
}.

(** What [fstat] and [get_block_device_size] say about an open file. *)
Inductive FileKind :=
| StatFails
| RegularFile (st_size : Z)
| BlockDevice (block_device_size : Z)
| OtherFile.

(** Calls issued to the operating system, as recorded in the trace. *)
Inductive Event :=
| Mkdirs (path : string)
| Mount (source target fstype : string) (mountflags : Z) (data : option string)
| Umount (target : string) (detach : bool)
| OpenCreate (path : string)
| WipeBlockDevice (path : string) (len : Z)
| Exec (argv : list string).

(** The answers of the environment.  They are outside the control of this
    layer and are quantified over.  [mount_result] and [umount_result] say
    what the kernel does with a call, given what it lists as mounted at the
    time: [None] when the call fails, and otherwise what it lists afterwards.
    The kernel lists a mount under the canonical name of its target, and
    mounts stack, so neither need be the table with the target added or
    removed.  [wait_status] is the status [waitpid] stores for the child that
    was given the argument vector. *)
Record Env := mkEnv {
  blkid_get_tag_value : string -> option string;
  proc_mounts_readable : bool;
  mount_result : gmap string Backing -> string -> string -> string -> Z ->
                 option string -> option (gmap string Backing);
  umount_result : gmap string Backing -> string -> bool ->
                  option (gmap string Backing);
  open_succeeds : string -> bool;
  file_kind : string -> FileKind;
  wait_status : list string -> Z
}.

(** [sys/wait.h]: the macros of the C library that read a wait status.  The
    low seven bits hold the signal that ended the child, 0 when it exited;
    the next byte holds the exit status. *)
Definition WTERMSIG (status : Z) : Z := Z.land status 127.
Definition WIFEXITED (status : Z) : bool := Z.eqb (WTERMSIG status) 0.
Definition WEXITSTATUS (status : Z) : Z := Z.shiftr (Z.land status 65280) 8.

(** Modelled from the spec: the mount state is "a set of (mount_point to
    backing state) pairs reflecting current OS mount state"; [mounted] is
    what the kernel lists, by the name it lists it under (the first mount
    under a name, which is the one a lookup finds), and [g_mounts_state] the
    snapshot of the last scan (mounts.cpp is not part of the sources). *)
Record State := mkState {
  mounted : gmap string Backing;
  g_mounts_state : gmap string Backing;
  trace : list Event
}.

(** ** The monad of stateful computations *)

Definition M (A : Type) : Type := State -> option (A * State).

Definition ret {A} (a : A) : M A := fun st => Some (a, st).

Definition bind {A B} (m : M A) (f : A -> M B) : M B :=
  fun st => match m st with
            | Some (a, st') => f a st'
            | None => None
            end.

Definition undefined {A} : M A := fun _ => None.

(** The state after the calls [evs] were issued. *)
Definition logged (st : State) (evs : list Event) : State :=
  mkState (mounted st) (g_mounts_state st) (trace st ++ evs).

(** The state after a scan took a snapshot. *)
Definition scanned (st : State) : State :=
  mkState (mounted st) (mounted st) (trace st).

Definition emit (e : Event) : M unit := fun st => Some (tt, logged st [e]).

Notation "'do' x <- m ; f" := (bind m (fun x => f))
  (at level 10, x name, m at level 100, f at level 200, only parsing).

Definition is_umount (e : Event) : bool :=
  match e with Umount _ _ => true | _ => false end.
Definition is_exec (e : Event) : bool :=
  match e with Exec _ => true | _ => false end.

(** ** Loading the table *)

(** The answers of the environment to [load_volume_table]: what the fstab
    reader returns, whether a table of given records can grow by one record,
    and whether the two other allocations of the function succeed. *)
Record LoadEnv := mkLoadEnv {
  fs_mgr_read_fstab_default : option (list Volume);
  realloc_succeeds : list Volume -> bool;
  calloc_succeeds : bool;
  fopen_succeeds : bool
}.

(** The record [fs_mgr_add_entry] makes of its three strings. *)
Definition synthetic (mount_point fs_type blk_device : string) : Volume :=
  mkVolume blk_device mount_point fs_type 0 None 0 None None false 0 0.

(** Modelled from the spec: [fs_mgr_add_entry] "appends the synthetic
    entry", a record with the mount point, type and device given and nothing
    else set; it returns -1, and leaves the table as it is, when the table
    cannot grow. *)
Definition fs_mgr_add_entry (le : LoadEnv) (tab : list Volume)
    (mount_point fs_type blk_device : string) : Z * list Volume :=
  if realloc_succeeds le tab
  then (0, tab ++ [synthetic mount_point fs_type blk_device])
  else (-1, tab).

(** Lines 79-91 of [load_volume_table]: the value [fstab] is left with. *)
Definition load_fstab (le : LoadEnv) : option (list Volume) :=
  match fs_mgr_read_fstab_default le with
  | None => None
  | Some tab =>
      let added := fs_mgr_add_entry le tab "/tmp" "ramdisk" "ramdisk" in
      if Z.eqb (fst added) (-1) then None else Some (snd added)
  end.

(** What lines 93-118 of [load_volume_table] produce: the text printed, the
    derived table (null when it could not be allocated) and, when the file
    could be opened, what was written to /etc/fstab, one string for each call
    of [printf] and [fprintf]. *)
Record Derived := mkDerived {
  stdout : list string;
  fake_fstab : option (list Volume);
  etc_fstab : option (list string)
}.

Definition newline : string := String "010"%char EmptyString.

(** For a goal [call = result /\ rest] in which [call] is closed: evaluates
    the call, which fixes what [result] leaves open, and keeps the equation
    as [Hrun] for [rest]. *)
Ltac run_call :=
  match goal with
  | |- ?E /\ _ =>
      let H := fresh "Hrun" in
      assert E as H by (vm_compute; reflexivity);
      split; [exact H|]
  end.

(** ** Sample tables, environments and states *)

Module Sample.

Definition volume (dev mp ty : string) : Volume :=
  mkVolume dev mp ty 0 None 0 None None false 0 0.

Definition root_volume : Volume := volume "/dev/block/system" "/" "ext4".
Definition cache_ext4 : Volume := volume "/dev/block/cache" "/cache" "ext4".
Definition cache_f2fs : Volume := volume "/dev/block/cache" "/cache" "f2fs".
Definition data_volume : Volume :=
  mkVolume "/dev/block/userdata" "/data" "f2fs" 0 None (-1024) None None false 0 0.
Definition external_volume : Volume :=
  mkVolume "/dev/block/sdcard" "/external" "ext4" 0 None 0
           (Some "/dev/block/key") (Some "sdcard1") true 0 0.
Definition tmp_volume : Volume := volume "ramdisk" "/tmp" "ramdisk".

(** A table with two candidate entries for "/cache", a vold-managed volume
    and the ramdisk entry the loader appends. *)
Definition fstab : option (list Volume) :=
  Some [root_volume; cache_ext4; cache_f2fs; data_volume; external_volume;
        tmp_volume].

(** A table where a volume is mounted below "/storage/" under a name that is
    the label of another volume. *)
Definition usb_volume : Volume :=
  mkVolume "/dev/block/sda" "/storage/sd" "ext4" 0 None 0
           (Some "/dev/block/key") (Some "usb") true 0 0.
Definition sd_volume : Volume :=
  mkVolume "/dev/block/sdb" "/mnt/x" "ext4" 0 None 0 None (Some "sd") false 0 0.
Definition storage_fstab : option (list Volume) := Some [usb_volume; sd_volume].

(** An environment in which every call succeeds and every tool exits with
    0, the cache partition carries an f2fs signature and every device is 2048
    bytes long.  Its kernel lists a mount under the target as it was given,
    in place of what it listed there, and lists nothing there after an
    unmount. *)
Definition os : Env :=
  mkEnv (fun dev => if String.eqb dev "/dev/block/cache" then Some "f2fs" else None)
        true
        (fun m source target fstype _ _ =>
           Some (<[target := mkBacking source fstype]> m))
        (fun m target _ => Some (delete target m))
        (fun _ => true)
        (fun _ => BlockDevice 2048)
        (fun _ => 0).



(** An environment like [os] in which every tool is ended by signal 11:
    the wait status is the number of the signal. *)
Definition signal_os : Env :=
  mkEnv (blkid_get_tag_value os) true (mount_result os) (umount_result os)
        (open_succeeds os) (file_kind os) (fun _ => 11).

(** The first table with a volume at "/storage/sd" that is not
    vold-managed and has no key location. *)
Definition plain_usb_volume : Volume :=
  mkVolume "/dev/block/sda" "/storage/sd" "ext4" 0 None 0 None (Some "usb") false 0 0.
Definition plain_storage_fstab : option (list Volume) :=
  Some [plain_usb_volume; sd_volume].

(** A table whose data volume reserves 4096 bytes, more than its device
    holds. *)
Definition short_volume : Volume :=
  mkVolume "/dev/block/userdata" "/data" "f2fs" 0 None (-4096) None None false 0 0.
Definition short_fstab : option (list Volume) := Some [short_volume].


(** What [load_volume_table] meets when it builds the table [fstab]: the
    fstab holds the five volumes, and every allocation succeeds. *)
Definition load_env : LoadEnv :=
  mkLoadEnv (Some [root_volume; cache_ext4; cache_f2fs; data_volume;
                   external_volume])
            (fun _ => true) true true.

(** Nothing mounted, nothing called. *)
Definition boot : State := mkState ∅ ∅ [].

(** The state in which exactly [mp] is mounted, from [dev]. *)
Definition with_mount (mp dev ty : string) : State :=
  mkState (<[mp := mkBacking dev ty]> ∅) ∅ [].

End Sample.

Section Roots.

(** [static struct fstab* fstab]: [None] until a table is loaded, then the
    records in table order. *)
Variable fstab : option (list Volume).

Variable os : Env.

Definition recs : list Volume := default [] fstab.

(** [*v] for a non-null [v]. *)
Definition deref (v : nat) : M Volume :=
  match recs !! v with
  | Some vol => ret vol
  | None => undefined
  end.

(** *** Volume table *)

(** Both read through [fstab] without a check: there is no result for a
    table that was never loaded. *)
Definition get_num_volumes : option nat := List.length <$> fstab.

Definition get_device_volumes : option (list Volume) := fstab.

(** First index at or after [i] whose record is mounted at [path];
    [rs] is the table from index [i] on. *)
Fixpoint scan_mount_point (rs : list Volume) (i : nat) (path : string)
  : option nat :=
  match rs with
  | [] => None
  | v :: rest =>
      if String.eqb (mount_point v) path then Some i
      else scan_mount_point rest (S i) path
  end.

(** Where a search after [start_rec] begins: at the start of the table for a
    null [start_rec]. *)
Definition first_after (start_rec : option nat) : nat :=
  match start_rec with Some s => S s | None => O end.

(** Modelled from the spec: fs_mgr's lookup of "subsequent table entries
    sharing the same mount point": the first record after [start_rec]
    (from the start of the table for a null [start_rec]) whose mount point
    is [path]; null for a table that is not loaded. *)
Definition fs_mgr_get_entry_for_mount_point_after
    (start_rec : option nat) (path : string) : option nat :=
  scan_mount_point (drop (first_after start_rec) recs) (first_after start_rec) path.

(** Modelled from the spec: fs_mgr's exact-match lookup by mount point. *)
Definition fs_mgr_get_entry_for_mount_point (path : string) : option nat :=
  fs_mgr_get_entry_for_mount_point_after None path.

Definition volume_for_mount_point (mount_point : string) : option nat :=
  fs_mgr_get_entry_for_mount_point mount_point.

Definition fs_type_at (v : nat) : string :=
  match recs !! v with Some vol => fs_type vol | None => "" end.

(** The [while] loop of [get_entry_for_mount_point_detect_fs]; every
    iteration moves [rec] to a later record, so the length of the table is
    enough fuel. *)
Fixpoint detect_fs_loop (fuel : nat) (rec : option nat)
    (detected_fs_type path : string) : option nat :=
  match rec with
  | None => None
  | Some r =>
      if String.eqb (fs_type_at r) detected_fs_type then Some r
      else match fuel with
           | O => None
           | S fuel' =>
               detect_fs_loop fuel'
                 (fs_mgr_get_entry_for_mount_point_after (Some r) path)
                 detected_fs_type path
           end
  end.

Definition get_entry_for_mount_point_detect_fs (path : string) : option nat :=
  match fs_mgr_get_entry_for_mount_point path with
  | None => None
  | Some rec =>
      if String.eqb (fs_type_at rec) "ext4"
         || String.eqb (fs_type_at rec) "f2fs"
         || String.eqb (fs_type_at rec) "vfat"
      then
        match recs !! rec with
        | None => None
        | Some vol =>
            match blkid_get_tag_value os (blk_device vol) with
            | None => Some rec
            | Some detected_fs_type =>
                let fetched_rec := rec in
                match detect_fs_loop (List.length recs) (Some rec)
                        detected_fs_type path with
                | None => Some fetched_rec
                | Some r => Some r
                end
            end
        end
      else Some rec
  end.

(** *** Path resolver *)

(** The [while (true)] loop of [volume_for_path]; [str] gets shorter in
    every iteration, so its length is enough fuel. *)
Fixpoint volume_for_path_loop (fuel : nat) (str : string) : option nat :=
  let result := get_entry_for_mount_point_detect_fs str in
  if bool_decide (is_Some result) || String.eqb str "/" then result
  else
    match CStr.find_last_of slash str with
    | None => None
    | Some sl =>
        match fuel with
        | O => None
        | S fuel' =>
            if Nat.eqb sl 0 then volume_for_path_loop fuel' "/"
            else volume_for_path_loop fuel' (CStr.take sl str)
        end
    end.

Definition volume_for_path (path : string) : option nat :=
  if String.eqb path "" then None
  else volume_for_path_loop (String.length path) path.

(** The [for] loop of [volume_for_label]; [rs] is the table from index [i]
    on. *)
Fixpoint volume_for_label_loop (rs : list Volume) (i : nat) (lbl : string)
  : option nat :=
  match rs with
  | [] => None
  | v :: rest =>
      match label v with
      | Some l => if String.eqb l lbl then Some i
                  else volume_for_label_loop rest (S i) lbl
      | None => volume_for_label_loop rest (S i) lbl
      end
  end.

Definition volume_for_label (lbl : string) : M (option nat) :=
  match get_device_volumes with
  | None => undefined
  | Some rs => ret (volume_for_label_loop rs 0 lbl)
  end.

(** *** Operating-system primitives *)

(** Modelled from the spec: the scan takes a fresh snapshot of the kernel's
    mount state and fails when that state cannot be read. *)
Definition scan_mounted_volumes : M bool :=
  fun st =>
    if proc_mounts_readable os
    then Some (true, scanned st)
    else Some (false, mkState (mounted st) ∅ (trace st)).

(** Modelled from the spec: lookup of a mount point in the snapshot. *)
Definition find_mounted_volume_by_mount_point (mount_point : string)
  : M (option MountedVolume) :=
  fun st => Some (mkMountedVolume mount_point <$> g_mounts_state st !! mount_point, st).

(** [umount(target)] and [umount2(target, MNT_DETACH)]: the call is recorded
    and returns 0 or -1; when it succeeds the kernel is left with the mount
    state it chose. *)
Definition umount (target : string) (detach : bool) : M Z :=
  fun st =>
    let tr := trace st ++ [Umount target detach] in
    match umount_result os (mounted st) target detach with
    | Some m => Some (0, mkState m (g_mounts_state st) tr)
    | None => Some (-1, mkState (mounted st) (g_mounts_state st) tr)
    end.

(** Modelled from the spec: "perform unmount, using a detach (lazy) mode when
    requested, else a normal unmount". *)
Definition unmount_mounted_volume (mv : MountedVolume) : M Z :=
  umount (mv_mount_point mv) false.

Definition unmount_mounted_volume_detach (mv : MountedVolume) : M Z :=
  umount (mv_mount_point mv) true.

(** [mount(source, target, fstype, flags, data)]: the call is recorded and
    returns 0 or -1; when it succeeds the kernel is left with the mount state
    it chose. *)
Definition mount (source target fstype : string) (mountflags : Z)
    (data : option string) : M Z :=
  fun st =>
    let tr := trace st ++ [Mount source target fstype mountflags data] in
    match mount_result os (mounted st) source target fstype mountflags data with
    | Some m => Some (0, mkState m (g_mounts_state st) tr)
    | None => Some (-1, mkState (mounted st) (g_mounts_state st) tr)
    end.

(** [fs_mkdirs(path, 0755)]; the result is not looked at. *)
Definition fs_mkdirs (path : string) : M unit := emit (Mkdirs path).

(** *** Mount manager *)

Definition ensure_path_mounted_at (path : string) (mount_point_arg : option string)
  : M Z :=
  match volume_for_path path with
  | None => ret (-1)
  | Some vp =>
      do v <- deref vp;
      if String.eqb (fs_type v) "ramdisk" then ret 0
      else
        do scanned <- scan_mounted_volumes;
        if negb scanned then ret (-1)
        else
          let mount_point := default (mount_point v) mount_point_arg in
          do mv <- (if negb (fs_mgr_is_voldmanaged v)
                 then find_mounted_volume_by_mount_point mount_point
                 else ret None);
          if bool_decide (is_Some mv) then ret 0
          else
            do _ <- fs_mkdirs mount_point;
            if String.eqb (fs_type v) "ext4" || String.eqb (fs_type v) "squashfs"
               || String.eqb (fs_type v) "vfat" || String.eqb (fs_type v) "f2fs"
            then
              do result <- mount (blk_device v) mount_point (fs_type v) (flags v)
                              (fs_options v);
              if Z.eqb result (-1) then ret (-1) else ret 0
            else ret (-1)
  end.

Definition ensure_volume_mounted (v : option nat) : M Z :=
  match v with
  | None => ret (-1)
  | Some vp => do vol <- deref vp; ensure_path_mounted_at (mount_point vol) None
  end.

Definition ensure_path_mounted (path : string) : M Z :=
  ensure_path_mounted_at path None.

Definition ensure_volume_unmounted (v : option nat) (detach : bool) : M Z :=
  match v with
  | None => ret (-1)
  | Some vp =>
      do vol <- deref vp;
      if String.eqb (fs_type vol) "ramdisk" then ret (-1)
      else
        do scanned <- scan_mounted_volumes;
        if negb scanned then ret (-1)
        else
          do mv <- find_mounted_volume_by_mount_point (mount_point vol);
          match mv with
          | None => ret 0
          | Some mv =>
              if detach then unmount_mounted_volume_detach mv
              else unmount_mounted_volume mv
          end
  end.

(** [char label[PATH_MAX]], zeroed: it holds [s] and its terminator only when
    [s] is shorter than [PATH_MAX]. *)
Definition copy_label (s : string) : M string :=
  if Nat.ltb (String.length s) PATH_MAX then ret s else undefined.

Definition ensure_path_unmounted (path : string) (detach : bool) : M Z :=
  do v <- (if CStr.starts_with "/storage/" path
        then
          let p := CStr.skip 9 path in
          let q := CStr.strchr p slash in
          do lbl <- match q with
                 | Some n => copy_label (CStr.take n p)
                 | None => copy_label p
                 end;
          volume_for_label lbl
        else ret (volume_for_path path));
  ensure_volume_unmounted v detach.

(** *** Format engine *)

(** Lines 289-309: the child is forked and waited for, and what is returned
    is [WEXITSTATUS(status)], whether the child exited or not. *)
Definition exec_cmd (args : list string) : M Z :=
  do _ <- emit (Exec args); ret (WEXITSTATUS (wait_status os args)).

Definition get_file_size (fd : string) (reserve_len : Z) : Z :=
  match file_kind os fd with
  | StatFails => 0
  | RegularFile st_size =>
      to_int64 (to_uint64 (to_uint64 st_size - reserve_len))
  | BlockDevice block_device_size =>
      if Z.ltb block_device_size reserve_len || Z.gtb block_device_size INT64_MAX
      then 0
      else to_int64 (to_uint64 (block_device_size - reserve_len))
  | OtherFile => 0
  end.

(** Modelled from the spec: the one-argument [get_file_size] of ext4_utils,
    which "determines its size (block-device aware)". *)
Definition ext4_utils_get_file_size (fd : string) : Z :=
  match file_kind os fd with
  | RegularFile st_size => st_size
  | BlockDevice block_device_size => block_device_size
  | _ => 0
  end.

(** Lines 359-368: a [key_loc] that looks like a path is wiped; [false] when
    it cannot be opened. *)
Definition wipe_key_loc (v : Volume) : M bool :=
  match key_loc v with
  | Some (String "/" rest as k) =>
      do _ <- emit (OpenCreate k);
      if open_succeeds os k
      then do _ <- emit (WipeBlockDevice k (ext4_utils_get_file_size k)); ret true
      else ret false
  | _ => ret true
  end.

(** Lines 370-387: the target length; [None] on the two error returns. *)
Definition format_length (v : Volume) : option Z :=
  if Z.gtb (length v) 0 then Some (length v)
  else if Z.ltb (length v) 0
          || match key_loc v with Some k => String.eqb k "footer" | None => false end
  then
    if open_succeeds os (blk_device v)
    then
      let len :=
        get_file_size (blk_device v)
          (to_uint64 (if Z.eqb (length v) 0 then CRYPT_FOOTER_OFFSET
                      else to_int64 (- length v))) in
      if Z.leb len 0 then None else Some len
    else None
  else Some 0.

(** Lines 394-435. *)
Definition format_ext4 (v : Volume) (volume : string) (directory : option string)
    (len : Z) : M Z :=
  let kBlockSize := 4096 in
  let mke2fs_args :=
    ["/sbin/mke2fs_static"; "-F"; "-t"; "ext4"; "-b"; CStr.to_string kBlockSize] in
  let raid_stride := Z.quot (logical_blk_size v) kBlockSize in
  let raid_stripe_width := Z.quot (erase_blk_size v) kBlockSize in
  let raid_stride :=
    if negb (Z.eqb (logical_blk_size v) 0) && Z.ltb (logical_blk_size v) 8192
    then Z.quot 8192 kBlockSize else raid_stride in
  let mke2fs_args :=
    if negb (Z.eqb (erase_blk_size v) 0) && negb (Z.eqb (logical_blk_size v) 0)
    then mke2fs_args
           ++ ["-E"; ("stride=" ++ CStr.to_string raid_stride ++ ",stripe-width="
                        ++ CStr.to_string raid_stripe_width)%string]
    else mke2fs_args in
  let mke2fs_args := mke2fs_args ++ [blk_device v] in
  let mke2fs_args :=
    if negb (Z.eqb len 0)
    then mke2fs_args ++ [CStr.to_string (Z.quot len kBlockSize)]
    else mke2fs_args in
  do result <- exec_cmd mke2fs_args;
  do result <- match directory with
            | Some dir =>
                if Z.eqb result 0
                then exec_cmd ["/sbin/e2fsdroid_static"; "-e"; "-f"; dir; "-a";
                               volume; blk_device v]
                else ret result
            | None => ret result
            end;
  if negb (Z.eqb result 0) then ret (-1) else ret 0.

(** Lines 437-473. *)
Definition format_f2fs (v : Volume) (volume : string) (directory : option string)
    (len : Z) : M Z :=
  let kSectorSize := 4096 in
  let make_f2fs_cmd :=
    ["/sbin/mkfs.f2fs"; "-d1"; "-f"; "-O"; "encrypt"; "-O"; "quota"; "-O"; "verity";
     "-w"; CStr.to_string kSectorSize; blk_device v] in
  let make_f2fs_cmd :=
    if Z.geb len kSectorSize
    then make_f2fs_cmd ++ [CStr.to_string (Z.quot len kSectorSize)]
    else make_f2fs_cmd in
  do result <- exec_cmd make_f2fs_cmd;
  do result <- match directory with
            | Some dir =>
                if Z.eqb result 0
                then exec_cmd ["/sbin/sload.f2fs"; "-f"; dir; "-t"; volume;
                               blk_device v]
                else ret result
            | None => ret result
            end;
  if negb (Z.eqb result 0) then ret (-1) else ret 0.

Definition format_volume (volume : string) (directory : option string) : M Z :=
  match volume_for_path volume with
  | None => ret (-1)
  | Some vp =>
      do v <- deref vp;
      if String.eqb (fs_type v) "ramdisk" then ret (-1)
      else if negb (String.eqb (mount_point v) volume) then ret (-1)
      else
        do unmounted <- ensure_path_unmounted volume false;
        if negb (Z.eqb unmounted 0) then ret (-1)
        else if negb (String.eqb (fs_type v) "ext4")
                && negb (String.eqb (fs_type v) "f2fs") then ret (-1)
        else
          do wiped <- wipe_key_loc v;
          if negb wiped then ret (-1)
          else
            match format_length v with
            | None => ret (-1)
            | Some len =>
                if fs_mgr_is_voldmanaged v then ret (-1)
                else if String.eqb (fs_type v) "ext4"
                then format_ext4 v volume directory len
                else format_f2fs v volume directory len
            end
  end.

(** *** Install-mount orchestrator *)

(** The [for] loop of [setup_install_mounts]; [rs] is the table from index
    [i] on, so that [v] is [fstab->recs + i]. *)
Fixpoint setup_install_mounts_loop (rs : list Volume) (i : nat) : M Z :=
  match rs with
  | [] => ret 0
  | v :: rest =>
      if String.eqb (mount_point v) "/" then setup_install_mounts_loop rest (S i)
      else if String.eqb (mount_point v) "/tmp" || String.eqb (mount_point v) "/cache"
      then
        do r <- ensure_path_mounted (mount_point v);
        if negb (Z.eqb r 0) then ret (-1)
        else setup_install_mounts_loop rest (S i)
      else
        let detach := String.eqb (mount_point v) "/data" in
        do r <- ensure_volume_unmounted (Some i) detach;
        if negb (Z.eqb r 0) then ret (-1)
        else setup_install_mounts_loop rest (S i)
  end.

Definition setup_install_mounts : M Z :=
  match fstab with
  | None => ret (-1)
  | Some rs => setup_install_mounts_loop rs 0
  end.

(** *** The search of the path resolver, as the specification words it *)

(** The ancestor directory of [str]: [str] without its last '/'-separated
    component.  "/" has none, and neither has a name without a '/'. *)
Definition parent (str : string) : option string :=
  if String.eqb str "/" then None
  else match CStr.find_last_of slash str with
       | None => None
       | Some O => Some "/"
       | Some sl => Some (CStr.take sl str)
       end.

(** [str] followed by its ancestors, nearest first. *)
Fixpoint ancestors (fuel : nat) (str : string) : list string :=
  str :: match fuel with
         | O => []
         | S fuel' =>
             match parent str with
             | Some p => ancestors fuel' p
             | None => []
             end
         end.

Definition search_path (path : string) : list string :=
  ancestors (String.length path) path.

(** The first configured match along a list of candidate mount points, with
    detection at each of them. *)
Fixpoint first_match (candidates : list string) : option nat :=
  match candidates with
  | [] => None
  | str :: rest =>
      match get_entry_for_mount_point_detect_fs str with
      | Some v => Some v
      | None => first_match rest
      end
  end.

(** The path [cs] components below [mp]. *)
Definition nest (mp : string) (cs : list string) : string :=
  fold_left (fun acc c => (acc ++ String slash c)%string) cs mp.

(** *** Vocabulary of the statements *)

(** Record [j] of the table is mounted at [path]. *)
Definition mounted_at (path : string) (j : nat) : Prop :=
  exists v, recs !! j = Some v /\ mount_point v = path.

(** Record [j] is mounted at [path] and configured with type [ty]. *)
Definition candidate (path ty : string) (j : nat) : Prop :=
  exists v, recs !! j = Some v /\ mount_point v = path /\ fs_type v = ty.

(** The configured types for which the signature of the device is probed. *)
Definition detects (ty : string) : Prop := ty = "ext4" \/ ty = "f2fs" \/ ty = "vfat".

(** The types [ensure_path_mounted_at] mounts. *)
Definition mountable (ty : string) : bool :=
  String.eqb ty "ext4" || String.eqb ty "squashfs" || String.eqb ty "vfat"
  || String.eqb ty "f2fs".

(** The trailer [format_volume] passes to [get_file_size]. *)
Definition reserve (v : Volume) : Z :=
  to_uint64 (if Z.eqb (length v) 0 then CRYPT_FOOTER_OFFSET
             else to_int64 (- length v)).

(** The branch of the length computation that opens the device. *)
Definition reserved_length (v : Volume) : option Z :=
  if open_succeeds os (blk_device v)
  then if Z.leb (get_file_size (blk_device v) (reserve v)) 0 then None
       else Some (get_file_size (blk_device v) (reserve v))
  else None.

(** What [fstat] can say of a file: [st_size] is not negative, and
    [get_block_device_size] returns an unsigned 64-bit number. *)
Definition stat_wf (k : FileKind) : Prop :=
  match k with
  | RegularFile st_size => 0 <= st_size <= INT64_MAX
  | BlockDevice block_device_size => uint64_range block_device_size
  | _ => True
  end.

(** [fd] is a regular file or a block device of [size] bytes. *)
Definition has_size (fd : string) (size : Z) : Prop :=
  file_kind os fd = RegularFile size \/ file_kind os fd = BlockDevice size.

(** [key_loc] "looks like a path". *)
Definition absolute (k : string) : bool :=
  match k with String "/" _ => true | _ => false end.

(** The calls that wipe the key location of [v]. *)
Definition key_wipe (v : Volume) : list Event :=
  match key_loc v with
  | Some k =>
      if absolute k
      then [OpenCreate k; WipeBlockDevice k (ext4_utils_get_file_size k)]
      else []
  | None => []
  end.



(** The one-argument [format_volume] (lines 476-478). *)
Definition format_volume_1 (volume : string) : M Z := format_volume volume None.

(** The argument vectors [format_volume] builds, by name. *)
Definition mke2fs_args (v : Volume) (len : Z) : list string :=
  let kBlockSize := 4096 in
  let mke2fs_args :=
    ["/sbin/mke2fs_static"; "-F"; "-t"; "ext4"; "-b"; CStr.to_string kBlockSize] in
  let raid_stride := Z.quot (logical_blk_size v) kBlockSize in
  let raid_stripe_width := Z.quot (erase_blk_size v) kBlockSize in
  let raid_stride :=
    if negb (Z.eqb (logical_blk_size v) 0) && Z.ltb (logical_blk_size v) 8192
    then Z.quot 8192 kBlockSize else raid_stride in
  let mke2fs_args :=
    if negb (Z.eqb (erase_blk_size v) 0) && negb (Z.eqb (logical_blk_size v) 0)
    then mke2fs_args
           ++ ["-E"; ("stride=" ++ CStr.to_string raid_stride ++ ",stripe-width="
                        ++ CStr.to_string raid_stripe_width)%string]
    else mke2fs_args in
  let mke2fs_args := mke2fs_args ++ [blk_device v] in
  if negb (Z.eqb len 0)
  then mke2fs_args ++ [CStr.to_string (Z.quot len kBlockSize)]
  else mke2fs_args.

Definition e2fsdroid_args (v : Volume) (volume dir : string) : list string :=
  ["/sbin/e2fsdroid_static"; "-e"; "-f"; dir; "-a"; volume; blk_device v].

Definition make_f2fs_cmd (v : Volume) (len : Z) : list string :=
  let kSectorSize := 4096 in
  let make_f2fs_cmd :=
    ["/sbin/mkfs.f2fs"; "-d1"; "-f"; "-O"; "encrypt"; "-O"; "quota"; "-O"; "verity";
     "-w"; CStr.to_string kSectorSize; blk_device v] in
  if Z.geb len kSectorSize
  then make_f2fs_cmd ++ [CStr.to_string (Z.quot len kSectorSize)]
  else make_f2fs_cmd.

Definition sload_f2fs_cmd (v : Volume) (volume dir : string) : list string :=
  ["/sbin/sload.f2fs"; "-f"; dir; "-t"; volume; blk_device v].

(** The formatter and the loader for the type of [v]. *)
Definition formatter_args (v : Volume) (len : Z) : list string :=
  if String.eqb (fs_type v) "ext4" then mke2fs_args v len else make_f2fs_cmd v len.

Definition loader_args (v : Volume) (volume dir : string) : list string :=
  if String.eqb (fs_type v) "ext4" then e2fsdroid_args v volume dir
  else sload_f2fs_cmd v volume dir.

(** What the dispatch of [format_volume] returns and issues, by what
    [exec_cmd] returns for the tools. *)
Definition dispatch_outcome (v : Volume) (volume : string)
    (directory : option string) (len : Z) : Z * list Event :=
  let fmt := formatter_args v len in
  if Z.eqb (WEXITSTATUS (wait_status os fmt)) 0
  then match directory with
       | None => (0, [Exec fmt])
       | Some dir =>
           let ld := loader_args v volume dir in
           (if Z.eqb (WEXITSTATUS (wait_status os ld)) 0 then 0 else -1,
            [Exec fmt; Exec ld])
       end
  else (-1, [Exec fmt]).

(** *** The derived table of [load_volume_table] *)

Definition write_fstab_entry (v : option Volume) : list string :=
  match v with
  | Some v =>
      if negb (String.eqb (fs_type v) "mtd") && negb (String.eqb (fs_type v) "emmc")
         && negb (String.eqb (fs_type v) "bml") && negb (fs_mgr_is_voldmanaged v)
         && absolute (blk_device v) && absolute (mount_point v)
      then [(blk_device v ++ " ")%string; (mount_point v ++ " ")%string;
            (fs_type v ++ " ")%string;
            (default "defaults" (fs_options v) ++ " 0 0" ++ newline)%string]
      else []
  | None => []
  end.

(** [printf("  %d %s %s %s %lld\n", i, ...)]. *)
Definition table_line (i : nat) (v : Volume) : string :=
  ("  " ++ CStr.to_string (Z.of_nat i) ++ " " ++ mount_point v ++ " " ++ fs_type v
     ++ " " ++ blk_device v ++ " " ++ CStr.to_string (length v) ++ newline)%string.

(** The first loop (lines 96-105); [rs] is the table from index [i] on,
    [fake] the derived table so far, null when it could not be allocated,
    and [out] the text printed so far.  There is no result when a null
    pointer is read through. *)
Fixpoint fake_fstab_loop (le : LoadEnv) (rs : list Volume) (i : nat)
    (fake : option (list Volume)) (out : list string)
  : option (option (list Volume) * list string) :=
  match rs with
  | [] => Some (fake, out)
  | v :: rest =>
      let out := out ++ [table_line i v] in
      match fake ≫= (fun f => scan_mount_point f 0 (mount_point v)) with
      | Some _ => fake_fstab_loop le rest (S i) fake out
      | None =>
          match get_entry_for_mount_point_detect_fs (mount_point v) ≫= (recs !!.) with
          | None => None
          | Some v_detectfs =>
              if String.eqb (fs_type v) (fs_type v_detectfs)
              then
                match fake with
                | None => None
                | Some f =>
                    fake_fstab_loop le rest (S i)
                      (Some (snd (fs_mgr_add_entry le f (mount_point v) (fs_type v)
                                    (blk_device v))))
                      out
                end
              else fake_fstab_loop le rest (S i) fake out
          end
      end
  end.

(** Lines 93-118, with [fstab] the table just loaded. *)
Definition derive_fstab (le : LoadEnv) : option Derived :=
  let fake := if calloc_succeeds le then Some [] else None in
  match fake_fstab_loop le recs 0 fake
          [("recovery filesystem table" ++ newline)%string;
           ("=========================" ++ newline)%string] with
  | None => None
  | Some (fake, out) =>
      let out := out ++ [newline] in
      if fopen_succeeds le
      then match fake with
           | None => None
           | Some f =>
               Some (mkDerived out fake
                       (Some (concat (map (fun r => write_fstab_entry (Some r)) f))))
           end
      else Some (mkDerived out fake None)
  end.

(** A record of the derived table that is written to /etc/fstab. *)
Definition written (e : Volume) : bool :=
  negb (String.eqb (fs_type e) "mtd") && negb (String.eqb (fs_type e) "emmc")
  && negb (String.eqb (fs_type e) "bml")
  && absolute (blk_device e) && absolute (mount_point e).

(** An entry of the derived table is made of a record of the table whose
    type is the type of the entry detection selects for its mount point. *)
Definition made_of_table (e : Volume) : Prop :=
  exists j v di dv,
    recs !! j = Some v
    /\ e = synthetic (mount_point v) (fs_type v) (blk_device v)
    /\ get_entry_for_mount_point_detect_fs (mount_point v) = Some di
    /\ recs !! di = Some dv /\ fs_type v = fs_type dv.

(** A call that runs a tool runs one of the four tools of the format engine,
    by an argument vector that is not empty. *)
Definition format_tool (e : Event) : Prop :=
  match e with
  | Exec args =>
      exists tool rest,
        args = tool :: rest
        /\ tool ∈ ["/sbin/mke2fs_static"; "/sbin/e2fsdroid_static";
                   "/sbin/mkfs.f2fs"; "/sbin/sload.f2fs"]
  | _ => True
  end.

(** ** Properties *)

(** *** The volume table *)

Lemma recs_loaded vp v : recs !! vp = Some v -> fstab <> None.
Proof.
  unfold recs. destruct fstab; [discriminate|]. simpl. rewrite lookup_nil.
  discriminate.
Qed.

Lemma candidate_mounted_at path ty j : candidate path ty j -> mounted_at path j.
Proof. intros (v & ? & ? & ?). exists v. auto. Qed.

Lemma fs_type_at_lookup j v : recs !! j = Some v -> fs_type_at j = fs_type v.
Proof. unfold fs_type_at. intros ->. reflexivity. Qed.

Lemma mounted_at_candidate path j :
  mounted_at path j -> candidate path (fs_type_at j) j.
Proof.
  intros (v & Hv & Hmp). exists v. rewrite (fs_type_at_lookup _ _ Hv). auto.
Qed.

Lemma scan_mount_point_Some rs i path j :
  scan_mount_point rs i path = Some j ->
  (i <= j)%nat
  /\ (exists v, rs !! (j - i)%nat = Some v /\ mount_point v = path)
  /\ forall k v, (i <= k < j)%nat -> rs !! (k - i)%nat = Some v ->
                 mount_point v <> path.
Proof.
  revert i. induction rs as [|v rest IH]; intros i; simpl; [discriminate|].
  destruct (String.eqb_spec (mount_point v) path) as [Heq|Hne].
  - intros [= <-]. split; [lia|]. split.
    + exists v. rewrite Nat.sub_diag. auto.
    + intros k w Hk. lia.
  - intros Hscan. apply IH in Hscan as (Hle & (w & Hw & Hmp) & Hbefore).
    split; [lia|]. split.
    + exists w. replace (j - i)%nat with (S (j - S i)) by lia. auto.
    + intros k u Hk Hu. destruct (decide (k = i)) as [->|Hki].
      * rewrite Nat.sub_diag in Hu. simpl in Hu. congruence.
      * apply (Hbefore k u); [lia|].
        replace (k - i)%nat with (S (k - S i)) in Hu by lia. exact Hu.
Qed.

Lemma scan_mount_point_None rs i path :
  scan_mount_point rs i path = None ->
  forall k v, rs !! k = Some v -> mount_point v <> path.
Proof.
  revert i. induction rs as [|v rest IH]; intros i; simpl.
  - intros _ k w Hk. rewrite lookup_nil in Hk. discriminate.
  - destruct (String.eqb_spec (mount_point v) path) as [Heq|Hne]; [discriminate|].
    intros Hscan [|k] w Hk; simpl in Hk.
    + congruence.
    + eapply IH; eauto.
Qed.

Lemma after_Some start path j :
  fs_mgr_get_entry_for_mount_point_after start path = Some j ->
  (first_after start <= j)%nat /\ mounted_at path j
  /\ forall k, (first_after start <= k < j)%nat -> ~ mounted_at path k.
Proof.
  unfold fs_mgr_get_entry_for_mount_point_after. intros Hscan.
  set (i := first_after start) in *.
  apply scan_mount_point_Some in Hscan as (Hle & (v & Hv & Hmp) & Hbefore).
  rewrite lookup_drop in Hv. replace (i + (j - i))%nat with j in Hv by lia.
  split; [exact Hle|]. split; [exists v; auto|].
  intros k Hk (w & Hw & Hwmp). apply (Hbefore k w Hk); [|exact Hwmp].
  rewrite lookup_drop. replace (i + (k - i))%nat with k by lia. exact Hw.
Qed.

Lemma after_None start path :
  fs_mgr_get_entry_for_mount_point_after start path = None ->
  forall k, (first_after start <= k)%nat -> ~ mounted_at path k.
Proof.
  unfold fs_mgr_get_entry_for_mount_point_after. intros Hscan k Hk (v & Hv & Hmp).
  set (i := first_after start) in *.
  apply (scan_mount_point_None _ _ _ Hscan (k - i)%nat v); [|exact Hmp].
  rewrite lookup_drop. replace (i + (k - i))%nat with k by lia. exact Hv.
Qed.

Lemma lookup_mounted_at path rec :
  fs_mgr_get_entry_for_mount_point path = Some rec -> mounted_at path rec.
Proof. intros H. apply after_Some in H. tauto. Qed.

Lemma lookup_first path rec :
  fs_mgr_get_entry_for_mount_point path = Some rec ->
  forall k, (k < rec)%nat -> ~ mounted_at path k.
Proof.
  intros H k Hk. apply after_Some in H as (_ & _ & Hb). apply Hb. simpl. lia.
Qed.

Lemma lookup_None path :
  fs_mgr_get_entry_for_mount_point path = None -> forall k, ~ mounted_at path k.
Proof. intros H k. apply (after_None _ _ H). simpl. lia. Qed.

Lemma lookup_is_Some path j :
  mounted_at path j -> is_Some (fs_mgr_get_entry_for_mount_point path).
Proof.
  intros Hj. destruct (fs_mgr_get_entry_for_mount_point path) eqn:E; [eauto|].
  exfalso. exact (lookup_None _ E j Hj).
Qed.

(** *** Filesystem-type detection *)

Lemma detect_fs_loop_found d path fuel r j :
  mounted_at path r -> (r <= j)%nat -> candidate path d j ->
  (forall k, (r <= k < j)%nat -> ~ candidate path d k) ->
  (j - r <= fuel)%nat ->
  detect_fs_loop fuel (Some r) d path = Some j.
Proof.
  revert r. induction fuel as [|fuel IH]; intros r Hr Hle Hj Hbefore Hfuel.
  - assert (r = j) as -> by lia. destruct Hj as (v & Hv & _ & Hty).
    simpl. rewrite (fs_type_at_lookup _ _ Hv), Hty, String.eqb_refl. reflexivity.
  - simpl. destruct (String.eqb_spec (fs_type_at r) d) as [Heq|Hne].
    + destruct (decide (r = j)) as [->|Hrj]; [reflexivity|].
      exfalso. apply (Hbefore r); [lia|]. rewrite <- Heq.
      apply mounted_at_candidate, Hr.
    + assert (r < j)%nat as Hlt.
      { destruct (decide (r = j)) as [->|]; [|lia]. exfalso. apply Hne.
        destruct Hj as (v & Hv & _ & Hty). rewrite (fs_type_at_lookup _ _ Hv). exact Hty. }
      destruct (fs_mgr_get_entry_for_mount_point_after (Some r) path) as [r'|] eqn:E.
      * apply after_Some in E as (Hr' & Hm' & Hb'). cbn [first_after] in *.
        assert (r' <= j)%nat.
        { destruct (decide (r' <= j)%nat); [assumption|]. exfalso.
          apply (Hb' j); [lia|]. eapply candidate_mounted_at, Hj. }
        apply IH; auto; [|lia]. intros k Hk. apply Hbefore. lia.
      * exfalso. apply (after_None _ _ E j); [cbn [first_after]; lia|].
        eapply candidate_mounted_at, Hj.
Qed.

Lemma detect_fs_loop_none d path fuel r :
  mounted_at path r -> (forall k, (r <= k)%nat -> ~ candidate path d k) ->
  detect_fs_loop fuel (Some r) d path = None.
Proof.
  revert r. induction fuel as [|fuel IH]; intros r Hr Hnone; simpl;
    destruct (String.eqb_spec (fs_type_at r) d) as [Heq|Hne];
    try (exfalso; apply (Hnone r); [lia|]; rewrite <- Heq;
         apply mounted_at_candidate, Hr); [reflexivity|].
  destruct (fs_mgr_get_entry_for_mount_point_after (Some r) path) as [r'|] eqn:E.
  - apply after_Some in E as (Hr' & Hm' & _). cbn [first_after] in *.
    apply IH; [exact Hm'|].
    intros k Hk. apply Hnone. lia.
  - destruct fuel; reflexivity.
Qed.

Lemma detects_test ty :
  String.eqb ty "ext4" || String.eqb ty "f2fs" || String.eqb ty "vfat" = true
  <-> detects ty.
Proof.
  unfold detects. rewrite !orb_true_iff, !String.eqb_eq. tauto.
Qed.

Lemma detect_fs_unfold path rec vol :
  fs_mgr_get_entry_for_mount_point path = Some rec -> recs !! rec = Some vol ->
  get_entry_for_mount_point_detect_fs path =
    if String.eqb (fs_type vol) "ext4" || String.eqb (fs_type vol) "f2fs"
       || String.eqb (fs_type vol) "vfat"
    then match blkid_get_tag_value os (blk_device vol) with
         | None => Some rec
         | Some d =>
             match detect_fs_loop (List.length recs) (Some rec) d path with
             | None => Some rec
             | Some r => Some r
             end
         end
    else Some rec.
Proof.
  intros Hlook Hvol. unfold get_entry_for_mount_point_detect_fs.
  rewrite Hlook, (fs_type_at_lookup _ _ Hvol), Hvol. reflexivity.
Qed.

Lemma detect_fs_is_Some path :
  is_Some (get_entry_for_mount_point_detect_fs path)
  <-> is_Some (fs_mgr_get_entry_for_mount_point path).
Proof.
  unfold get_entry_for_mount_point_detect_fs.
  destruct (fs_mgr_get_entry_for_mount_point path) as [rec|] eqn:E; [|tauto].
  split; [eauto|intros _].
  destruct (lookup_mounted_at _ _ E) as (v & Hv & _). rewrite Hv.
  repeat case_match; eauto.
Qed.

Lemma detect_fs_loop_sound d path fuel r j :
  mounted_at path r -> detect_fs_loop fuel (Some r) d path = Some j ->
  mounted_at path j.
Proof.
  revert r. induction fuel as [|fuel IH]; intros r Hr; simpl;
    destruct (String.eqb (fs_type_at r) d); try discriminate;
    try (intros [= <-]; exact Hr).
  destruct (fs_mgr_get_entry_for_mount_point_after (Some r) path) as [r'|] eqn:E.
  - apply after_Some in E as (_ & Hm' & _). apply IH, Hm'.
  - destruct fuel; discriminate.
Qed.

Lemma detect_fs_mounted_at path r :
  get_entry_for_mount_point_detect_fs path = Some r -> mounted_at path r.
Proof.
  destruct (fs_mgr_get_entry_for_mount_point path) as [rec|] eqn:E.
  - pose proof (lookup_mounted_at _ _ E) as Hrec.
    destruct Hrec as (vol & Hvol & Hmp).
    rewrite (detect_fs_unfold _ _ _ E Hvol).
    assert (mounted_at path rec) as Hrec by (exists vol; auto).
    destruct (_ || _); [|intros [= <-]; exact Hrec].
    destruct (blkid_get_tag_value os (blk_device vol)) as [d|];
      [|intros [= <-]; exact Hrec].
    destruct (detect_fs_loop _ _ d path) as [j|] eqn:Hloop;
      intros [= <-]; [|exact Hrec].
    eapply detect_fs_loop_sound; eauto.
  - unfold get_entry_for_mount_point_detect_fs. rewrite E. discriminate.
Qed.

Lemma detect_fs_None path :
  get_entry_for_mount_point_detect_fs path = None <->
  fs_mgr_get_entry_for_mount_point path = None.
Proof.
  pose proof (detect_fs_is_Some path) as H.
  destruct (get_entry_for_mount_point_detect_fs path),
    (fs_mgr_get_entry_for_mount_point path); split; intros E;
    try reflexivity; try discriminate; exfalso.
  - assert (is_Some (@None nat)) as [? [=]] by (apply H; eauto).
  - assert (is_Some (@None nat)) as [? [=]] by (apply H; eauto).
Qed.

(** C4.  Detection starts from the entry the table lookup configures for the
    mount point.  When its type is none of ext4, f2fs, vfat it is returned
    as it is; when the signature probe of its device fails it is returned
    unchanged; when the probe yields a type [d] other than the configured
    one, the result is the first later entry with the same mount point and
    configured type [d], and the configured entry when there is none.  In
    particular an ext4 entry whose device carries an f2fs signature resolves
    to the second entry of its mount point when that one is configured
    f2fs. *)
Theorem detect_fs_resolution path rec vol :
  fs_mgr_get_entry_for_mount_point path = Some rec ->
  recs !! rec = Some vol ->
  (~ detects (fs_type vol) ->
   get_entry_for_mount_point_detect_fs path = Some rec)
  /\ (detects (fs_type vol) ->
      blkid_get_tag_value os (blk_device vol) = None ->
      get_entry_for_mount_point_detect_fs path = Some rec)
  /\ (forall d,
        detects (fs_type vol) ->
        blkid_get_tag_value os (blk_device vol) = Some d ->
        d <> fs_type vol ->
        (forall j, (rec < j)%nat -> candidate path d j ->
                   (forall k, (rec < k < j)%nat -> ~ candidate path d k) ->
                   get_entry_for_mount_point_detect_fs path = Some j)
        /\ ((forall j, (rec < j)%nat -> ~ candidate path d j) ->
            get_entry_for_mount_point_detect_fs path = Some rec))
  /\ (fs_type vol = "ext4" ->
      blkid_get_tag_value os (blk_device vol) = Some "f2fs" ->
      forall j, (rec < j)%nat -> candidate path "f2fs" j ->
                (forall k, (rec < k < j)%nat -> ~ mounted_at path k) ->
                get_entry_for_mount_point_detect_fs path = Some j).
Proof.
  intros Hlook Hvol. rewrite (detect_fs_unfold _ _ _ Hlook Hvol).
  pose proof (lookup_mounted_at _ _ Hlook) as Hrec.
  assert (forall d, d <> fs_type vol -> ~ candidate path d rec) as Hself.
  { intros d Hd (v & Hv & _ & Hty). congruence. }
  assert (forall d j,
             blkid_get_tag_value os (blk_device vol) = Some d ->
             d <> fs_type vol -> (rec < j)%nat -> candidate path d j ->
             (forall k, (rec < k < j)%nat -> ~ candidate path d k) ->
             match blkid_get_tag_value os (blk_device vol) with
             | None => Some rec
             | Some d =>
                 match detect_fs_loop (List.length recs) (Some rec) d path with
                 | None => Some rec
                 | Some r => Some r
                 end
             end = Some j) as Hfound.
  { intros d j Hprobe Hd Hlt Hj Hbefore. rewrite Hprobe.
    rewrite (detect_fs_loop_found d path _ rec j); auto; [lia| |].
    - intros k Hk. destruct (decide (k = rec)) as [->|]; [auto|].
      apply Hbefore. lia.
    - destruct Hj as (v & Hv & _). apply lookup_lt_Some in Hv. lia. }
  split; [|split; [|split]].
  - intros Hno. destruct (_ || _) eqn:Htest; [|reflexivity].
    apply detects_test in Htest. contradiction.
  - intros Hdet Hprobe. apply detects_test in Hdet. rewrite Hdet, Hprobe.
    reflexivity.
  - intros d Hdet Hprobe Hd. apply detects_test in Hdet. rewrite Hdet. split.
    + intros j Hlt Hj Hbefore. eauto.
    + intros Hnone. rewrite Hprobe, detect_fs_loop_none; auto.
      intros k Hk. destruct (decide (k = rec)) as [->|]; [auto|].
      apply Hnone. lia.
  - intros Hext Hprobe j Hlt Hj Hsecond.
    assert (detects (fs_type vol)) as Hdet by (left; exact Hext).
    apply detects_test in Hdet. rewrite Hdet.
    apply (Hfound "f2fs"); auto; [congruence|].
    intros k Hk Hc. apply (Hsecond k Hk). eapply candidate_mounted_at, Hc.
Qed.

(** *** Strings *)

Lemma find_last_of_lt c s k :
  CStr.find_last_of c s = Some k -> (k < String.length s)%nat.
Proof.
  revert k. induction s as [|a s IH]; intros k; simpl; [discriminate|].
  destruct (CStr.find_last_of c s) as [k'|].
  - intros [= <-]. specialize (IH k' eq_refl). lia.
  - destruct (Ascii.eqb a c); [intros [= <-]; lia|discriminate].
Qed.

Lemma find_last_of_free c s :
  CStr.free_of c s = true -> CStr.find_last_of c s = None.
Proof.
  induction s as [|a s IH]; simpl; [reflexivity|].
  intros [Ha Hs]%andb_true_iff. rewrite (IH Hs).
  apply negb_true_iff in Ha. rewrite Ha. reflexivity.
Qed.

Lemma find_last_of_app c a b :
  CStr.free_of c b = true ->
  CStr.find_last_of c (a ++ String c b)%string = Some (String.length a).
Proof.
  intros Hb. induction a as [|x a IH]; simpl.
  - rewrite (find_last_of_free _ _ Hb), Ascii.eqb_refl. reflexivity.
  - rewrite IH. reflexivity.
Qed.

Lemma find_last_of_0 c s :
  CStr.find_last_of c s = Some 0%nat ->
  exists rest, s = String c rest /\ CStr.find_last_of c rest = None.
Proof.
  destruct s as [|a s]; simpl; [discriminate|].
  destruct (CStr.find_last_of c s) eqn:E; [discriminate|].
  destruct (Ascii.eqb_spec a c) as [->|]; [|discriminate].
  intros _. exists s. auto.
Qed.

Lemma take_app_length a b : CStr.take (String.length a) (a ++ b)%string = a.
Proof.
  unfold CStr.take. induction a as [|x a IH]; simpl.
  - destruct b; reflexivity.
  - rewrite IH. reflexivity.
Qed.

Lemma length_take n s :
  (n <= String.length s)%nat -> String.length (CStr.take n s) = n.
Proof.
  unfold CStr.take. revert s. induction n as [|n IH]; intros s Hn.
  - destruct s; reflexivity.
  - destruct s as [|a s]; simpl in *; [lia|]. rewrite IH; [reflexivity|lia].
Qed.

Lemma length_app_string a b :
  String.length (a ++ b)%string = (String.length a + String.length b)%nat.
Proof. induction a as [|x a IH]; simpl; [reflexivity|]. rewrite IH. reflexivity. Qed.

Lemma string_nonempty_length s : s <> "" <-> (1 <= String.length s)%nat.
Proof. destruct s; simpl; split; try congruence; try lia. Qed.

(** *** Path resolution *)

Lemma parent_shorter str p :
  parent str = Some p -> (1 <= String.length p < String.length str)%nat.
Proof.
  unfold parent. destruct (String.eqb_spec str "/") as [|Hroot]; [discriminate|].
  destruct (CStr.find_last_of slash str) as [[|sl]|] eqn:E; intros [= <-].
  - apply find_last_of_0 in E as (rest & -> & _).
    destruct rest; [contradiction|]. simpl. lia.
  - apply find_last_of_lt in E. rewrite length_take; lia.
Qed.

Lemma parent_absolute rest p :
  parent (String slash rest) = Some p -> exists rest', p = String slash rest'.
Proof.
  unfold parent. destruct (String.eqb (String slash rest) "/"); [discriminate|].
  destruct (CStr.find_last_of slash (String slash rest)) as [[|sl]|]; intros [= <-].
  - eauto.
  - unfold CStr.take. simpl. eauto.
Qed.

Lemma parent_absolute_none rest :
  parent (String slash rest) = None -> String slash rest = "/".
Proof.
  unfold parent. destruct (String.eqb_spec (String slash rest) "/"); [auto|].
  simpl. destruct (CStr.find_last_of slash rest) as [[|sl]|]; discriminate.
Qed.

Lemma parent_nested mp c :
  mp <> "" -> CStr.free_of slash c = true ->
  parent (mp ++ String slash c)%string = Some mp.
Proof.
  intros Hmp Hc. unfold parent.
  destruct (String.eqb_spec (mp ++ String slash c)%string "/") as [E|_].
  - apply (f_equal String.length) in E. rewrite length_app_string in E.
    apply string_nonempty_length in Hmp. simpl in E. lia.
  - rewrite find_last_of_app by exact Hc.
    destruct (String.length mp) eqn:El.
    + apply string_nonempty_length in Hmp. lia.
    + rewrite <- El, take_app_length. reflexivity.
Qed.

Lemma ancestors_fuel f1 f2 str :
  (1 <= String.length str <= f1)%nat -> (String.length str <= f2)%nat ->
  ancestors f1 str = ancestors f2 str.
Proof.
  revert f2 str. induction f1 as [|f1 IH]; intros f2 str H1 H2; [lia|].
  destruct f2 as [|f2]; [lia|]. simpl.
  destruct (parent str) as [p|] eqn:E; [|reflexivity].
  apply parent_shorter in E. f_equal. apply IH; lia.
Qed.

Lemma ancestors_step fuel str i a b :
  ancestors fuel str !! i = Some a -> ancestors fuel str !! S i = Some b ->
  parent a = Some b.
Proof.
  revert str i. induction fuel as [|fuel IH]; intros str i.
  - destruct i; simpl; discriminate.
  - simpl. destruct i as [|i]; simpl.
    + intros [= ->]. destruct (parent a) as [p|]; [|discriminate].
      destruct fuel; simpl; congruence.
    + destruct (parent str) as [p|]; [|discriminate]. apply IH.
Qed.

Lemma ancestors_last fuel str e :
  (1 <= String.length str <= fuel)%nat ->
  last (ancestors fuel str) = Some e -> parent e = None.
Proof.
  revert str. induction fuel as [|fuel IH]; intros str Hlen; [lia|].
  simpl. destruct (parent str) as [p|] eqn:E.
  - apply parent_shorter in E.
    assert (ancestors fuel p <> []) as Hne by (destruct fuel; discriminate).
    destruct (ancestors fuel p) as [|x l] eqn:El; [contradiction|].
    rewrite last_cons_cons, <- El. apply IH. lia.
  - simpl. congruence.
Qed.

Lemma ancestors_last_absolute fuel rest e :
  (String.length (String slash rest) <= fuel)%nat ->
  last (ancestors fuel (String slash rest)) = Some e -> e = "/".
Proof.
  revert rest. induction fuel as [|fuel IH]; intros rest Hlen; [simpl in Hlen; lia|].
  cbn [ancestors]. destruct (parent (String slash rest)) as [p|] eqn:E.
  - destruct (parent_absolute _ _ E) as (rest' & ->).
    apply parent_shorter in E.
    assert (ancestors fuel (String slash rest') <> []) as Hne
        by (destruct fuel; discriminate).
    destruct (ancestors fuel (String slash rest')) as [|x l] eqn:El;
      [contradiction|].
    rewrite last_cons_cons, <- El. apply IH. lia.
  - apply parent_absolute_none in E. simpl. intros [= <-]. exact E.
Qed.

Lemma volume_for_path_loop_first_match fuel str :
  volume_for_path_loop fuel str = first_match (ancestors fuel str).
Proof.
  revert str. induction fuel as [|fuel IH]; intros str.
  - simpl. destruct (get_entry_for_mount_point_detect_fs str) as [v|];
      [reflexivity|].
    simpl. destruct (String.eqb str "/"); [reflexivity|].
    destruct (CStr.find_last_of slash str); reflexivity.
  - cbn [volume_for_path_loop ancestors first_match].
    destruct (get_entry_for_mount_point_detect_fs str) as [v|]; [reflexivity|].
    unfold parent. simpl.
    destruct (String.eqb str "/"); [reflexivity|].
    destruct (CStr.find_last_of slash str) as [[|sl]|]; simpl;
      [apply IH|apply IH|reflexivity].
Qed.

Lemma volume_for_path_first_match path :
  path <> "" -> volume_for_path path = first_match (search_path path).
Proof.
  intros Hne. unfold volume_for_path, search_path.
  destruct (String.eqb_spec path ""); [contradiction|].
  apply volume_for_path_loop_first_match.
Qed.

Lemma nest_snoc mp cs c :
  nest mp (cs ++ [c]) = (nest mp cs ++ String slash c)%string.
Proof. unfold nest. rewrite fold_left_app. reflexivity. Qed.

Lemma nest_nonempty mp cs : mp <> "" -> nest mp cs <> "".
Proof.
  intros Hmp. induction cs as [|c cs IH] using rev_ind; [exact Hmp|].
  rewrite nest_snoc. destruct (nest mp cs); [contradiction|discriminate].
Qed.

Lemma volume_for_path_parent mp c :
  mp <> "" -> CStr.free_of slash c = true ->
  fs_mgr_get_entry_for_mount_point (mp ++ String slash c)%string = None ->
  volume_for_path (mp ++ String slash c)%string = volume_for_path mp.
Proof.
  intros Hmp Hc Hnone.
  assert ((mp ++ String slash c)%string <> "") as Hne
      by (destruct mp; [contradiction|discriminate]).
  rewrite !volume_for_path_first_match by assumption.
  unfold search_path. rewrite length_app_string. simpl String.length.
  rewrite Nat.add_succ_r. cbn [ancestors first_match].
  apply detect_fs_None in Hnone. rewrite Hnone, parent_nested by assumption.
  f_equal. apply string_nonempty_length in Hmp. apply ancestors_fuel; lia.
Qed.

(** C3.  An empty path is not found.  For a non-empty path the resolver
    returns the first configured match, with detection at each step, along
    the search path: the path itself, then each ancestor obtained by trimming
    the last '/'-separated component, ending where there is nothing left to
    trim, which for an absolute path is "/".  Hence a path nested below a
    mount point, with no table entry for the nested path or for a directory
    between the two, resolves to what the mount point resolves to. *)
Theorem volume_for_path_resolution :
  volume_for_path "" = None
  /\ (forall path, path <> "" ->
        volume_for_path path = first_match (search_path path))
  /\ (forall path, path <> "" ->
        head (search_path path) = Some path
        /\ (forall i a b, search_path path !! i = Some a ->
                          search_path path !! S i = Some b -> parent a = Some b)
        /\ (forall e, last (search_path path) = Some e -> parent e = None)
        /\ (forall rest e, path = String slash rest ->
                           last (search_path path) = Some e -> e = "/"))
  /\ (forall mp cs,
        mp <> "" ->
        Forall (fun c => CStr.free_of slash c = true) cs ->
        (forall cs', cs' <> [] -> cs' `prefix_of` cs ->
                     fs_mgr_get_entry_for_mount_point (nest mp cs') = None) ->
        volume_for_path (nest mp cs) = volume_for_path mp).
Proof.
  split; [reflexivity|]. split; [exact volume_for_path_first_match|]. split.
  - intros path Hne. unfold search_path. split; [|split; [|split]].
    + destruct (String.length path); reflexivity.
    + intros i a b. apply ancestors_step.
    + intros e. apply ancestors_last. apply string_nonempty_length in Hne. lia.
    + intros rest e ->. apply ancestors_last_absolute. lia.
  - intros mp cs Hmp. induction cs as [|c cs IH] using rev_ind;
      intros Hfree Hnone; [reflexivity|].
    apply Forall_app in Hfree as [Hcs Hc]. apply Forall_inv in Hc.
    rewrite nest_snoc, volume_for_path_parent.
    + apply IH; [exact Hcs|]. intros cs' Hne' Hpre. apply Hnone; [exact Hne'|].
      apply prefix_app_r, Hpre.
    + apply nest_nonempty, Hmp.
    + exact Hc.
    + rewrite <- nest_snoc. apply Hnone; [destruct cs; discriminate|reflexivity].
Qed.

(** *** Mount manager *)

Lemma volume_for_path_mounted_at path vp :
  volume_for_path path = Some vp -> exists str, mounted_at str vp.
Proof.
  unfold volume_for_path. destruct (String.eqb path ""); [discriminate|].
  rewrite volume_for_path_loop_first_match.
  induction (ancestors (String.length path) path) as [|str l IH]; simpl;
    [discriminate|].
  destruct (get_entry_for_mount_point_detect_fs str) as [v|] eqn:E; [|exact IH].
  intros [= <-]. exists str. apply detect_fs_mounted_at, E.
Qed.

Lemma volume_for_path_valid path vp :
  volume_for_path path = Some vp -> is_Some (recs !! vp).
Proof.
  intros H. apply volume_for_path_mounted_at in H as (str & v & Hv & _). eauto.
Qed.

(** A path that is itself a configured mount point resolves to an entry
    mounted there. *)
Lemma volume_for_path_exact path j :
  path <> "" -> mounted_at path j ->
  exists vp, volume_for_path path = Some vp /\ mounted_at path vp.
Proof.
  intros Hne Hj. unfold volume_for_path.
  destruct (String.eqb_spec path ""); [contradiction|].
  apply lookup_is_Some, detect_fs_is_Some in Hj as [vp Hvp].
  exists vp. split; [|apply detect_fs_mounted_at, Hvp].
  destruct (String.length path); simpl; rewrite Hvp; reflexivity.
Qed.

(** Symbolic run of [ensure_path_mounted_at] on a path that resolves. *)
Lemma ensure_path_mounted_at_run path mp_arg vp v st :
  volume_for_path path = Some vp -> recs !! vp = Some v ->
  ensure_path_mounted_at path mp_arg st =
    if String.eqb (fs_type v) "ramdisk" then Some (0, st)
    else if proc_mounts_readable os then
      let target := default (mount_point v) mp_arg in
      if negb (voldmanaged v) && bool_decide (is_Some (mounted st !! target))
      then Some (0, scanned st)
      else
        let st1 := logged (scanned st) [Mkdirs target] in
        if mountable (fs_type v)
        then
          let call := Mount (blk_device v) target (fs_type v) (flags v) (fs_options v) in
          match mount_result os (mounted st) (blk_device v) target (fs_type v)
                  (flags v) (fs_options v) with
          | Some m => Some (0, mkState m (mounted st) (trace st ++ [Mkdirs target; call]))
          | None => Some (-1, logged (scanned st) [Mkdirs target; call])
          end
        else Some (-1, st1)
    else Some (-1, mkState (mounted st) ∅ (trace st)).
Proof.
  intros Hpath Hv. unfold ensure_path_mounted_at, deref, bind. rewrite Hpath, Hv.
  unfold ret at 1. destruct (String.eqb (fs_type v) "ramdisk"); [reflexivity|].
  unfold scan_mounted_volumes. destruct (proc_mounts_readable os); [|reflexivity].
  cbn [negb]. unfold fs_mgr_is_voldmanaged, mountable.
  destruct (voldmanaged v); cbn [negb andb].
  - unfold ret, fs_mkdirs, emit, mount, logged, scanned. simpl.
    destruct (_ || _); [|reflexivity].
    destruct (mount_result _ _ _ _ _ _ _); simpl; rewrite <- app_assoc; reflexivity.
  - unfold find_mounted_volume_by_mount_point, scanned. simpl.
    destruct (mounted st !! default (mount_point v) mp_arg); simpl; [reflexivity|].
    unfold ret, fs_mkdirs, emit, mount, logged. simpl.
    destruct (_ || _); [|reflexivity].
    destruct (mount_result _ _ _ _ _ _ _); simpl; rewrite <- app_assoc; reflexivity.
Qed.

(** Symbolic run of [ensure_volume_unmounted] on an entry of the table. *)
Lemma ensure_volume_unmounted_run vp v detach st :
  recs !! vp = Some v ->
  ensure_volume_unmounted (Some vp) detach st =
    if String.eqb (fs_type v) "ramdisk" then Some (-1, st)
    else if proc_mounts_readable os then
      match mounted st !! mount_point v with
      | None => Some (0, scanned st)
      | Some _ =>
          let call := Umount (mount_point v) detach in
          match umount_result os (mounted st) (mount_point v) detach with
          | Some m => Some (0, mkState m (mounted st) (trace st ++ [call]))
          | None => Some (-1, logged (scanned st) [call])
          end
      end
    else Some (-1, mkState (mounted st) ∅ (trace st)).
Proof.
  intros Hv. unfold ensure_volume_unmounted, deref, bind. rewrite Hv.
  unfold ret at 1. destruct (String.eqb (fs_type v) "ramdisk"); [reflexivity|].
  unfold scan_mounted_volumes. destruct (proc_mounts_readable os); [|reflexivity].
  cbn [negb]. unfold find_mounted_volume_by_mount_point, scanned. simpl.
  destruct (mounted st !! mount_point v); simpl; [|reflexivity].
  unfold unmount_mounted_volume_detach, unmount_mounted_volume, umount. simpl.
  destruct detach; destruct (umount_result _ _ _ _); reflexivity.
Qed.


Lemma strchr_app c a b :
  CStr.free_of c a = true ->
  CStr.strchr (a ++ String c b)%string c = Some (String.length a).
Proof.
  induction a as [|x a IH]; simpl.
  - rewrite Ascii.eqb_refl. reflexivity.
  - intros [Hx Ha]%andb_true_iff. apply negb_true_iff in Hx.
    rewrite Hx, (IH Ha). reflexivity.
Qed.

Lemma strchr_free c s : CStr.free_of c s = true -> CStr.strchr s c = None.
Proof.
  induction s as [|x s IH]; simpl; [reflexivity|].
  intros [Hx Hs]%andb_true_iff. apply negb_true_iff in Hx.
  rewrite Hx, (IH Hs). reflexivity.
Qed.

Lemma storage_prefix x :
  CStr.starts_with "/storage/" ("/storage/" ++ x)%string = true.
Proof. reflexivity. Qed.

Lemma storage_skip x : CStr.skip 9 ("/storage/" ++ x)%string = x.
Proof. reflexivity. Qed.

Lemma copy_label_fits s st :
  (String.length s < PATH_MAX)%nat -> copy_label s st = Some (s, st).
Proof.
  intros Hlen. unfold copy_label. apply Nat.ltb_lt in Hlen. rewrite Hlen.
  reflexivity.
Qed.

(** C9.  A path below "/storage/" is resolved by label: the label is the
    segment that follows the prefix, up to the next '/' or to the end of the
    path, and [ensure_path_unmounted] unmounts exactly the volume that
    [volume_for_label] returns for it (the segment has to fit the buffer it
    is copied to).  Every other path is resolved by [volume_for_path]. *)
Theorem ensure_path_unmounted_resolution :
  (forall lbl rest detach st,
      CStr.free_of slash lbl = true -> (String.length lbl < PATH_MAX)%nat ->
      ensure_path_unmounted ("/storage/" ++ lbl ++ String slash rest)%string detach st
      = (do v <- volume_for_label lbl; ensure_volume_unmounted v detach) st)
  /\ (forall lbl detach st,
        CStr.free_of slash lbl = true -> (String.length lbl < PATH_MAX)%nat ->
        ensure_path_unmounted ("/storage/" ++ lbl)%string detach st
        = (do v <- volume_for_label lbl; ensure_volume_unmounted v detach) st)
  /\ (forall path detach st,
        CStr.starts_with "/storage/" path = false ->
        ensure_path_unmounted path detach st
        = ensure_volume_unmounted (volume_for_path path) detach st).
Proof.
  split; [|split].
  - intros lbl rest detach st Hfree Hlen. unfold ensure_path_unmounted.
    cbv zeta. rewrite storage_prefix, storage_skip.
    rewrite (strchr_app _ _ _ Hfree), take_app_length.
    unfold bind at 1 2. rewrite (copy_label_fits _ _ Hlen). reflexivity.
  - intros lbl detach st Hfree Hlen. unfold ensure_path_unmounted.
    cbv zeta. rewrite storage_prefix, storage_skip.
    rewrite (strchr_free _ _ Hfree).
    unfold bind at 1 2. rewrite (copy_label_fits _ _ Hlen). reflexivity.
  - intros path detach st Hpre. unfold ensure_path_unmounted. rewrite Hpre.
    reflexivity.
Qed.

(** *** Format engine *)

Lemma ensure_volume_unmounted_events v detach st r st' :
  ensure_volume_unmounted v detach st = Some (r, st') ->
  exists evs, trace st' = trace st ++ evs
              /\ Forall (fun e => is_umount e = true) evs.
Proof.
  destruct v as [vp|]; [|intros [= <- <-]; exists []; rewrite app_nil_r; auto].
  destruct (recs !! vp) as [v|] eqn:Hv.
  - rewrite (ensure_volume_unmounted_run _ _ _ _ Hv).
    repeat case_match; intros [= <- <-]; simpl;
      first [ exists []; rewrite app_nil_r; split; [reflexivity|constructor]
            | eexists [_]; split; [reflexivity|repeat constructor] ].
  - unfold ensure_volume_unmounted, deref, bind. rewrite Hv. discriminate.
Qed.

Lemma ensure_volume_unmounted_defined vp v detach st :
  recs !! vp = Some v -> is_Some (ensure_volume_unmounted (Some vp) detach st).
Proof.
  intros Hv. rewrite (ensure_volume_unmounted_run _ _ _ _ Hv).
  repeat case_match; eauto.
Qed.

Lemma ensure_path_unmounted_by_path path detach st :
  CStr.starts_with "/storage/" path = false ->
  ensure_path_unmounted path detach st
  = ensure_volume_unmounted (volume_for_path path) detach st.
Proof. intros Hpre. unfold ensure_path_unmounted. rewrite Hpre. reflexivity. Qed.

Lemma ensure_path_unmounted_events path detach st r st' :
  ensure_path_unmounted path detach st = Some (r, st') ->
  exists evs, trace st' = trace st ++ evs
              /\ Forall (fun e => is_umount e = true) evs.
Proof.
  unfold ensure_path_unmounted, bind.
  destruct (CStr.starts_with "/storage/" path).
  - match goal with |- context [match ?c st with _ => _ end] =>
      destruct (c st) as [[lbl st0]|] eqn:Hcopy end; [|discriminate].
    assert (st0 = st) as ->.
    { unfold copy_label, ret, undefined in Hcopy. repeat case_match; congruence. }
    unfold volume_for_label, get_device_volumes, ret, undefined.
    destruct fstab; [|discriminate].
    apply ensure_volume_unmounted_events.
  - unfold ret. apply ensure_volume_unmounted_events.
Qed.

Lemma wipe_key_loc_events v st ok st' :
  wipe_key_loc v st = Some (ok, st') ->
  exists evs, trace st' = trace st ++ evs
              /\ Forall (fun e => is_exec e = false) evs.
Proof.
  unfold wipe_key_loc, bind, emit, ret, logged.
  repeat case_match; intros [= <- <-]; simpl;
    first [ exists []; rewrite app_nil_r; split; [reflexivity|constructor]
          | rewrite <- app_assoc; eexists; split; [reflexivity|repeat constructor]
          | eexists; split; [reflexivity|repeat constructor] ].
Qed.

Lemma wipe_key_loc_defined v st : is_Some (wipe_key_loc v st).
Proof.
  unfold wipe_key_loc, bind, emit, ret. repeat case_match; eauto.
Qed.

Lemma Forall_umount_no_exec evs :
  Forall (fun e => is_umount e = true) evs -> Forall (fun e => is_exec e = false) evs.
Proof.
  intros H. eapply Forall_impl; [exact H|]. intros []; simpl; congruence.
Qed.

Lemma length_skip n s : (String.length (CStr.skip n s) <= String.length s)%nat.
Proof.
  revert s. induction n as [|n IH]; intros s; simpl; [lia|].
  destruct s as [|a s]; simpl; [lia|]. specialize (IH s). lia.
Qed.

Lemma length_take_le n s : (String.length (CStr.take n s) <= String.length s)%nat.
Proof.
  unfold CStr.take. revert s. induction n as [|n IH]; intros s.
  - destruct s; simpl; lia.
  - destruct s as [|a s]; simpl; [lia|]. specialize (IH s). lia.
Qed.

Lemma volume_for_label_loop_Some rs i lbl j :
  volume_for_label_loop rs i lbl = Some j ->
  (i <= j)%nat /\ exists v, rs !! (j - i)%nat = Some v /\ label v = Some lbl.
Proof.
  revert i. induction rs as [|v rest IH]; intros i; simpl; [discriminate|].
  assert (volume_for_label_loop rest (S i) lbl = Some j ->
          (i <= j)%nat /\ exists w, (v :: rest) !! (j - i)%nat = Some w
                                    /\ label w = Some lbl) as Hrest.
  { intros H. apply IH in H as (Hle & w & Hw & Hl). split; [lia|].
    exists w. replace (j - i)%nat with (S (j - S i)) by lia. auto. }
  destruct (label v) as [l|] eqn:El; [|exact Hrest].
  destruct (String.eqb_spec l lbl) as [->|]; [|exact Hrest].
  intros [= <-]. split; [lia|]. exists v. rewrite Nat.sub_diag. auto.
Qed.

Lemma volume_for_label_valid lbl st v st' :
  volume_for_label lbl st = Some (v, st') ->
  st' = st /\ forall vp, v = Some vp ->
                         exists vol, recs !! vp = Some vol /\ label vol = Some lbl.
Proof.
  unfold volume_for_label, get_device_volumes, recs, ret, undefined.
  destruct fstab as [rs|]; [|discriminate]. intros [= <- <-]. split; [reflexivity|].
  intros vp Hvp. apply volume_for_label_loop_Some in Hvp as (_ & vol & Hvol & Hl).
  exists vol. rewrite Nat.sub_0_r in Hvol. auto.
Qed.

(** With a table loaded, [ensure_path_unmounted] is defined on every path
    shorter than [PATH_MAX]. *)
Lemma ensure_path_unmounted_defined path detach st :
  fstab <> None -> (String.length path < PATH_MAX)%nat ->
  is_Some (ensure_path_unmounted path detach st).
Proof.
  intros Htab Hlen. unfold ensure_path_unmounted, bind.
  destruct (CStr.starts_with "/storage/" path).
  - pose proof (length_skip 9 path) as Hskip.
    assert (forall s, (String.length s <= String.length (CStr.skip 9 path))%nat ->
                      copy_label s st = Some (s, st)) as Hcopy.
    { intros s Hs. apply copy_label_fits. lia. }
    assert (exists lbl,
               match CStr.strchr (CStr.skip 9 path) slash with
               | Some n => copy_label (CStr.take n (CStr.skip 9 path))
               | None => copy_label (CStr.skip 9 path)
               end st = Some (lbl, st)) as [lbl ->].
    { destruct (CStr.strchr (CStr.skip 9 path) slash) as [n|].
      - eexists. apply Hcopy, length_take_le.
      - eexists. apply Hcopy. lia. }
    destruct (volume_for_label lbl st) as [[v st0]|] eqn:Hl.
    + apply volume_for_label_valid in Hl as (-> & Hvalid).
      destruct v as [vp|]; [|simpl; eauto].
      destruct (Hvalid vp eq_refl) as (vol & Hvol & _).
      eapply ensure_volume_unmounted_defined, Hvol.
    + unfold volume_for_label, get_device_volumes in Hl.
      destruct fstab; [discriminate|contradiction].
  - unfold ret. destruct (volume_for_path path) as [vp|] eqn:Hp; [|simpl; eauto].
    destruct (volume_for_path_valid _ _ Hp) as [vol Hvol].
    eapply ensure_volume_unmounted_defined, Hvol.
Qed.

Lemma format_volume_other_path path directory vp v st :
  volume_for_path path = Some vp -> recs !! vp = Some v ->
  mount_point v <> path ->
  format_volume path directory st = Some (-1, st).
Proof.
  intros Hpath Hv Hne. unfold format_volume, deref, bind. rewrite Hpath, Hv.
  unfold ret. apply String.eqb_neq in Hne. rewrite Hne.
  destruct (String.eqb (fs_type v) "ramdisk"); reflexivity.
Qed.

(** C7.  A path that resolves to a volume without being that volume's mount
    point, character for character, is rejected before anything happens:
    [format_volume] returns -1 and leaves the state as it found it. *)
Theorem format_volume_rejects_other_paths path directory vp v st :
  volume_for_path path = Some vp -> recs !! vp = Some v ->
  mount_point v <> path ->
  format_volume path directory st = Some (-1, st).
Proof.
  intros Hpath Hv Hne. unfold format_volume, deref, bind. rewrite Hpath, Hv.
  unfold ret.
  destruct (String.eqb_spec (fs_type v) "ramdisk") as [_|_]; [reflexivity|].
  destruct (String.eqb_spec (mount_point v) path) as [Heq|_]; [|reflexivity].
  contradiction.
Qed.

(** C1, as the code has it.  A path that resolves to the ramdisk volume is
    rejected at once, whatever the other parameters, and nothing is called.
    The root volume has no guard of its own in [format_volume]: a path that
    resolves to it is rejected, and no formatter is run, when the path is
    not "/" itself or the type of the volume is neither ext4 nor f2fs. *)
Theorem format_volume_ramdisk_and_root path directory vp v st :
  volume_for_path path = Some vp -> recs !! vp = Some v ->
  (fs_type v = "ramdisk" -> format_volume path directory st = Some (-1, st))
  /\ (mount_point v = "/" -> path <> "/" ->
      format_volume path directory st = Some (-1, st))
  /\ (mount_point v = "/" -> fs_type v <> "ext4" -> fs_type v <> "f2fs" ->
      exists st' evs,
        format_volume path directory st = Some (-1, st')
        /\ trace st' = trace st ++ evs
        /\ Forall (fun e => is_exec e = false) evs).
Proof.
  intros Hpath Hv. split; [|split].
  - intros Hram. unfold format_volume, deref, bind. rewrite Hpath, Hv.
    unfold ret. rewrite Hram. reflexivity.
  - intros Hroot Hne. apply format_volume_other_path with vp v; auto.
    congruence.
  - intros Hroot Hext Hf2fs.
    destruct (String.eqb_spec path "/") as [->|Hne].
    + unfold format_volume, deref, bind. rewrite Hpath, Hv. unfold ret.
      destruct (String.eqb (fs_type v) "ramdisk").
      { exists st, []. rewrite app_nil_r. auto. }
      rewrite Hroot. cbn [String.eqb Ascii.eqb Bool.eqb negb andb].
      rewrite ensure_path_unmounted_by_path by reflexivity.
      rewrite Hpath.
      destruct (ensure_volume_unmounted_defined _ _ false st Hv) as [[r st1] Hrun].
      rewrite Hrun. apply String.eqb_neq in Hext, Hf2fs. rewrite Hext, Hf2fs.
      apply ensure_volume_unmounted_events in Hrun as (evs & Htr & Hevs).
      exists st1, evs. split; [destruct (negb (r =? 0)); reflexivity|].
      split; [exact Htr|apply Forall_umount_no_exec, Hevs].
    + exists st, []. rewrite app_nil_r. split; [|auto].
      apply format_volume_other_path with vp v; auto. congruence.
Qed.

(** *** Length computation *)

Lemma to_int64_to_uint64 z : int64_range z -> to_int64 (to_uint64 z) = z.
Proof.
  unfold int64_range, INT64_MIN, INT64_MAX, to_int64, to_uint64. intros Hz.
  rewrite Zplus_mod_idemp_l, Z.mod_small; lia.
Qed.

Lemma to_uint64_small z : uint64_range z -> to_uint64 z = z.
Proof. unfold uint64_range, to_uint64. intros Hz. apply Z.mod_small, Hz. Qed.

Lemma reserve_negative v :
  int64_range (length v) -> length v < 0 -> reserve v = Z.abs (length v).
Proof.
  unfold reserve, int64_range, INT64_MIN, INT64_MAX. intros Hr Hneg.
  destruct (Z.eqb_spec (length v) 0); [lia|].
  unfold to_int64, to_uint64.
  rewrite Zminus_mod_idemp_l.
  replace (- length v + 2 ^ 63 - 2 ^ 63) with (- length v) by lia.
  rewrite Z.mod_small; lia.
Qed.

Lemma reserve_footer v : length v = 0 -> reserve v = CRYPT_FOOTER_OFFSET.
Proof. unfold reserve. intros ->. reflexivity. Qed.

Lemma get_file_size_regular fd r size :
  file_kind os fd = RegularFile size -> 0 <= size <= INT64_MAX ->
  0 < r <= 2 ^ 63 ->
  get_file_size fd r = size - r.
Proof.
  unfold get_file_size, INT64_MAX. intros -> Hs Hr.
  rewrite (to_uint64_small size) by (unfold uint64_range; lia).
  apply to_int64_to_uint64. unfold int64_range, INT64_MIN, INT64_MAX. lia.
Qed.

Lemma get_file_size_block fd r size :
  file_kind os fd = BlockDevice size -> uint64_range size -> 0 < r <= 2 ^ 63 ->
  get_file_size fd r =
    if Z.ltb size r || Z.gtb size INT64_MAX then 0 else size - r.
Proof.
  unfold get_file_size, uint64_range. intros -> Hs Hr.
  destruct (Z.ltb_spec size r); [reflexivity|].
  destruct (Z.gtb_spec size INT64_MAX); [reflexivity|]. simpl.
  apply to_int64_to_uint64. unfold int64_range, INT64_MIN, INT64_MAX in *. lia.
Qed.

Lemma format_length_unfold v :
  format_length v =
    if Z.gtb (length v) 0 then Some (length v)
    else if Z.ltb (length v) 0
            || match key_loc v with
               | Some k => String.eqb k "footer"
               | None => false
               end
    then reserved_length v
    else Some 0.
Proof. reflexivity. Qed.

Lemma reserved_length_spec v :
  stat_wf (file_kind os (blk_device v)) -> 0 < reserve v <= 2 ^ 63 ->
  (open_succeeds os (blk_device v) = false -> reserved_length v = None)
  /\ (forall t, reserved_length v = Some t ->
        0 < t /\ exists size, has_size (blk_device v) size /\ t = size - reserve v)
  /\ (forall size, has_size (blk_device v) size -> size - reserve v <= 0 ->
        reserved_length v = None)
  /\ (forall size, open_succeeds os (blk_device v) = true ->
        has_size (blk_device v) size -> 0 < size - reserve v -> size <= INT64_MAX ->
        reserved_length v = Some (size - reserve v)).
Proof.
  intros Hwf Hr. unfold reserved_length, has_size.
  destruct (file_kind os (blk_device v)) as [|size|size|] eqn:Hkind; simpl in Hwf.
  - unfold get_file_size. rewrite Hkind. simpl.
    repeat split; intros; repeat case_match; try discriminate; try reflexivity;
      intuition discriminate.
  - rewrite (get_file_size_regular _ _ size Hkind Hwf Hr).
    split; [intros ->; reflexivity|]. split; [|split].
    + intros t. destruct (open_succeeds _ _); [|discriminate].
      destruct (Z.leb_spec (size - reserve v) 0); [discriminate|].
      intros [= <-]. split; [lia|]. exists size. auto.
    + intros size' [[= <-]|[=]] Hle. destruct (open_succeeds _ _); [|reflexivity].
      destruct (Z.leb_spec (size - reserve v) 0); [reflexivity|lia].
    + intros size' -> [[= <-]|[=]] Hpos _.
      destruct (Z.leb_spec (size - reserve v) 0); [lia|reflexivity].
  - rewrite (get_file_size_block _ _ size Hkind Hwf Hr).
    split; [intros ->; reflexivity|]. split; [|split].
    + intros t. destruct (open_succeeds _ _); [|discriminate].
      destruct (Z.ltb_spec size (reserve v)); [discriminate|].
      destruct (Z.gtb_spec size INT64_MAX); [discriminate|]. simpl.
      destruct (Z.leb_spec (size - reserve v) 0); [discriminate|].
      intros [= <-]. split; [lia|]. exists size. auto.
    + intros size' [[=]|[= <-]] Hle. destruct (open_succeeds _ _); [|reflexivity].
      destruct (Z.ltb_spec size (reserve v)); [reflexivity|].
      destruct (Z.gtb_spec size INT64_MAX); [reflexivity|]. simpl.
      destruct (Z.leb_spec (size - reserve v) 0); [reflexivity|lia].
    + intros size' -> [[=]|[= <-]] Hpos Hmax.
      destruct (Z.ltb_spec size (reserve v)); [lia|].
      destruct (Z.gtb_spec size INT64_MAX); [lia|]. simpl.
      destruct (Z.leb_spec (size - reserve v) 0); [lia|reflexivity].
  - unfold get_file_size. rewrite Hkind. simpl.
    repeat split; intros; repeat case_match; try discriminate; try reflexivity;
      intuition discriminate.
Qed.

(** C5.  The target length of [format_volume].  A positive configured length
    is the target, whatever the device.  For a negative one the target is the
    size of the device or file less the absolute value of the length; the
    operation fails when the device cannot be opened or that difference is
    not positive, and yields the difference when it is positive (for a device
    within the signed 64-bit range).  For a length of zero with the key in
    the footer the same holds with the fixed footer reservation in place of
    the absolute value.  Otherwise the target is zero, unconstrained. *)
Theorem format_length_computation v :
  int64_range (length v) -> stat_wf (file_kind os (blk_device v)) ->
  (0 < length v -> format_length v = Some (length v))
  /\ (forall r,
        length v < 0 /\ r = Z.abs (length v)
        \/ length v = 0 /\ key_loc v = Some "footer" /\ r = CRYPT_FOOTER_OFFSET ->
        (open_succeeds os (blk_device v) = false -> format_length v = None)
        /\ (forall t, format_length v = Some t ->
              0 < t /\ exists size, has_size (blk_device v) size /\ t = size - r)
        /\ (forall size, has_size (blk_device v) size -> size - r <= 0 ->
              format_length v = None)
        /\ (forall size, open_succeeds os (blk_device v) = true ->
              has_size (blk_device v) size -> 0 < size - r -> size <= INT64_MAX ->
              format_length v = Some (size - r)))
  /\ (length v = 0 -> key_loc v <> Some "footer" -> format_length v = Some 0).
Proof.
  intros Hrange Hwf. rewrite format_length_unfold. split; [|split].
  - intros Hpos. destruct (Z.gtb_spec (length v) 0); [reflexivity|lia].
  - intros r Hcase.
    assert (Z.gtb (length v) 0 = false) as -> by (destruct (Z.gtb_spec (length v) 0); lia).
    assert (Z.ltb (length v) 0
            || match key_loc v with
               | Some k => String.eqb k "footer"
               | None => false
               end = true) as ->.
    { destruct Hcase as [[Hneg _]|(_ & -> & _)].
      - destruct (Z.ltb_spec (length v) 0); [reflexivity|lia].
      - apply orb_true_r. }
    assert (reserve v = r) as <-.
    { destruct Hcase as [[Hneg ->]|(Hz & _ & ->)].
      - apply reserve_negative; assumption.
      - apply reserve_footer, Hz. }
    apply reserved_length_spec; [exact Hwf|].
    destruct Hcase as [[Hneg _]|(Hz & _ & _)].
    + rewrite reserve_negative by assumption.
      unfold int64_range, INT64_MIN in Hrange. lia.
    + rewrite reserve_footer by assumption. unfold CRYPT_FOOTER_OFFSET. lia.
  - intros Hz Hkey. rewrite Hz. simpl.
    destruct (key_loc v) as [k|]; [|reflexivity].
    destruct (String.eqb_spec k "footer"); [congruence|reflexivity].
Qed.

(** Symbolic run of [format_volume] on a path that resolves. *)
Lemma format_volume_run path directory vp v st :
  volume_for_path path = Some vp -> recs !! vp = Some v ->
  format_volume path directory st =
    if String.eqb (fs_type v) "ramdisk" then Some (-1, st)
    else if negb (String.eqb (mount_point v) path) then Some (-1, st)
    else
      match ensure_path_unmounted path false st with
      | None => None
      | Some (unmounted, st1) =>
          if negb (Z.eqb unmounted 0) then Some (-1, st1)
          else if negb (String.eqb (fs_type v) "ext4")
                  && negb (String.eqb (fs_type v) "f2fs") then Some (-1, st1)
          else
            match wipe_key_loc v st1 with
            | None => None
            | Some (wiped, st2) =>
                if negb wiped then Some (-1, st2)
                else
                  match format_length v with
                  | None => Some (-1, st2)
                  | Some len =>
                      if voldmanaged v then Some (-1, st2)
                      else if String.eqb (fs_type v) "ext4"
                      then format_ext4 v path directory len st2
                      else format_f2fs v path directory len st2
                  end
            end
      end.
Proof.
  intros Hpath Hv. unfold format_volume, deref, bind. rewrite Hpath, Hv.
  unfold ret at 1. unfold fs_mgr_is_voldmanaged.
  destruct (String.eqb (fs_type v) "ramdisk"); [reflexivity|].
  destruct (negb (String.eqb (mount_point v) path)); [reflexivity|].
  destruct (ensure_path_unmounted path false st) as [[r st1]|]; [|reflexivity].
  destruct (negb (r =? 0)); [reflexivity|].
  destruct (negb _ && negb _); [reflexivity|].
  destruct (wipe_key_loc v st1) as [[ok st2]|]; [|reflexivity].
  destruct (negb ok); [reflexivity|].
  destruct (format_length v); [|reflexivity].
  destruct (voldmanaged v); [reflexivity|].
  destruct (String.eqb (fs_type v) "ext4"); reflexivity.
Qed.

Lemma wipe_key_loc_run v st :
  wipe_key_loc v st =
    match key_loc v with
    | Some k =>
        if absolute k
        then if open_succeeds os k
             then Some (true, logged st (key_wipe v))
             else Some (false, logged st [OpenCreate k])
        else Some (true, st)
    | None => Some (true, st)
    end.
Proof.
  unfold wipe_key_loc, key_wipe, bind, emit, ret, logged.
  destruct (key_loc v) as [[|c rest]|]; try reflexivity. simpl.
  destruct (Ascii.eqb_spec c slash) as [->|Hne].
  - simpl. destruct (open_succeeds _ _); simpl; [|reflexivity].
    rewrite <- app_assoc. reflexivity.
  - unfold absolute.
    destruct c as [[] [] [] [] [] [] [] []]; try reflexivity.
    exfalso. apply Hne. reflexivity.
Qed.

Lemma logged_nil st : logged st [] = st.
Proof. destruct st. unfold logged. simpl. rewrite app_nil_r. reflexivity. Qed.

Lemma wipe_key_loc_opened v st :
  (forall k, key_loc v = Some k -> absolute k = true -> open_succeeds os k = true) ->
  wipe_key_loc v st = Some (true, logged st (key_wipe v)).
Proof.
  intros Hopen. rewrite wipe_key_loc_run. unfold key_wipe.
  destruct (key_loc v) as [k|]; [|rewrite logged_nil; reflexivity].
  destruct (absolute k) eqn:Habs; [|rewrite logged_nil; reflexivity].
  rewrite (Hopen k eq_refl Habs). unfold key_wipe. reflexivity.
Qed.

(** C2, as the code has it.  A vold-managed volume is never handed to a
    formatter: [format_volume] returns -1 for it whenever it returns, and
    it returns for every path shorter than [PATH_MAX].  The rejection does
    not come before every destructive step: when the path is the mount point
    of the volume, its type is ext4 or f2fs, the unmount succeeds and a key
    location that is an absolute path can be opened, the volume is rejected
    in the state the unmount left, with the wipe of the key location
    issued.  The other two operations do not spare it: for one of a
    mountable type [ensure_path_mounted_at] issues the mount call even when
    the target is already mounted, and [ensure_volume_unmounted] issues the
    unmount call when its mount point is mounted, as for any other volume. *)
Theorem vold_managed_volume path directory vp v st :
  volume_for_path path = Some vp -> recs !! vp = Some v ->
  voldmanaged v = true ->
  (forall r st',
      format_volume path directory st = Some (r, st') ->
      r = -1 /\ exists evs, trace st' = trace st ++ evs
                            /\ Forall (fun e => is_exec e = false) evs)
  /\ ((String.length path < PATH_MAX)%nat ->
      is_Some (format_volume path directory st))
  /\ (forall st1,
        mount_point v = path ->
        fs_type v = "ext4" \/ fs_type v = "f2fs" ->
        ensure_path_unmounted path false st = Some (0, st1) ->
        (forall k, key_loc v = Some k -> absolute k = true ->
                   open_succeeds os k = true) ->
        format_volume path directory st = Some (-1, logged st1 (key_wipe v)))
  /\ (forall mp_arg,
        fs_type v <> "ramdisk" -> proc_mounts_readable os = true ->
        mountable (fs_type v) = true ->
        exists r st',
          ensure_path_mounted_at path mp_arg st = Some (r, st')
          /\ trace st' = trace st
                         ++ [Mkdirs (default (mount_point v) mp_arg);
                             Mount (blk_device v) (default (mount_point v) mp_arg)
                                   (fs_type v) (flags v) (fs_options v)])
  /\ (forall detach,
        fs_type v <> "ramdisk" -> proc_mounts_readable os = true ->
        is_Some (mounted st !! mount_point v) ->
        exists r st',
          ensure_volume_unmounted (Some vp) detach st = Some (r, st')
          /\ trace st' = trace st ++ [Umount (mount_point v) detach]).
Proof.
  intros Hpath Hv Hvold. split; [|split; [|split; [|split]]].
  - intros r st'. rewrite (format_volume_run _ _ _ _ _ Hpath Hv), Hvold.
    assert (exists evs, trace st = trace st ++ evs
                        /\ Forall (fun e => is_exec e = false) evs) as H0
        by (exists []; rewrite app_nil_r; auto).
    destruct (String.eqb (fs_type v) "ramdisk"); [intros [= <- <-]; auto|].
    destruct (negb (String.eqb (mount_point v) path)); [intros [= <- <-]; auto|].
    destruct (ensure_path_unmounted path false st) as [[r1 st1]|] eqn:E1;
      [|discriminate].
    apply ensure_path_unmounted_events in E1 as (evs1 & Htr1 & Hevs1).
    apply Forall_umount_no_exec in Hevs1.
    assert (exists evs, trace st1 = trace st ++ evs
                        /\ Forall (fun e => is_exec e = false) evs) as H1
        by eauto.
    destruct (negb (r1 =? 0)); [intros [= <- <-]; auto|].
    destruct (negb _ && negb _); [intros [= <- <-]; auto|].
    destruct (wipe_key_loc v st1) as [[ok st2]|] eqn:E2; [|discriminate].
    apply wipe_key_loc_events in E2 as (evs2 & Htr2 & Hevs2).
    assert (exists evs, trace st2 = trace st ++ evs
                        /\ Forall (fun e => is_exec e = false) evs) as H2.
    { exists (evs1 ++ evs2). rewrite Htr2, Htr1, app_assoc. split; [reflexivity|].
      apply Forall_app; auto. }
    destruct (negb ok); [intros [= <- <-]; auto|].
    destruct (format_length v); intros [= <- <-]; auto.
  - intros Hlen. rewrite (format_volume_run _ _ _ _ _ Hpath Hv), Hvold.
    destruct (String.eqb (fs_type v) "ramdisk"); [eauto|].
    destruct (negb (String.eqb (mount_point v) path)); [eauto|].
    destruct (ensure_path_unmounted_defined path false st) as [[r1 st1] ->];
      [eapply recs_loaded, Hv|exact Hlen|].
    destruct (negb (r1 =? 0)); [eauto|].
    destruct (negb _ && negb _); [eauto|].
    destruct (wipe_key_loc_defined v st1) as [[ok st2] ->].
    destruct (negb ok); [eauto|].
    destruct (format_length v); eauto.
  - intros st1 Hmp Hty Hun Hopen.
    rewrite (format_volume_run _ _ _ _ _ Hpath Hv), Hmp, String.eqb_refl, Hun.
    rewrite (wipe_key_loc_opened _ _ Hopen), Hvold. cbn [negb Z.eqb].
    assert (String.eqb (fs_type v) "ramdisk" = false) as ->
        by (destruct Hty as [-> | ->]; reflexivity).
    assert (negb (String.eqb (fs_type v) "ext4")
            && negb (String.eqb (fs_type v) "f2fs") = false) as ->
        by (destruct Hty as [-> | ->]; reflexivity).
    destruct (format_length v); reflexivity.
  - intros mp_arg Hram Hscan Hty.
    rewrite (ensure_path_mounted_at_run _ _ _ _ _ Hpath Hv).
    apply String.eqb_neq in Hram. rewrite Hram, Hscan, Hvold, Hty. cbn zeta.
    cbn [negb andb]. destruct (mount_result _ _ _ _ _ _ _); eauto.
  - intros detach Hram Hscan [b Hin].
    rewrite (ensure_volume_unmounted_run _ _ _ _ Hv).
    apply String.eqb_neq in Hram. rewrite Hram, Hscan, Hin. cbn zeta.
    destruct (umount_result _ _ _ _); eauto.
Qed.

(** *** Install-mount orchestrator *)











(** ** Further properties of the code *)

(** *** Lookup by label *)

Lemma volume_for_label_loop_spec rs i lbl :
  match volume_for_label_loop rs i lbl with
  | Some j =>
      (i <= j)%nat
      /\ (exists v, rs !! (j - i)%nat = Some v /\ label v = Some lbl)
      /\ forall k w, (k < j - i)%nat -> rs !! k = Some w -> label w <> Some lbl
  | None => forall k w, rs !! k = Some w -> label w <> Some lbl
  end.
Proof.
  revert i. induction rs as [|v rest IH]; intros i; simpl.
  - intros k w Hk. rewrite lookup_nil in Hk. discriminate.
  - assert (label v <> Some lbl ->
            match volume_for_label_loop rest (S i) lbl with
            | Some j =>
                (i <= j)%nat
                /\ (exists w, (v :: rest) !! (j - i)%nat = Some w /\ label w = Some lbl)
                /\ forall k w, (k < j - i)%nat -> (v :: rest) !! k = Some w ->
                               label w <> Some lbl
            | None => forall k w, (v :: rest) !! k = Some w -> label w <> Some lbl
            end) as Hskip.
    { intros Hv. specialize (IH (S i)).
      destruct (volume_for_label_loop rest (S i) lbl) as [j|].
      - destruct IH as (Hle & (w & Hw & Hl) & Hbefore). split; [lia|]. split.
        + exists w. replace (j - i)%nat with (S (j - S i)) by lia. auto.
        + intros [|k] u Hk Hu; simpl in Hu; [congruence|].
          apply (Hbefore k u); [lia|exact Hu].
      - intros [|k] u Hu; simpl in Hu; [congruence|eauto]. }
    destruct (label v) as [l|] eqn:El; [|apply Hskip; discriminate].
    destruct (String.eqb_spec l lbl) as [->|Hne]; [|apply Hskip; congruence].
    split; [lia|]. rewrite Nat.sub_diag. split; [exists v; auto|].
    intros k w Hk. lia.
Qed.

(** X1.  With a table loaded, [volume_for_label] returns the first entry of
    the table that carries the label - entries without a label are passed
    over - and null exactly when no entry carries it; the state is not
    touched. *)
Theorem volume_for_label_first rs lbl st :
  fstab = Some rs ->
  (exists r, volume_for_label lbl st = Some (r, st))
  /\ (forall j,
        volume_for_label lbl st = Some (Some j, st) <->
        (exists v, rs !! j = Some v /\ label v = Some lbl)
        /\ forall k w, (k < j)%nat -> rs !! k = Some w -> label w <> Some lbl)
  /\ (volume_for_label lbl st = Some (None, st) <->
      forall k w, rs !! k = Some w -> label w <> Some lbl).
Proof.
  intros Htab. unfold volume_for_label, get_device_volumes, ret. rewrite Htab.
  pose proof (volume_for_label_loop_spec rs 0 lbl) as Hspec.
  destruct (volume_for_label_loop rs 0 lbl) as [j|].
  - destruct Hspec as (_ & (v & Hv & Hl) & Hbefore). rewrite Nat.sub_0_r in *.
    split; [eauto|]. split.
    + intros j'. split.
      * intros [= <-]. split; [eauto|]. exact Hbefore.
      * intros ((v' & Hv' & Hl') & Hbefore').
        destruct (Nat.lt_total j j') as [Hlt|[->|Hlt]]; [|reflexivity|].
        -- exfalso. exact (Hbefore' j v Hlt Hv Hl).
        -- exfalso. exact (Hbefore j' v' Hlt Hv' Hl').
    + split; [discriminate|]. intros Hnone. exfalso. exact (Hnone j v Hv Hl).
  - split; [eauto|]. split.
    + intros j. split; [discriminate|].
      intros ((v & Hv & Hl) & _). exfalso. exact (Hspec j v Hv Hl).
    + split; auto.
Qed.

(** *** Resolution by path *)

Lemma starts_with_refl s : CStr.starts_with s s = true.
Proof. induction s as [|a s IH]; simpl; [reflexivity|]. rewrite Ascii.eqb_refl. exact IH. Qed.

Lemma starts_with_trans a b c :
  CStr.starts_with a b = true -> CStr.starts_with b c = true ->
  CStr.starts_with a c = true.
Proof.
  revert b c. induction a as [|x a IH]; intros b c; [reflexivity|].
  destruct b as [|y b]; simpl; [discriminate|].
  destruct c as [|z c]; simpl; [discriminate|].
  intros [Hxy Hab]%andb_true_iff [Hyz Hbc]%andb_true_iff.
  apply Ascii.eqb_eq in Hxy, Hyz. subst. rewrite Ascii.eqb_refl. simpl. eauto.
Qed.

Lemma starts_with_take n s : CStr.starts_with (CStr.take n s) s = true.
Proof.
  unfold CStr.take. revert s. induction n as [|n IH]; intros s.
  - destruct s; reflexivity.
  - destruct s as [|a s]; simpl; [reflexivity|].
    rewrite Ascii.eqb_refl. apply IH.
Qed.

Lemma parent_prefix str p : parent str = Some p -> CStr.starts_with p str = true.
Proof.
  unfold parent. destruct (String.eqb str "/"); [discriminate|].
  destruct (CStr.find_last_of slash str) as [[|sl]|] eqn:E; intros [= <-].
  - apply find_last_of_0 in E as (rest & -> & _). reflexivity.
  - apply starts_with_take.
Qed.

Lemma ancestors_prefix fuel str i a :
  ancestors fuel str !! i = Some a -> CStr.starts_with a str = true.
Proof.
  revert str i. induction fuel as [|fuel IH]; intros str [|i]; simpl;
    try discriminate; try (intros [= <-]; apply starts_with_refl).
  destruct (parent str) as [p|] eqn:E; [|discriminate].
  intros Ha. apply starts_with_trans with p; [eapply IH, Ha|].
  apply parent_prefix, E.
Qed.

Lemma first_match_spec l :
  match first_match l with
  | Some vp =>
      exists i a, l !! i = Some a
                  /\ get_entry_for_mount_point_detect_fs a = Some vp
                  /\ forall k b, (k < i)%nat -> l !! k = Some b ->
                                 fs_mgr_get_entry_for_mount_point b = None
  | None => forall k b, l !! k = Some b -> fs_mgr_get_entry_for_mount_point b = None
  end.
Proof.
  induction l as [|a l IH]; simpl.
  - intros k b Hk. rewrite lookup_nil in Hk. discriminate.
  - destruct (get_entry_for_mount_point_detect_fs a) as [vp|] eqn:E.
    + exists 0%nat, a. split; [reflexivity|]. split; [exact E|]. intros k b Hk. lia.
    + apply detect_fs_None in E. destruct (first_match l) as [vp|].
      * destruct IH as (i & b & Hb & Hdet & Hbefore). exists (S i), b.
        split; [exact Hb|]. split; [exact Hdet|].
        intros [|k] c Hk Hc; simpl in Hc; [congruence|].
        apply (Hbefore k c); [lia|exact Hc].
      * intros [|k] c Hc; simpl in Hc; [congruence|eauto].
Qed.

Lemma volume_for_path_None_candidates path k a :
  path <> "" -> volume_for_path path = None -> search_path path !! k = Some a ->
  fs_mgr_get_entry_for_mount_point a = None.
Proof.
  intros Hne. rewrite (volume_for_path_first_match _ Hne).
  pose proof (first_match_spec (search_path path)) as Hspec.
  destruct (first_match (search_path path)); [discriminate|]. intros _. apply Hspec.
Qed.

(** X2.  The volume [volume_for_path] returns is an entry of the table
    whose mount point is the path or one of its ancestors, hence a prefix of
    the path, and it is the longest such: no candidate tried before it has
    an entry.  The result is null exactly for the empty path and for a path
    none of whose candidates is a configured mount point. *)
Theorem volume_for_path_longest_prefix path :
  (forall vp,
      volume_for_path path = Some vp ->
      exists v i,
        recs !! vp = Some v
        /\ search_path path !! i = Some (mount_point v)
        /\ CStr.starts_with (mount_point v) path = true
        /\ forall k b, (k < i)%nat -> search_path path !! k = Some b ->
                       fs_mgr_get_entry_for_mount_point b = None)
  /\ (volume_for_path path = None <->
      path = ""
      \/ forall k b, search_path path !! k = Some b ->
                     fs_mgr_get_entry_for_mount_point b = None).
Proof.
  destruct (String.eqb_spec path "") as [->|Hne].
  - split; [discriminate|]. split; auto.
  - rewrite (volume_for_path_first_match _ Hne).
    pose proof (first_match_spec (search_path path)) as Hspec.
    destruct (first_match (search_path path)) as [vp|].
    + destruct Hspec as (i & a & Ha & Hdet & Hbefore).
      destruct (detect_fs_mounted_at _ _ Hdet) as (v & Hv & Hmp).
      split.
      * intros vp' [= <-]. exists v, i. rewrite Hmp.
        split; [exact Hv|]. split; [exact Ha|]. split; [|exact Hbefore].
        eapply ancestors_prefix, Ha.
      * split; [discriminate|]. intros [Hempty|Hnone]; [contradiction|].
        specialize (Hnone i a Ha). apply detect_fs_None in Hnone. congruence.
    + split; [discriminate|]. split; auto.
Qed.

(** *** Detection *)

Lemma detect_fs_loop_result d path fuel s j :
  mounted_at path s -> detect_fs_loop fuel (Some s) d path = Some j ->
  (s <= j)%nat /\ mounted_at path j /\ fs_type_at j = d.
Proof.
  revert s. induction fuel as [|fuel IH]; intros s Hs; simpl;
    destruct (String.eqb_spec (fs_type_at s) d) as [Heq|Hne]; try discriminate;
    try (intros [= <-]; auto).
  destruct (fs_mgr_get_entry_for_mount_point_after (Some s) path) as [s'|] eqn:E.
  - apply after_Some in E as (Hle & Hm' & _). cbn [first_after] in Hle.
    intros Hloop. apply IH in Hloop as (Hle' & Hj & Hty); [|exact Hm'].
    split; [lia|]. auto.
  - destruct fuel; discriminate.
Qed.

(** X3.  Whatever the probe says, detection stays on the mount point: the
    entry it returns is mounted at the queried path and is the configured
    entry or one after it in the table, and it differs from the configured
    entry only when the device of that entry carries a signature and the
    type of the returned entry is that signature. *)
Theorem detect_fs_sound path rec vol r :
  fs_mgr_get_entry_for_mount_point path = Some rec ->
  recs !! rec = Some vol ->
  get_entry_for_mount_point_detect_fs path = Some r ->
  (rec <= r)%nat /\ mounted_at path r
  /\ (r = rec
      \/ detects (fs_type vol)
         /\ blkid_get_tag_value os (blk_device vol) = Some (fs_type_at r)).
Proof.
  intros Hlook Hvol. rewrite (detect_fs_unfold _ _ _ Hlook Hvol).
  pose proof (lookup_mounted_at _ _ Hlook) as Hrec.
  destruct (_ || _) eqn:Hdet; [|intros [= <-]; auto].
  apply detects_test in Hdet.
  destruct (blkid_get_tag_value os (blk_device vol)) as [d|]; [|intros [= <-]; auto].
  destruct (detect_fs_loop _ _ d path) as [j|] eqn:Hloop; intros [= <-]; [|auto].
  apply detect_fs_loop_result in Hloop as (Hle & Hj & Hty); [|exact Hrec].
  split; [exact Hle|]. split; [exact Hj|]. right. rewrite Hty. auto.
Qed.

(** *** Mount manager: what a call does *)

(** X4.  [ensure_path_mounted_at] always returns, 0 or -1.  For a path that
    resolves to no volume it returns -1 and does nothing.  For a path that
    resolves to a volume it issues nothing, or the directory creation for
    the target, or that and then the mount call for the target, the last
    only for one of the four types it mounts.  It returns 0 exactly when the
    volume is the ramdisk, or the scan succeeds and either the volume is not
    vold-managed and the scan lists the target, or the type is one it mounts
    and the mount call succeeds.  For the ramdisk nothing happens, and the
    mount state of the kernel is what it was unless the mount call
    succeeded. *)
Theorem ensure_path_mounted_at_post path mp_arg st :
  exists r st',
    ensure_path_mounted_at path mp_arg st = Some (r, st')
    /\ (r = 0 \/ r = -1)
    /\ (volume_for_path path = None -> r = -1 /\ st' = st)
    /\ (forall vp v,
          volume_for_path path = Some vp -> recs !! vp = Some v ->
          (trace st' = trace st
           \/ trace st' = trace st ++ [Mkdirs (default (mount_point v) mp_arg)]
           \/ mountable (fs_type v) = true
              /\ trace st' = trace st
                             ++ [Mkdirs (default (mount_point v) mp_arg);
                                 Mount (blk_device v) (default (mount_point v) mp_arg)
                                       (fs_type v) (flags v) (fs_options v)])
          /\ (r = 0 <->
              fs_type v = "ramdisk"
              \/ proc_mounts_readable os = true
                 /\ (voldmanaged v = false
                     /\ is_Some (mounted st !! default (mount_point v) mp_arg)
                     \/ mountable (fs_type v) = true
                        /\ is_Some (mount_result os (mounted st) (blk_device v)
                                      (default (mount_point v) mp_arg) (fs_type v)
                                      (flags v) (fs_options v))))
          /\ (fs_type v = "ramdisk" -> st' = st)
          /\ (mounted st' = mounted st
              \/ mount_result os (mounted st) (blk_device v)
                   (default (mount_point v) mp_arg) (fs_type v) (flags v)
                   (fs_options v) = Some (mounted st'))).
Proof.
  destruct (volume_for_path path) as [vp|] eqn:Hpath.
  2: { unfold ensure_path_mounted_at. rewrite Hpath.
       exists (-1), st. split; [reflexivity|]. split; [auto|]. split; [auto|].
       intros vp v Hvp. discriminate Hvp. }
  destruct (volume_for_path_valid _ _ Hpath) as [v Hv].
  rewrite (ensure_path_mounted_at_run _ _ _ _ _ Hpath Hv). cbn zeta.
  set (target := default (mount_point v) mp_arg).
  set (call := Mount (blk_device v) target (fs_type v) (flags v) (fs_options v)).
  set (res := mount_result os (mounted st) (blk_device v) target (fs_type v)
                (flags v) (fs_options v)).
  assert (forall r st',
             (r = 0 \/ r = -1) ->
             (trace st' = trace st
              \/ trace st' = trace st ++ [Mkdirs target]
              \/ mountable (fs_type v) = true
                 /\ trace st' = trace st ++ [Mkdirs target; call]) ->
             (r = 0 <->
              fs_type v = "ramdisk"
              \/ proc_mounts_readable os = true
                 /\ (voldmanaged v = false /\ is_Some (mounted st !! target)
                     \/ mountable (fs_type v) = true /\ is_Some res)) ->
             (fs_type v = "ramdisk" -> st' = st) ->
             (mounted st' = mounted st \/ res = Some (mounted st')) ->
             exists r0 st0,
               Some (r, st') = Some (r0, st0)
               /\ (r0 = 0 \/ r0 = -1)
               /\ (Some vp = None -> r0 = -1 /\ st0 = st)
               /\ (forall vp0 v0,
                     Some vp = Some vp0 -> recs !! vp0 = Some v0 ->
                     (trace st0 = trace st
                      \/ trace st0 = trace st ++ [Mkdirs (default (mount_point v0) mp_arg)]
                      \/ mountable (fs_type v0) = true
                         /\ trace st0
                            = trace st
                              ++ [Mkdirs (default (mount_point v0) mp_arg);
                                  Mount (blk_device v0) (default (mount_point v0) mp_arg)
                                        (fs_type v0) (flags v0) (fs_options v0)])
                     /\ (r0 = 0 <->
                         fs_type v0 = "ramdisk"
                         \/ proc_mounts_readable os = true
                            /\ (voldmanaged v0 = false
                                /\ is_Some (mounted st !! default (mount_point v0) mp_arg)
                                \/ mountable (fs_type v0) = true
                                   /\ is_Some (mount_result os (mounted st)
                                                 (blk_device v0)
                                                 (default (mount_point v0) mp_arg)
                                                 (fs_type v0) (flags v0)
                                                 (fs_options v0))))
                     /\ (fs_type v0 = "ramdisk" -> st0 = st)
                     /\ (mounted st0 = mounted st
                         \/ mount_result os (mounted st) (blk_device v0)
                              (default (mount_point v0) mp_arg) (fs_type v0)
                              (flags v0) (fs_options v0) = Some (mounted st0))))
    as Hpack.
  { intros r st' Hr Htrace Hzero Hram Hstate. exists r, st'.
    split; [reflexivity|]. split; [exact Hr|]. split; [discriminate|].
    intros vp0 v0 [= <-] Hv0. rewrite Hv in Hv0. injection Hv0 as <-. auto. }
  destruct (String.eqb_spec (fs_type v) "ramdisk") as [Hram|Hram].
  { apply Hpack; auto. tauto. }
  destruct (proc_mounts_readable os).
  2: { apply Hpack; auto; [|contradiction].
       split; [discriminate|]. intros [?|[H _]]; [contradiction|discriminate H]. }
  assert (negb (voldmanaged v) && bool_decide (is_Some (mounted st !! target)) = true
          <-> voldmanaged v = false /\ is_Some (mounted st !! target)) as Hhit
      by (rewrite andb_true_iff, negb_true_iff, bool_decide_eq_true; tauto).
  destruct (negb (voldmanaged v) && bool_decide (is_Some (mounted st !! target))).
  { apply Hpack.
    - auto.
    - left. reflexivity.
    - split; [|reflexivity]. intros _. right. split; [reflexivity|]. left.
      apply Hhit. reflexivity.
    - contradiction.
    - left. reflexivity. }
  assert (~ (voldmanaged v = false /\ is_Some (mounted st !! target))) as Hmiss
      by (intros H; apply Hhit in H; discriminate H).
  destruct (mountable (fs_type v)) eqn:Hty.
  2: { apply Hpack.
       - auto.
       - right. left. reflexivity.
       - split; [discriminate|].
         intros [H|[_ [H|[H _]]]]; [contradiction|contradiction|discriminate H].
       - contradiction.
       - left. reflexivity. }
  destruct res as [m|] eqn:Hres; subst res.
  - apply Hpack.
    + auto.
    + right. right. split; reflexivity.
    + split; [|reflexivity]. intros _. right. split; [reflexivity|]. right.
      split; [reflexivity|]. eauto.
    + contradiction.
    + right. reflexivity.
  - apply Hpack.
    + auto.
    + right. right. split; reflexivity.
    + split; [discriminate|].
      intros [H|[_ [H|[_ [m Hm]]]]]; [contradiction|contradiction|discriminate Hm].
    + contradiction.
    + left. reflexivity.
Qed.

(** X5.  [ensure_volume_unmounted], given null or an entry of the table,
    always returns, 0 or -1.  For null it returns -1 and does nothing.  For
    an entry it issues at most the one unmount call, for the mount point of
    the entry and with the detach flag as given, and it issues that call
    exactly when the entry is not the ramdisk, the scan succeeds and the
    scan lists the mount point.  It returns 0 exactly when the entry is not
    the ramdisk, the scan succeeds, and the scan does not list the mount
    point or the unmount call succeeds.  For the ramdisk nothing happens,
    and the mount state of the kernel is what it was unless the unmount call
    succeeded. *)
Theorem ensure_volume_unmounted_post v detach st :
  (forall vp, v = Some vp -> is_Some (recs !! vp)) ->
  exists r st',
    ensure_volume_unmounted v detach st = Some (r, st')
    /\ (r = 0 \/ r = -1)
    /\ (v = None -> r = -1 /\ st' = st)
    /\ (forall vp vol,
          v = Some vp -> recs !! vp = Some vol ->
          (trace st' = trace st
           \/ trace st' = trace st ++ [Umount (mount_point vol) detach])
          /\ (trace st' = trace st ++ [Umount (mount_point vol) detach] <->
              fs_type vol <> "ramdisk" /\ proc_mounts_readable os = true
              /\ is_Some (mounted st !! mount_point vol))
          /\ (r = 0 <->
              fs_type vol <> "ramdisk" /\ proc_mounts_readable os = true
              /\ (mounted st !! mount_point vol = None
                  \/ is_Some (umount_result os (mounted st) (mount_point vol) detach)))
          /\ (fs_type vol = "ramdisk" -> st' = st)
          /\ (mounted st' = mounted st
              \/ umount_result os (mounted st) (mount_point vol) detach
                 = Some (mounted st'))).
Proof.
  intros Hvalid. destruct v as [vp|].
  2: { exists (-1), st. split; [reflexivity|]. split; [auto|]. split; [auto|].
       intros vp vol Hvp. discriminate Hvp. }
  destruct (Hvalid vp eq_refl) as [vol Hvol].
  rewrite (ensure_volume_unmounted_run _ _ _ _ Hvol). cbn zeta.
  set (call := Umount (mount_point vol) detach).
  set (res := umount_result os (mounted st) (mount_point vol) detach).
  assert (forall tr : list Event, tr <> tr ++ [call]) as Hgrow.
  { intros tr Heq. apply (f_equal List.length) in Heq.
    rewrite length_app in Heq. simpl in Heq. lia. }
  assert (forall r st',
             (r = 0 \/ r = -1) ->
             (trace st' = trace st /\ ~ (fs_type vol <> "ramdisk"
                                         /\ proc_mounts_readable os = true
                                         /\ is_Some (mounted st !! mount_point vol))
              \/ trace st' = trace st ++ [call]
                 /\ fs_type vol <> "ramdisk" /\ proc_mounts_readable os = true
                 /\ is_Some (mounted st !! mount_point vol)) ->
             (r = 0 <->
              fs_type vol <> "ramdisk" /\ proc_mounts_readable os = true
              /\ (mounted st !! mount_point vol = None \/ is_Some res)) ->
             (fs_type vol = "ramdisk" -> st' = st) ->
             (mounted st' = mounted st \/ res = Some (mounted st')) ->
             exists r0 st0,
               Some (r, st') = Some (r0, st0)
               /\ (r0 = 0 \/ r0 = -1)
               /\ (Some vp = None -> r0 = -1 /\ st0 = st)
               /\ (forall vp0 vol0,
                     Some vp = Some vp0 -> recs !! vp0 = Some vol0 ->
                     (trace st0 = trace st
                      \/ trace st0 = trace st ++ [Umount (mount_point vol0) detach])
                     /\ (trace st0 = trace st ++ [Umount (mount_point vol0) detach] <->
                         fs_type vol0 <> "ramdisk" /\ proc_mounts_readable os = true
                         /\ is_Some (mounted st !! mount_point vol0))
                     /\ (r0 = 0 <->
                         fs_type vol0 <> "ramdisk" /\ proc_mounts_readable os = true
                         /\ (mounted st !! mount_point vol0 = None
                             \/ is_Some (umount_result os (mounted st)
                                           (mount_point vol0) detach)))
                     /\ (fs_type vol0 = "ramdisk" -> st0 = st)
                     /\ (mounted st0 = mounted st
                         \/ umount_result os (mounted st) (mount_point vol0) detach
                            = Some (mounted st0))))
    as Hpack.
  { intros r st' Hr Htrace Hzero Hram Hstate. exists r, st'.
    split; [reflexivity|]. split; [exact Hr|]. split; [discriminate|].
    intros vp0 vol0 [= <-] Hv0. rewrite Hvol in Hv0. injection Hv0 as <-.
    split; [destruct Htrace as [[H _]|[H _]]; auto|].
    split; [|auto].
    destruct Htrace as [[Heq Hnot]|[Heq Hyes]].
    - split; [|intros H; contradiction].
      rewrite Heq. intros H. exfalso. exact (Hgrow _ H).
    - split; auto. }
  destruct (String.eqb_spec (fs_type vol) "ramdisk") as [Hram|Hram].
  { apply Hpack.
    - auto.
    - left. split; [reflexivity|]. intros [H _]. contradiction.
    - split; [discriminate|]. intros [H _]. contradiction.
    - reflexivity.
    - left. reflexivity. }
  destruct (proc_mounts_readable os).
  2: { apply Hpack.
       - auto.
       - left. split; [reflexivity|]. intros (_ & H & _). discriminate H.
       - split; [discriminate|]. intros (_ & H & _). discriminate H.
       - contradiction.
       - left. reflexivity. }
  destruct (mounted st !! mount_point vol) as [b|] eqn:Hin.
  2: { apply Hpack.
       - auto.
       - left. split; [reflexivity|]. intros (_ & _ & [b Hb]). discriminate Hb.
       - split; [|reflexivity]. intros _. split; [exact Hram|].
         split; [reflexivity|]. left. reflexivity.
       - contradiction.
       - left. reflexivity. }
  destruct res as [m|] eqn:Hres; subst res.
  - apply Hpack.
    + auto.
    + right. split; [reflexivity|]. split; [exact Hram|]. split; [reflexivity|].
      eauto.
    + split; [|reflexivity]. intros _. split; [exact Hram|].
      split; [reflexivity|]. right. eauto.
    + contradiction.
    + right. reflexivity.
  - apply Hpack.
    + auto.
    + right. split; [reflexivity|]. split; [exact Hram|]. split; [reflexivity|].
      eauto.
    + split; [discriminate|]. intros (_ & _ & [H|[m Hm]]); discriminate.
    + contradiction.
    + left. reflexivity.
Qed.

(** X6.  [ensure_volume_mounted] fails on null and on an entry with an empty
    mount point.  For any other entry it resolves the mount point of the
    entry anew, so that the volume it mounts is the one detection selects for
    that mount point, which need not be the entry it was given; the target of
    the mount is the mount point of the entry all the same. *)
Theorem ensure_volume_mounted_resolves vp v st :
  recs !! vp = Some v ->
  ensure_volume_mounted None st = Some (-1, st)
  /\ (mount_point v = "" -> ensure_volume_mounted (Some vp) st = Some (-1, st))
  /\ (mount_point v <> "" ->
      exists vp' v',
        volume_for_path (mount_point v) = Some vp' /\ recs !! vp' = Some v'
        /\ mount_point v' = mount_point v
        /\ ensure_volume_mounted (Some vp) st
           = ensure_path_mounted_at (mount_point v') None st).
Proof.
  intros Hv. split; [reflexivity|]. unfold ensure_volume_mounted, deref, bind.
  rewrite Hv. unfold ret at 1 2. split.
  - intros ->. reflexivity.
  - intros Hne.
    destruct (volume_for_path_exact (mount_point v) vp Hne) as (vp' & Hp & v' & Hv' & Hmp);
      [exists v; auto|].
    exists vp', v'. rewrite Hmp. auto.
Qed.

(** *** Format engine: the dispatch *)

Lemma format_dispatch_run v volume directory len st :
  (if String.eqb (fs_type v) "ext4"
   then format_ext4 v volume directory len st
   else format_f2fs v volume directory len st)
  = Some (fst (dispatch_outcome v volume directory len),
          logged st (snd (dispatch_outcome v volume directory len))).
Proof.
  unfold dispatch_outcome, formatter_args, loader_args.
  destruct (String.eqb (fs_type v) "ext4").
  - unfold format_ext4. fold (mke2fs_args v len).
    unfold bind, exec_cmd, emit, ret, bind. simpl.
    destruct (Z.eqb_spec (WEXITSTATUS (wait_status os (mke2fs_args v len))) 0) as [E|E].
    + rewrite E. destruct directory as [dir|]; simpl; [|reflexivity].
      fold (e2fsdroid_args v volume dir). unfold logged. simpl.
      rewrite <- app_assoc.
      destruct (WEXITSTATUS (wait_status os (e2fsdroid_args v volume dir)) =? 0); reflexivity.
    + destruct directory; simpl;
        destruct (Z.eqb_spec (WEXITSTATUS (wait_status os (mke2fs_args v len))) 0);
        try contradiction; reflexivity.
  - unfold format_f2fs. fold (make_f2fs_cmd v len).
    unfold bind, exec_cmd, emit, ret, bind. simpl.
    destruct (Z.eqb_spec (WEXITSTATUS (wait_status os (make_f2fs_cmd v len))) 0) as [E|E].
    + rewrite E. destruct directory as [dir|]; simpl; [|reflexivity].
      fold (sload_f2fs_cmd v volume dir). unfold logged. simpl.
      rewrite <- app_assoc.
      destruct (WEXITSTATUS (wait_status os (sload_f2fs_cmd v volume dir)) =? 0); reflexivity.
    + destruct directory; simpl;
        destruct (Z.eqb_spec (WEXITSTATUS (wait_status os (make_f2fs_cmd v len))) 0);
        try contradiction; reflexivity.
Qed.

Lemma wipe_key_loc_true v st st2 :
  wipe_key_loc v st = Some (true, st2) ->
  st2 = logged st (key_wipe v)
  /\ forall k, key_loc v = Some k -> absolute k = true -> open_succeeds os k = true.
Proof.
  rewrite wipe_key_loc_run. unfold key_wipe.
  destruct (key_loc v) as [k|].
  - destruct (absolute k) eqn:Habs.
    + destruct (open_succeeds os k) eqn:Hopen; [|discriminate].
      intros [= <-]. split; [reflexivity|]. intros k' [= <-] _. exact Hopen.
    + intros [= <-]. rewrite logged_nil. split; [reflexivity|].
      intros k' [= <-]. congruence.
  - intros [= <-]. rewrite logged_nil. split; [reflexivity|]. discriminate.
Qed.

Lemma logged_logged st evs1 evs2 :
  logged (logged st evs1) evs2 = logged st (evs1 ++ evs2).
Proof. unfold logged. simpl. rewrite app_assoc. reflexivity. Qed.

Lemma format_volume_reaches_dispatch path directory vp v st st1 len :
  volume_for_path path = Some vp -> recs !! vp = Some v ->
  mount_point v = path ->
  fs_type v = "ext4" \/ fs_type v = "f2fs" ->
  ensure_path_unmounted path false st = Some (0, st1) ->
  (forall k, key_loc v = Some k -> absolute k = true -> open_succeeds os k = true) ->
  format_length v = Some len ->
  voldmanaged v = false ->
  format_volume path directory st
  = Some (fst (dispatch_outcome v path directory len),
          logged st1 (key_wipe v ++ snd (dispatch_outcome v path directory len))).
Proof.
  intros Hpath Hv Hmp Hty Hun Hopen Hlen Hvold.
  rewrite (format_volume_run _ _ _ _ _ Hpath Hv), Hmp, String.eqb_refl, Hun.
  rewrite (wipe_key_loc_opened _ _ Hopen), Hlen, Hvold. cbn [negb Z.eqb].
  assert (String.eqb (fs_type v) "ramdisk" = false) as ->
      by (destruct Hty as [-> | ->]; reflexivity).
  assert (negb (String.eqb (fs_type v) "ext4")
          && negb (String.eqb (fs_type v) "f2fs") = false) as ->
      by (destruct Hty as [-> | ->]; reflexivity).
  rewrite format_dispatch_run, logged_logged. reflexivity.
Qed.

Lemma WEXITSTATUS_low status : 0 <= status < 256 -> WEXITSTATUS status = 0.
Proof.
  intros Hs. unfold WEXITSTATUS.
  assert (Z.land status 65280 = 0) as ->; [|reflexivity].
  apply Z.bits_inj'. intros n Hn. rewrite Z.land_spec, Z.bits_0.
  destruct (Z.lt_ge_cases n 8) as [Hlow|Hhigh].
  - change 65280 with (255 * 2 ^ 8). rewrite Z.mul_pow2_bits_low by lia.
    apply andb_false_r.
  - destruct (Z.eq_dec status 0) as [->|Hne]; [rewrite Z.bits_0; reflexivity|].
    rewrite (Z.bits_above_log2 status n); [reflexivity|lia|].
    apply Z.lt_le_trans with 8; [|exact Hhigh].
    apply Z.log2_lt_pow2; lia.
Qed.

(** X8.  What [exec_cmd] returns decides the outcome of the dispatch, and
    what it returns is the exit-status byte of the wait status, looked at
    without asking whether the tool exited.  Once a volume of type ext4 or
    f2fs that is not vold-managed has passed the checks, been unmounted and
    had its key location wiped, [format_volume] runs the formatter for its
    type.  It runs the loader after it exactly when a directory was given
    and the exit-status byte of the formatter is 0, and it returns 0 exactly
    when that byte is 0 for every tool it ran, and -1 otherwise.  A wait
    status below 256 has the byte 0: a formatter ended by a signal counts as
    one that succeeded. *)
Theorem format_volume_dispatch path directory vp v st st1 len :
  volume_for_path path = Some vp -> recs !! vp = Some v ->
  mount_point v = path ->
  fs_type v = "ext4" \/ fs_type v = "f2fs" ->
  ensure_path_unmounted path false st = Some (0, st1) ->
  (forall k, key_loc v = Some k -> absolute k = true -> open_succeeds os k = true) ->
  format_length v = Some len ->
  voldmanaged v = false ->
  exists r loader,
    format_volume path directory st
    = Some (r, logged st1 (key_wipe v ++ Exec (formatter_args v len) :: loader))
    /\ loader = match directory with
                | Some dir =>
                    if Z.eqb (WEXITSTATUS (wait_status os (formatter_args v len))) 0
                    then [Exec (loader_args v path dir)]
                    else []
                | None => []
                end
    /\ (r = 0 \/ r = -1)
    /\ (r = 0 <->
        WEXITSTATUS (wait_status os (formatter_args v len)) = 0
        /\ forall dir, directory = Some dir ->
                       WEXITSTATUS (wait_status os (loader_args v path dir)) = 0)
    /\ (0 <= wait_status os (formatter_args v len) < 256 ->
        (forall dir, directory = Some dir ->
                     0 <= wait_status os (loader_args v path dir) < 256) ->
        r = 0).
Proof.
  intros Hpath Hv Hmp Hty Hun Hopen Hlen Hvold.
  rewrite (format_volume_reaches_dispatch _ _ _ _ _ _ _ Hpath Hv Hmp Hty Hun Hopen
             Hlen Hvold).
  unfold dispatch_outcome.
  destruct (Z.eqb_spec (WEXITSTATUS (wait_status os (formatter_args v len))) 0)
    as [Hfmt|Hfmt].
  - destruct directory as [dir|]; cbn [fst snd].
    + destruct (Z.eqb_spec (WEXITSTATUS (wait_status os (loader_args v path dir))) 0)
        as [Hld|Hld].
      * exists 0, [Exec (loader_args v path dir)].
        split; [reflexivity|]. split; [reflexivity|]. split; [auto|]. split.
        -- split; [|reflexivity]. intros _. split; [exact Hfmt|].
           intros dir' [= <-]. exact Hld.
        -- intros _ _. reflexivity.
      * exists (-1), [Exec (loader_args v path dir)].
        split; [reflexivity|]. split; [reflexivity|]. split; [auto|]. split.
        -- split; [discriminate|]. intros [_ H]. exfalso. apply Hld, H. reflexivity.
        -- intros _ Hsl. exfalso. apply Hld, WEXITSTATUS_low, Hsl. reflexivity.
    + exists 0, []. split; [reflexivity|]. split; [reflexivity|]. split; [auto|].
      split.
      * split; [|reflexivity]. intros _. split; [exact Hfmt|]. discriminate.
      * intros _ _. reflexivity.
  - exists (-1), []. split; [reflexivity|]. split; [destruct directory; reflexivity|].
    split; [auto|]. split.
    + split; [discriminate|]. intros [H _]. contradiction.
    + intros Hsf _. exfalso. apply Hfmt, WEXITSTATUS_low, Hsf.
Qed.

(** X9.  [format_volume] returns 0 only when every step has passed: the
    path is the mount point of a volume of type ext4 or f2fs that is not
    vold-managed, [ensure_path_unmounted] returned 0, the length computation
    succeeded, a key location that is an absolute path was opened and
    wiped, and the exit-status byte of the wait status was 0 for the
    formatter, and for the loader when a directory was given (which does not
    say that the tool exited); the calls issued after those of the unmount
    are the wipe, the formatter and the loader, in that order. *)
Theorem format_volume_success path directory st st' :
  format_volume path directory st = Some (0, st') ->
  exists vp v st1 len,
    volume_for_path path = Some vp /\ recs !! vp = Some v
    /\ mount_point v = path
    /\ (fs_type v = "ext4" \/ fs_type v = "f2fs")
    /\ voldmanaged v = false
    /\ ensure_path_unmounted path false st = Some (0, st1)
    /\ (forall k, key_loc v = Some k -> absolute k = true ->
                  open_succeeds os k = true)
    /\ format_length v = Some len
    /\ WEXITSTATUS (wait_status os (formatter_args v len)) = 0
    /\ (forall dir, directory = Some dir ->
                    WEXITSTATUS (wait_status os (loader_args v path dir)) = 0)
    /\ st' = logged st1
               (key_wipe v ++ Exec (formatter_args v len)
                  :: match directory with
                     | Some dir => [Exec (loader_args v path dir)]
                     | None => []
                     end).
Proof.
  destruct (volume_for_path path) as [vp|] eqn:Hpath.
  2: { unfold format_volume. rewrite Hpath. discriminate. }
  destruct (volume_for_path_valid _ _ Hpath) as [v Hv].
  rewrite (format_volume_run _ _ _ _ _ Hpath Hv).
  destruct (String.eqb (fs_type v) "ramdisk"); [discriminate|].
  destruct (String.eqb_spec (mount_point v) path) as [Hmp|]; [|discriminate].
  cbn [negb].
  destruct (ensure_path_unmounted path false st) as [[r1 st1]|] eqn:Hun;
    [|discriminate].
  destruct (Z.eqb_spec r1 0) as [->|]; [|discriminate]. cbn [negb].
  destruct (String.eqb_spec (fs_type v) "ext4") as [Hext|Hext];
    destruct (String.eqb_spec (fs_type v) "f2fs") as [Hf2|Hf2];
    cbn [negb andb]; try discriminate.
  all: destruct (wipe_key_loc v st1) as [[ok st2]|] eqn:Hwipe; [|discriminate].
  all: destruct ok; [|discriminate]; cbn [negb].
  all: apply wipe_key_loc_true in Hwipe as (-> & Hopen).
  all: destruct (format_length v) as [len|] eqn:Hlen; [|discriminate].
  all: destruct (voldmanaged v) eqn:Hvold; [discriminate|].
  all: intros Hrun; exists vp, v, st1, len.
  all: assert (fs_type v = "ext4" \/ fs_type v = "f2fs") as Hty by auto.
  all: assert ((if String.eqb (fs_type v) "ext4"
                then format_ext4 v path directory len (logged st1 (key_wipe v))
                else format_f2fs v path directory len (logged st1 (key_wipe v)))
               = Some (0, st')) as Hrun'
      by (destruct (String.eqb_spec (fs_type v) "ext4");
          first [exact Hrun | contradiction]).
  all: rewrite format_dispatch_run, logged_logged in Hrun'.
  all: unfold dispatch_outcome in Hrun'.
  all: destruct (Z.eqb_spec (WEXITSTATUS (wait_status os (formatter_args v len))) 0) as [Hfmt|Hfmt];
    [|destruct directory; discriminate].
  all: repeat (split; [first [assumption | reflexivity]|]).
  all: destruct directory as [dir|]; cbn [fst snd] in Hrun'.
  all: try (destruct (Z.eqb_spec (WEXITSTATUS (wait_status os (loader_args v path dir))) 0)
              as [Hld|Hld]; [|discriminate]).
  all: injection Hrun' as <-.
  all: split; [|reflexivity].
  all: first [intros dir' [= <-]; exact Hld | discriminate].
Qed.

(** X10.  The one-argument [format_volume] never runs a loader: whatever it
    returns, it has issued unmount, open and wipe calls only, followed by at
    most one call of a tool, and that tool is the formatter of a volume the
    path resolves to. *)
Theorem format_volume_1_single_tool volume st r st' :
  format_volume_1 volume st = Some (r, st') ->
  exists evs,
    Forall (fun e => is_exec e = false) evs
    /\ (trace st' = trace st ++ evs
        \/ exists vp v len,
             volume_for_path volume = Some vp /\ recs !! vp = Some v
             /\ format_length v = Some len
             /\ trace st' = trace st ++ evs ++ [Exec (formatter_args v len)]).
Proof.
  unfold format_volume_1.
  destruct (volume_for_path volume) as [vp|] eqn:Hpath.
  2: { unfold format_volume. rewrite Hpath. intros [= <- <-].
       exists []. split; [constructor|]. left. rewrite app_nil_r. reflexivity. }
  destruct (volume_for_path_valid _ _ Hpath) as [v Hv].
  rewrite (format_volume_run _ _ _ _ _ Hpath Hv).
  assert (forall s, trace s = trace st ->
                    exists evs,
                      Forall (fun e => is_exec e = false) evs
                      /\ (trace s = trace st ++ evs
                          \/ exists vp0 v0 len,
                               Some vp = Some vp0 /\ recs !! vp0 = Some v0
                               /\ format_length v0 = Some len
                               /\ trace s = trace st ++ evs
                                            ++ [Exec (formatter_args v0 len)]))
    as Hnil.
  { intros s Hs. exists []. split; [constructor|]. left.
    rewrite app_nil_r. exact Hs. }
  destruct (String.eqb (fs_type v) "ramdisk"); [intros [= <- <-]; auto|].
  destruct (negb (String.eqb (mount_point v) volume)); [intros [= <- <-]; auto|].
  destruct (ensure_path_unmounted volume false st) as [[r1 st1]|] eqn:Hun;
    [|discriminate].
  apply ensure_path_unmounted_events in Hun as (evs1 & Htr1 & Hevs1).
  apply Forall_umount_no_exec in Hevs1.
  destruct (negb (r1 =? 0)); [intros [= <- <-]; eauto|].
  destruct (negb _ && negb _); [intros [= <- <-]; eauto|].
  destruct (wipe_key_loc v st1) as [[ok st2]|] eqn:Hwipe; [|discriminate].
  apply wipe_key_loc_events in Hwipe as (evs2 & Htr2 & Hevs2).
  assert (trace st2 = trace st ++ (evs1 ++ evs2)) as Htr
      by (rewrite Htr2, Htr1, app_assoc; reflexivity).
  assert (Forall (fun e => is_exec e = false) (evs1 ++ evs2)) as Hevs
      by (apply Forall_app; auto).
  destruct (negb ok); [intros [= <- <-]; eauto|].
  destruct (format_length v) as [len|] eqn:Hlen; [|intros [= <- <-]; eauto].
  destruct (voldmanaged v); [intros [= <- <-]; eauto|].
  rewrite format_dispatch_run. unfold dispatch_outcome.
  intros [= <- <-]. exists (evs1 ++ evs2). split; [exact Hevs|]. right.
  exists vp, v, len. rewrite Hlen. repeat split; auto.
  destruct (WEXITSTATUS (wait_status os (formatter_args v len)) =? 0); simpl;
    rewrite Htr, <- app_assoc; reflexivity.
Qed.

(** *** Format engine: the arguments of the formatters *)

(** X11.  The stride handed to the ext4 formatter is the larger of 8 KiB
    and the logical block size, in blocks of 4096 bytes, and the stripe width
    is the erase block size in such blocks; the option is there exactly when
    both sizes are known.  The vector starts with the fixed options and
    names the device last before the optional block count, and it is the
    vector [format_ext4] executes first. *)
Theorem mke2fs_geometry v volume directory len st :
  (exists tail,
      mke2fs_args v len
      = ["/sbin/mke2fs_static"; "-F"; "-t"; "ext4"; "-b"; "4096"]
          ++ (if negb (Z.eqb (logical_blk_size v) 0)
                 && negb (Z.eqb (erase_blk_size v) 0)
              then ["-E";
                    ("stride="
                       ++ CStr.to_string (Z.quot (Z.max 8192 (logical_blk_size v)) 4096)
                       ++ ",stripe-width="
                       ++ CStr.to_string (Z.quot (erase_blk_size v) 4096))%string]
              else [])
          ++ blk_device v :: tail
      /\ (tail = [] \/ tail = [CStr.to_string (Z.quot len 4096)]))
  /\ exists r st1,
       exec_cmd (mke2fs_args v len) st = Some (r, st1)
       /\ format_ext4 v volume directory len st
          = (do result <- match directory with
                          | Some dir =>
                              if Z.eqb r 0
                              then exec_cmd (e2fsdroid_args v volume dir)
                              else ret r
                          | None => ret r
                          end;
             if negb (Z.eqb result 0) then ret (-1) else ret 0) st1.
Proof.
  split.
  - exists (if negb (Z.eqb len 0) then [CStr.to_string (Z.quot len 4096)] else []).
    split; [|destruct (negb (Z.eqb len 0)); auto].
    unfold mke2fs_args. cbv zeta.
    destruct (Z.eqb_spec (logical_blk_size v) 0) as [Hz|Hnz];
      destruct (Z.eqb_spec (erase_blk_size v) 0) as [He|He];
      cbn [negb andb]; try (destruct (negb (Z.eqb len 0)); reflexivity).
    assert ((if Z.ltb (logical_blk_size v) 8192
             then Z.quot 8192 4096
             else Z.quot (logical_blk_size v) 4096)
            = Z.quot (Z.max 8192 (logical_blk_size v)) 4096) as ->.
    { destruct (Z.ltb_spec (logical_blk_size v) 8192).
      - rewrite Z.max_l by lia. reflexivity.
      - rewrite Z.max_r by lia. reflexivity. }
    destruct (negb (Z.eqb len 0)); reflexivity.
  - unfold format_ext4. fold (mke2fs_args v len).
    unfold exec_cmd at 1 2. unfold bind, emit, ret.
    eexists _, _. split; reflexivity.
Qed.

(** X12.  The two formatters are told the size under different conditions.
    The ext4 formatter gets a block count for every target length other than
    zero, which is a count of 0 for a length below 4096; the f2fs formatter
    gets a sector count only for a length of 4096 or more.  Without a count
    the device is the last argument. *)
Theorem formatter_size_argument v len :
  last (mke2fs_args v len)
  = Some (if Z.eqb len 0 then blk_device v else CStr.to_string (Z.quot len 4096))
  /\ last (make_f2fs_cmd v len)
     = Some (if Z.leb 4096 len then CStr.to_string (Z.quot len 4096)
             else blk_device v)
  /\ (0 < len < 4096 ->
      last (mke2fs_args v len) = Some "0"
      /\ last (make_f2fs_cmd v len) = Some (blk_device v)).
Proof.
  assert (last (mke2fs_args v len)
          = Some (if Z.eqb len 0 then blk_device v
                  else CStr.to_string (Z.quot len 4096))) as Hext.
  { unfold mke2fs_args. cbv zeta.
    destruct (Z.eqb len 0); cbn [negb]; rewrite last_snoc; reflexivity. }
  assert (last (make_f2fs_cmd v len)
          = Some (if Z.leb 4096 len then CStr.to_string (Z.quot len 4096)
                  else blk_device v)) as Hf2fs.
  { unfold make_f2fs_cmd. cbv zeta. rewrite Z.geb_leb.
    destruct (Z.leb 4096 len); [rewrite last_snoc|]; reflexivity. }
  split; [exact Hext|]. split; [exact Hf2fs|].
  intros Hsmall. rewrite Hext, Hf2fs.
  destruct (Z.eqb_spec len 0); [lia|].
  destruct (Z.leb_spec 4096 len); [lia|].
  rewrite Z.quot_small by lia. split; reflexivity.
Qed.

(** *** The derived table *)

Lemma detected_record path j :
  mounted_at path j ->
  exists di dv, get_entry_for_mount_point_detect_fs path = Some di
                /\ recs !! di = Some dv /\ mount_point dv = path.
Proof.
  intros Hj. apply lookup_is_Some, detect_fs_is_Some in Hj as [di Hdi].
  destruct (detect_fs_mounted_at _ _ Hdi) as (dv & Hdv & Hmp). eauto.
Qed.

Lemma scan_fake_None (f : list Volume) mp :
  scan_mount_point f 0 mp = None <-> forall e, e ∈ f -> mount_point e <> mp.
Proof.
  split.
  - intros Hscan e [k Hk]%list_elem_of_lookup.
    eapply scan_mount_point_None; eauto.
  - intros Hnone. destruct (scan_mount_point f 0 mp) as [j|] eqn:E; [|reflexivity].
    apply scan_mount_point_Some in E as (_ & (e & He & Hmp) & _).
    exfalso. apply (Hnone e); [|exact Hmp]. eapply list_elem_of_lookup_2, He.
Qed.

Lemma scan_fake_Some (f : list Volume) mp j :
  scan_mount_point f 0 mp = Some j -> exists e, e ∈ f /\ mount_point e = mp.
Proof.
  intros E. apply scan_mount_point_Some in E as (_ & (e & He & Hmp) & _).
  exists e. split; [eapply list_elem_of_lookup_2, He|exact Hmp].
Qed.

Lemma fake_fstab_loop_sound le rs i f out fake' out' :
  (forall k v, rs !! k = Some v -> recs !! (i + k)%nat = Some v) ->
  NoDup (mount_point <$> f) ->
  (forall e, e ∈ f -> made_of_table e) ->
  fake_fstab_loop le rs i (Some f) out = Some (fake', out') ->
  exists f',
    fake' = Some f'
    /\ NoDup (mount_point <$> f')
    /\ (forall e, e ∈ f' -> made_of_table e)
    /\ (forall e, e ∈ f -> e ∈ f')
    /\ List.length out' = (List.length out + List.length rs)%nat.
Proof.
  revert i f out. induction rs as [|v rest IH]; intros i f out Hrs Hdup Hprov.
  - intros [= <- <-]. exists f. simpl. rewrite Nat.add_0_r. auto.
  - assert (recs !! i = Some v) as Hv.
    { rewrite <- (Nat.add_0_r i). apply Hrs. reflexivity. }
    assert (forall k w, rest !! k = Some w -> recs !! (S i + k)%nat = Some w) as Hrest.
    { intros k w Hk. replace (S i + k)%nat with (i + S k)%nat by lia.
      apply Hrs. exact Hk. }
    assert (forall (f0 : list Volume) (o : string) (r : option (list Volume)),
               (exists f', r = Some f' /\ NoDup (mount_point <$> f')
                           /\ (forall e, e ∈ f' -> made_of_table e)
                           /\ (forall e, e ∈ f0 -> e ∈ f')
                           /\ List.length out'
                              = (List.length (out ++ [o]) + List.length rest)%nat) ->
               (forall e, e ∈ f -> e ∈ f0) ->
               exists f', r = Some f' /\ NoDup (mount_point <$> f')
                          /\ (forall e, e ∈ f' -> made_of_table e)
                          /\ (forall e, e ∈ f -> e ∈ f')
                          /\ List.length out'
                             = (List.length out + List.length (v :: rest))%nat)
      as Hwrap.
    { intros f0 o r (f' & -> & Hd & Hp & Hsub & Hlen) Hf. exists f'.
      repeat split; auto. rewrite Hlen, length_app. simpl. lia. }
    cbn [fake_fstab_loop mbind option_bind].
    destruct (scan_mount_point f 0 (mount_point v)) as [j|] eqn:Hscan.
    { intros Hloop. eapply Hwrap; [eapply IH; eauto|auto]. }
    destruct (get_entry_for_mount_point_detect_fs (mount_point v)) as [di|] eqn:Hdet;
      [|discriminate]. simpl.
    destruct (recs !! di) as [dv|] eqn:Hdv; [|discriminate].
    destruct (String.eqb_spec (fs_type v) (fs_type dv)) as [Hty|Hty].
    2: { intros Hloop. eapply Hwrap; [eapply IH; eauto|auto]. }
    unfold fs_mgr_add_entry. destruct (realloc_succeeds le f); cbn [snd].
    2: { intros Hloop. eapply Hwrap; [eapply IH; eauto|auto]. }
    intros Hloop. eapply Hwrap; [eapply IH; [exact Hrest| | |exact Hloop]|].
    + rewrite fmap_app. apply NoDup_app. split; [exact Hdup|]. split.
      * intros mp Hin Hin2. simpl in Hin2. apply list_elem_of_singleton in Hin2.
        subst mp. apply list_elem_of_fmap in Hin as (e & He & Hin).
        apply (proj1 (scan_fake_None f (mount_point v)) Hscan e Hin).
        symmetry. exact He.
      * apply NoDup_singleton.
    + intros e [He|He%list_elem_of_singleton]%elem_of_app; [auto|].
      exists i, v, di, dv. auto.
    + intros e He. apply elem_of_app. auto.
Qed.

Lemma fake_fstab_loop_defined le rs i f out :
  (forall k v, rs !! k = Some v -> recs !! (i + k)%nat = Some v) ->
  is_Some (fake_fstab_loop le rs i (Some f) out).
Proof.
  revert i f out. induction rs as [|v rest IH]; intros i f out Hrs; [simpl; eauto|].
  assert (recs !! i = Some v) as Hv.
  { rewrite <- (Nat.add_0_r i). apply Hrs. reflexivity. }
  assert (forall k w, rest !! k = Some w -> recs !! (S i + k)%nat = Some w) as Hrest.
  { intros k w Hk. replace (S i + k)%nat with (i + S k)%nat by lia.
    apply Hrs. exact Hk. }
  cbn [fake_fstab_loop mbind option_bind].
  destruct (scan_mount_point f 0 (mount_point v)); [apply IH, Hrest|].
  destruct (detected_record (mount_point v) i) as (di & dv & -> & Hdv & _);
    [exists v; auto|].
  simpl. rewrite Hdv.
  destruct (String.eqb (fs_type v) (fs_type dv)); apply IH, Hrest.
Qed.

Lemma fake_fstab_loop_null le rs i out fake' out' :
  fake_fstab_loop le rs i None out = Some (fake', out') -> fake' = None.
Proof.
  revert i out. induction rs as [|v rest IH]; intros i out;
    [intros [= <-]; reflexivity|].
  cbn [fake_fstab_loop mbind option_bind].
  destruct (_ ≫= _) as [dv|]; [|discriminate].
  destruct (String.eqb (fs_type v) (fs_type dv)); [discriminate|]. apply IH.
Qed.

Lemma derive_fstab_inv le d f :
  derive_fstab le = Some d -> fake_fstab d = Some f ->
  exists out,
    fake_fstab_loop le recs 0 (Some [])
      [("recovery filesystem table" ++ newline)%string;
       ("=========================" ++ newline)%string]
    = Some (Some f, out).
Proof.
  unfold derive_fstab. destruct (calloc_succeeds le); cbv zeta.
  - destruct (fake_fstab_loop le recs 0 (Some []) _) as [[fake out]|];
      [|discriminate].
    destruct (fopen_succeeds le); [destruct fake; [|discriminate]|];
      intros [= <-]; simpl; intros ->; eauto.
  - destruct (fake_fstab_loop le recs 0 None _) as [[fake out]|] eqn:Hloop;
      [|discriminate].
    apply fake_fstab_loop_null in Hloop as ->.
    destruct (fopen_succeeds le); [discriminate|]. intros [= <-]. discriminate.
Qed.

(** X13.  [load_volume_table] reads the type of the entry detection returns
    without a null check, and this is safe: once the derived table is
    allocated, the rest of the function runs to its end for every table and
    every probe result, printing two header lines, one line for each entry
    of the table and an empty line. *)
Theorem derive_fstab_defined le :
  calloc_succeeds le = true ->
  exists d,
    derive_fstab le = Some d
    /\ is_Some (fake_fstab d)
    /\ List.length (stdout d) = (List.length recs + 3)%nat
    /\ (is_Some (etc_fstab d) <-> fopen_succeeds le = true).
Proof.
  intros Hcalloc. unfold derive_fstab. rewrite Hcalloc.
  destruct (fake_fstab_loop_defined le recs 0 [] 
              [("recovery filesystem table" ++ newline)%string;
               ("=========================" ++ newline)%string])
    as [[fake out] Hloop]; [auto|].
  rewrite Hloop.
  apply fake_fstab_loop_sound in Hloop as (f & -> & _ & _ & _ & Hlen);
    [|auto|constructor|intros e He; inversion He].
  destruct (fopen_succeeds le); eexists; (split; [reflexivity|]); simpl;
    (split; [eauto|]); rewrite length_app, Hlen; simpl; (split; [lia|]).
  - split; eauto.
  - split; [intros [? [=]]|intros [=]].
Qed.

Lemma derive_fstab_made_of_table le d f :
  derive_fstab le = Some d -> fake_fstab d = Some f ->
  NoDup (mount_point <$> f) /\ forall e, e ∈ f -> made_of_table e.
Proof.
  intros Hd Hf. destruct (derive_fstab_inv le d f Hd Hf) as [out Hloop].
  apply fake_fstab_loop_sound in Hloop as (f' & Heq & Hsound);
    [|auto|constructor|intros e He; inversion He].
  injection Heq as <-. tauto.
Qed.

(** X14.  The derived table has at most one entry for a mount point, and
    each of its entries is made of the mount point, type and device of a
    record of the table whose type is the type of the entry that detection
    selects for that mount point. *)
Theorem derive_fstab_sound le d f :
  derive_fstab le = Some d -> fake_fstab d = Some f ->
  NoDup (mount_point <$> f) /\ forall e, e ∈ f -> made_of_table e.
Proof.
  intros Hd Hf. destruct (derive_fstab_inv le d f Hd Hf) as [out Hloop].
  apply fake_fstab_loop_sound in Hloop as (f' & [= <-] & Hdup & Hprov & _);
    [auto|auto|constructor|intros e He; inversion He].
Qed.

Lemma fake_fstab_loop_complete le rs i f out fake' out' :
  (forall t, realloc_succeeds le t = true) ->
  (forall k v, rs !! k = Some v -> recs !! (i + k)%nat = Some v) ->
  (forall j v, (j < i)%nat -> recs !! j = Some v ->
               get_entry_for_mount_point_detect_fs (mount_point v) = Some j ->
               exists e, e ∈ f /\ mount_point e = mount_point v) ->
  fake_fstab_loop le rs i (Some f) out = Some (fake', out') ->
  exists f',
    fake' = Some f'
    /\ forall j v, (j < i + List.length rs)%nat -> recs !! j = Some v ->
                   get_entry_for_mount_point_detect_fs (mount_point v) = Some j ->
                   exists e, e ∈ f' /\ mount_point e = mount_point v.
Proof.
  intros Hgrow. revert i f out.
  induction rs as [|v rest IH]; intros i f out Hrs Hcov.
  - intros [= <- <-]. exists f. simpl. rewrite Nat.add_0_r. auto.
  - assert (recs !! i = Some v) as Hv.
    { rewrite <- (Nat.add_0_r i). apply Hrs. reflexivity. }
    assert (forall k w, rest !! k = Some w -> recs !! (S i + k)%nat = Some w) as Hrest.
    { intros k w Hk. replace (S i + k)%nat with (i + S k)%nat by lia.
      apply Hrs. exact Hk. }
    assert (forall (f0 : list Volume) o,
               (forall e, e ∈ f -> e ∈ f0) ->
               (get_entry_for_mount_point_detect_fs (mount_point v) = Some i ->
                exists e, e ∈ f0 /\ mount_point e = mount_point v) ->
               fake_fstab_loop le rest (S i) (Some f0) o = Some (fake', out') ->
               exists f',
                 fake' = Some f'
                 /\ forall j w, (j < i + List.length (v :: rest))%nat ->
                                recs !! j = Some w ->
                                get_entry_for_mount_point_detect_fs (mount_point w)
                                = Some j ->
                                exists e, e ∈ f' /\ mount_point e = mount_point w)
      as Hstep.
    { intros f0 o Hsub Hhere Hloop.
      apply IH in Hloop as (f' & -> & Hcov'); [| exact Hrest |].
      - exists f'. split; [reflexivity|]. intros j w Hj. apply Hcov'.
        simpl in Hj. lia.
      - intros j w Hj Hw Hdet. destruct (decide (j = i)) as [->|Hji].
        + rewrite Hv in Hw. injection Hw as <-. auto.
        + destruct (Hcov j w) as (e & He & Hmp); [lia|auto|auto|]. eauto. }
    cbn [fake_fstab_loop mbind option_bind].
    destruct (scan_mount_point f 0 (mount_point v)) as [j|] eqn:Hscan.
    { apply Hstep; [auto|]. intros _. eapply scan_fake_Some, Hscan. }
    destruct (get_entry_for_mount_point_detect_fs (mount_point v)) as [di|] eqn:Hdet;
      [|discriminate]. simpl.
    destruct (recs !! di) as [dv|] eqn:Hdv; [|discriminate].
    destruct (String.eqb_spec (fs_type v) (fs_type dv)) as [Hty|Hty].
    + unfold fs_mgr_add_entry. rewrite Hgrow. cbn [snd]. apply Hstep.
      * intros e He. apply elem_of_app. auto.
      * intros _. exists (synthetic (mount_point v) (fs_type v) (blk_device v)).
        split; [|reflexivity]. apply elem_of_app. right.
        apply list_elem_of_singleton. reflexivity.
    + apply Hstep; [auto|]. intros [= ->]. congruence.
Qed.

Lemma NoDup_fmap_eq {A B} (g : A -> B) (l : list A) x y :
  NoDup (g <$> l) -> x ∈ l -> y ∈ l -> g x = g y -> x = y.
Proof.
  induction l as [|a l IH]; intros Hdup Hx Hy Hg; [inversion Hx|].
  rewrite fmap_cons in Hdup. apply NoDup_cons in Hdup as [Ha Hdup].
  apply elem_of_cons in Hx as [->|Hx]; apply elem_of_cons in Hy as [->|Hy];
    auto.
  - exfalso. apply Ha. rewrite Hg. apply list_elem_of_fmap. eauto.
  - exfalso. apply Ha. rewrite <- Hg. apply list_elem_of_fmap. eauto.
Qed.

(** X15.  When the derived table can always grow, it has exactly one entry
    for each mount point of the table, and the type of that entry is the
    type of the entry detection selects for the mount point. *)
Theorem derive_fstab_complete le d f j v :
  (forall t, realloc_succeeds le t = true) ->
  derive_fstab le = Some d -> fake_fstab d = Some f ->
  recs !! j = Some v ->
  exists e di dv,
    e ∈ f /\ mount_point e = mount_point v
    /\ get_entry_for_mount_point_detect_fs (mount_point v) = Some di
    /\ recs !! di = Some dv /\ fs_type e = fs_type dv
    /\ forall e', e' ∈ f -> mount_point e' = mount_point v -> e' = e.
Proof.
  intros Hgrow Hd Hf Hv.
  destruct (derive_fstab_made_of_table le d f Hd Hf) as [Hdup Hprov].
  assert (forall j w, (j < List.length recs)%nat -> recs !! j = Some w ->
                      get_entry_for_mount_point_detect_fs (mount_point w) = Some j ->
                      exists e, e ∈ f /\ mount_point e = mount_point w) as Hcov.
  { destruct (derive_fstab_inv le d f Hd Hf) as [out Hloop].
    apply fake_fstab_loop_complete in Hloop as (f' & [= <-] & Hcov);
      [exact Hcov|exact Hgrow|auto|intros ? ? Hlt; lia]. }
  destruct (detected_record (mount_point v) j) as (di & dv & Hdet & Hdv & Hmp);
    [exists v; auto|].
  destruct (Hcov di dv) as (e & He & Hemp).
  { eapply lookup_lt_Some, Hdv. }
  { exact Hdv. }
  { rewrite Hmp. exact Hdet. }
  exists e, di, dv. rewrite Hmp in Hemp.
  split; [exact He|]. split; [exact Hemp|]. split; [exact Hdet|].
  split; [exact Hdv|]. split.
  - destruct (Hprov e He) as (j0 & v0 & di0 & dv0 & Hv0 & -> & Hdet0 & Hdv0 & Hty0).
    simpl in *. rewrite Hemp in Hdet0. rewrite Hdet in Hdet0. injection Hdet0 as <-.
    rewrite Hdv in Hdv0. injection Hdv0 as <-. exact Hty0.
  - intros e' He' Hmp'. eapply NoDup_fmap_eq; eauto. congruence.
Qed.

Lemma write_fstab_entry_synthetic mp ty dev :
  write_fstab_entry (Some (synthetic mp ty dev))
  = if written (synthetic mp ty dev)
    then [(dev ++ " ")%string; (mp ++ " ")%string; (ty ++ " ")%string;
          ("defaults 0 0" ++ newline)%string]
    else [].
Proof.
  unfold write_fstab_entry, written, fs_mgr_is_voldmanaged. simpl.
  rewrite andb_true_r. reflexivity.
Qed.

(** X16.  What is written to /etc/fstab is, for each entry of the derived
    table in turn, either nothing or the four fields of a line: the device,
    the mount point, the type and the options.  A line is written exactly
    for the entries whose device and mount point begin with '/' and whose
    type is none of mtd, emmc and bml; the options are always the default
    ones, since the derived table carries none, and the file is written
    exactly when it could be opened. *)
Theorem derive_fstab_file le d :
  derive_fstab le = Some d ->
  (fopen_succeeds le = false -> etc_fstab d = None)
  /\ (fopen_succeeds le = true ->
      exists f,
        fake_fstab d = Some f
        /\ etc_fstab d
           = Some (concat
                     (map (fun e =>
                             if written e
                             then [(blk_device e ++ " ")%string;
                                   (mount_point e ++ " ")%string;
                                   (fs_type e ++ " ")%string;
                                   ("defaults 0 0" ++ newline)%string]
                             else []) f))).
Proof.
  intros Hd. pose proof Hd as Hd0. revert Hd. unfold derive_fstab.
  destruct (fake_fstab_loop _ _ _ _ _) as [[fake out]|]; [|discriminate].
  destruct (fopen_succeeds le).
  - destruct fake as [f|]; [|discriminate]. intros [= <-].
    split; [discriminate|]. intros _. exists f. split; [reflexivity|].
    simpl. do 2 f_equal. apply map_ext_in. intros e He.
    destruct (derive_fstab_made_of_table le _ f Hd0 eq_refl) as [_ Hprov].
    destruct (Hprov e) as (j & v & _ & _ & _ & -> & _);
      [apply list_elem_of_In, He|].
    apply write_fstab_entry_synthetic.
  - intros [= <-]. split; [reflexivity|discriminate].
Qed.

Lemma search_path_nested mp c :
  mp <> "" -> CStr.free_of slash c = true ->
  search_path (mp ++ String slash c)%string
  = (mp ++ String slash c)%string :: search_path mp.
Proof.
  intros Hmp Hc. unfold search_path. rewrite length_app_string. simpl String.length.
  rewrite Nat.add_succ_r. cbn [ancestors]. rewrite parent_nested by assumption.
  f_equal. apply string_nonempty_length in Hmp. apply ancestors_fuel; lia.
Qed.

Lemma search_path_nest mp cs :
  mp <> "" -> Forall (fun c => CStr.free_of slash c = true) cs ->
  mp ∈ search_path (nest mp cs).
Proof.
  intros Hmp. induction cs as [|c cs IH] using rev_ind; intros Hfree.
  - unfold search_path. simpl. destruct (String.length mp); apply list_elem_of_here.
  - apply Forall_app in Hfree as [Hcs Hc]. apply Forall_inv in Hc.
    rewrite nest_snoc, search_path_nested; [|apply nest_nonempty, Hmp|exact Hc].
    apply list_elem_of_further, IH, Hcs.
Qed.

(** A path resolves as soon as one of its candidates is a configured mount
    point. *)
Lemma volume_for_path_is_Some path a j :
  path <> "" -> a ∈ search_path path -> mounted_at a j ->
  is_Some (volume_for_path path).
Proof.
  intros Hne [k Hk]%list_elem_of_lookup Hj.
  destruct (volume_for_path path) as [vp|] eqn:E; [eauto|].
  pose proof (volume_for_path_None_candidates path k a Hne E Hk) as Hnone.
  exfalso. exact (lookup_None _ Hnone j Hj).
Qed.

(** *** The table [load_volume_table] leaves *)

Lemma append_empty_r a : (a ++ "")%string = a.
Proof.
  induction a as [|x a IH]; [reflexivity|].
  change (String x (a ++ "")%string = String x a). f_equal. exact IH.
Qed.

Lemma append_assoc a b c : ((a ++ b) ++ c)%string = (a ++ (b ++ c))%string.
Proof.
  induction a as [|x a IH]; [reflexivity|].
  change (String x ((a ++ b) ++ c)%string = String x (a ++ (b ++ c))%string).
  f_equal. exact IH.
Qed.

Lemma nest_extends mp cs : exists rest, nest mp cs = (mp ++ rest)%string
                                        /\ (cs <> [] -> rest <> "").
Proof.
  induction cs as [|c cs IH] using rev_ind.
  - exists "". split; [|contradiction]. rewrite append_empty_r. reflexivity.
  - destruct IH as (rest & Hrest & _). exists (rest ++ String slash c)%string.
    rewrite nest_snoc, Hrest. split; [apply append_assoc|].
    intros _. destruct rest; discriminate.
Qed.

Lemma starts_with_app a b : CStr.starts_with a (a ++ b)%string = true.
Proof.
  induction a as [|x a IH]; [reflexivity|].
  change (Ascii.eqb x x && CStr.starts_with a (a ++ b)%string = true).
  rewrite Ascii.eqb_refl. exact IH.
Qed.

Lemma app_nonempty_neq a b : b <> "" -> (a ++ b)%string <> a.
Proof.
  intros Hb Heq. apply (f_equal String.length) in Heq.
  rewrite length_app_string in Heq. apply string_nonempty_length in Hb. lia.
Qed.

Lemma volume_for_path_nest_free mp cs :
  mp <> "" -> Forall (fun c => CStr.free_of slash c = true) cs ->
  (forall cs', cs' <> [] -> fs_mgr_get_entry_for_mount_point (nest mp cs') = None) ->
  volume_for_path (nest mp cs) = volume_for_path mp.
Proof.
  intros Hmp. induction cs as [|c cs IH] using rev_ind; intros Hfree Hnone;
    [reflexivity|].
  apply Forall_app in Hfree as [Hcs Hc]. apply Forall_inv in Hc.
  rewrite nest_snoc, volume_for_path_parent.
  - apply IH; assumption.
  - apply nest_nonempty, Hmp.
  - exact Hc.
  - rewrite <- nest_snoc. apply Hnone. destruct cs; discriminate.
Qed.

(** With the ramdisk entry last in the table and no other mount point
    beginning with "/tmp", the paths at and below "/tmp" resolve to it. *)
Lemma ramdisk_resolution read cs :
  fstab = Some (read ++ [synthetic "/tmp" "ramdisk" "ramdisk"]) ->
  (forall v, v ∈ read -> CStr.starts_with "/tmp" (mount_point v) = false) ->
  Forall (fun c => CStr.free_of slash c = true) cs ->
  volume_for_path (nest "/tmp" cs) = Some (List.length read)
  /\ recs !! List.length read = Some (synthetic "/tmp" "ramdisk" "ramdisk").
Proof.
  intros Htab Hread Hfree.
  assert (recs = read ++ [synthetic "/tmp" "ramdisk" "ramdisk"]) as Hrecs
      by (unfold recs; rewrite Htab; reflexivity).
  assert (recs !! List.length read = Some (synthetic "/tmp" "ramdisk" "ramdisk"))
    as Hlast by (rewrite Hrecs; apply list_lookup_middle; reflexivity).
  assert (forall a j, CStr.starts_with "/tmp" a = true -> mounted_at a j ->
                      j = List.length read /\ a = "/tmp") as Honly.
  { intros a j Ha (v & Hv & Hmp). rewrite Hrecs in Hv.
    apply lookup_app_Some in Hv as [Hv|[Hle Hv]].
    - apply list_elem_of_lookup_2, Hread in Hv. congruence.
    - destruct (j - List.length read)%nat as [|k] eqn:Hk; [|discriminate].
      injection Hv as <-. split; [lia|]. rewrite <- Hmp. reflexivity. }
  split; [|exact Hlast].
  rewrite volume_for_path_nest_free; [|discriminate|exact Hfree|].
  - destruct (volume_for_path_exact "/tmp" (List.length read)) as (vp & Hvp & Hm);
      [discriminate|eexists; split; [exact Hlast|reflexivity]|].
    rewrite Hvp. f_equal. apply (Honly "/tmp" vp); [reflexivity|exact Hm].
  - intros cs' Hne.
    destruct (fs_mgr_get_entry_for_mount_point (nest "/tmp" cs')) as [j|] eqn:E;
      [|reflexivity].
    apply lookup_mounted_at in E. exfalso.
    destruct (nest_extends "/tmp" cs') as (rest & Hrest & Hnon).
    destruct (Honly (nest "/tmp" cs') j) as [_ Heq]; [|exact E|].
    + rewrite Hrest. apply starts_with_app.
    + rewrite Hrest in Heq. exact (app_nonempty_neq _ _ (Hnon Hne) Heq).
Qed.

Lemma nest_tmp_not_storage cs : CStr.starts_with "/storage/" (nest "/tmp" cs) = false.
Proof. destruct (nest_extends "/tmp" cs) as (rest & -> & _). reflexivity. Qed.

(** Appending a record leaves the lookups that succeed as they are. *)
Lemma scan_mount_point_app rs extra i path j :
  scan_mount_point rs i path = Some j ->
  scan_mount_point (rs ++ extra) i path = Some j.
Proof.
  revert i. induction rs as [|v rs IH]; intros i; simpl; [discriminate|].
  destruct (String.eqb (mount_point v) path); [auto|apply IH].
Qed.

(** *** The size of a file *)

Lemma to_int64_range z : int64_range (to_int64 z).
Proof.
  unfold int64_range, to_int64, INT64_MIN, INT64_MAX.
  pose proof (Z.mod_pos_bound (z + 2 ^ 63) (2 ^ 64)). lia.
Qed.

(** X19.  The result of [get_file_size] is the size less the reserve for a
    regular file, also when that is negative.  For a block device the result
    is never negative and never more than the size of the device, and it is 0
    exactly when the device is no larger than the reserve or larger than
    INT64_MAX.  A file that cannot be examined, or of another kind, gives
    0. *)
Theorem get_file_size_bounds fd r :
  stat_wf (file_kind os fd) -> uint64_range r ->
  int64_range (get_file_size fd r)
  /\ (forall size, file_kind os fd = RegularFile size -> r <= 2 ^ 63 ->
        get_file_size fd r = size - r)
  /\ (forall size, file_kind os fd = BlockDevice size ->
        0 <= get_file_size fd r <= size
        /\ (get_file_size fd r = 0 <-> size <= r \/ INT64_MAX < size))
  /\ (file_kind os fd = StatFails \/ file_kind os fd = OtherFile ->
      get_file_size fd r = 0).
Proof.
  unfold get_file_size, stat_wf, uint64_range. intros Hwf Hr.
  destruct (file_kind os fd) as [|size|size|].
  - split; [unfold int64_range, INT64_MIN, INT64_MAX; lia|].
    split; [discriminate|]. split; [discriminate|]. reflexivity.
  - split; [apply to_int64_range|]. split; [|split; [discriminate|]].
    + intros ? [= <-] Hle. unfold INT64_MAX in Hwf.
      rewrite (to_uint64_small size) by (unfold uint64_range; lia).
      apply to_int64_to_uint64. unfold int64_range, INT64_MIN, INT64_MAX. lia.
    + intros [H|H]; discriminate H.
  - assert (size < r \/ INT64_MAX < size
            \/ r <= size <= INT64_MAX
               /\ to_int64 (to_uint64 (size - r)) = size - r) as Hcases.
    { destruct (Z.lt_ge_cases size r) as [Hlt|Hge]; [auto|].
      destruct (Z.lt_ge_cases INT64_MAX size) as [Hbig|Hfit]; [auto|].
      right. right. split; [lia|]. apply to_int64_to_uint64.
      unfold int64_range, INT64_MIN, INT64_MAX in *. lia. }
    assert ((if Z.ltb size r || Z.gtb size INT64_MAX then 0
             else to_int64 (to_uint64 (size - r)))
            = if Z.ltb size r || Z.gtb size INT64_MAX then 0 else size - r) as ->.
    { destruct (Z.ltb_spec size r); [reflexivity|].
      destruct (Z.gtb_spec size INT64_MAX); [reflexivity|]. simpl.
      destruct Hcases as [?|[?|[_ ->]]]; [lia|lia|reflexivity]. }
    unfold INT64_MAX in *.
    split; [|split; [discriminate|split; [|intros [H|H]; discriminate H]]].
    + unfold int64_range, INT64_MIN, INT64_MAX.
      destruct (Z.ltb_spec size r); [simpl; lia|].
      destruct (Z.gtb_spec size (2 ^ 63 - 1)); simpl; lia.
    + intros ? [= <-].
      destruct (Z.ltb_spec size r); [simpl; lia|].
      destruct (Z.gtb_spec size (2 ^ 63 - 1)); simpl; lia.
  - split; [unfold int64_range, INT64_MIN, INT64_MAX; lia|].
    split; [discriminate|]. split; [discriminate|]. reflexivity.
Qed.

(** *** Unmounting below "/storage/" *)

(** X20.  For a path below "/storage/" only the labels count.  When no entry
    of the table carries the first component as its label,
    [ensure_path_unmounted] returns -1 and does nothing, whatever is mounted
    and whatever the table says of the path.  A first component of
    [PATH_MAX] characters or more overruns the label buffer. *)
Theorem ensure_path_unmounted_storage rs lbl detach st :
  fstab = Some rs -> CStr.free_of slash lbl = true ->
  ((String.length lbl < PATH_MAX)%nat ->
   (forall k w, rs !! k = Some w -> label w <> Some lbl) ->
   ensure_path_unmounted ("/storage/" ++ lbl)%string detach st = Some (-1, st)
   /\ forall rest,
        ensure_path_unmounted ("/storage/" ++ lbl ++ String slash rest)%string detach st
        = Some (-1, st))
  /\ ((PATH_MAX <= String.length lbl)%nat ->
      ensure_path_unmounted ("/storage/" ++ lbl)%string detach st = None
      /\ forall rest,
           ensure_path_unmounted ("/storage/" ++ lbl ++ String slash rest)%string
             detach st = None).
Proof.
  intros Htab Hfree.
  assert (forall rest,
             ensure_path_unmounted ("/storage/" ++ lbl ++ String slash rest)%string
               detach st
             = (do l <- copy_label lbl;
                do v <- volume_for_label l;
                ensure_volume_unmounted v detach) st) as Hnested.
  { intros rest. unfold ensure_path_unmounted.
    rewrite storage_prefix, storage_skip. cbv zeta.
    rewrite (strchr_app _ _ _ Hfree), take_app_length.
    unfold bind. destruct (copy_label lbl st) as [[l s]|]; reflexivity. }
  assert (ensure_path_unmounted ("/storage/" ++ lbl)%string detach st
          = (do l <- copy_label lbl;
             do v <- volume_for_label l;
             ensure_volume_unmounted v detach) st) as Hplain.
  { unfold ensure_path_unmounted.
    rewrite storage_prefix, storage_skip. cbv zeta.
    rewrite (strchr_free _ _ Hfree).
    unfold bind. destruct (copy_label lbl st) as [[l s]|]; reflexivity. }
  assert ((String.length lbl < PATH_MAX)%nat ->
          (forall k w, rs !! k = Some w -> label w <> Some lbl) ->
          (do l <- copy_label lbl;
           do v <- volume_for_label l;
           ensure_volume_unmounted v detach) st = Some (-1, st)) as Hunknown.
  { intros Hlen Hnone. unfold bind at 1. rewrite (copy_label_fits _ _ Hlen).
    unfold bind, volume_for_label, get_device_volumes, ret. rewrite Htab.
    pose proof (volume_for_label_loop_spec rs 0 lbl) as Hspec.
    destruct (volume_for_label_loop rs 0 lbl) as [j|]; [|reflexivity].
    destruct Hspec as (_ & (v & Hv & Hl) & _). rewrite Nat.sub_0_r in Hv.
    exfalso. exact (Hnone j v Hv Hl). }
  assert ((PATH_MAX <= String.length lbl)%nat ->
          (do l <- copy_label lbl;
           do v <- volume_for_label l;
           ensure_volume_unmounted v detach) st = None) as Hover.
  { intros Hlen. unfold bind at 1. unfold copy_label.
    apply Nat.ltb_ge in Hlen. rewrite Hlen. reflexivity. }
  split.
  - intros Hlen Hnone. split; [rewrite Hplain|intros rest; rewrite Hnested]; auto.
  - intros Hlen. split; [rewrite Hplain|intros rest; rewrite Hnested]; auto.
Qed.

(** *** The tools [format_volume] runs *)

(** The four tools of the format engine. *)
Lemma formatter_args_head v len :
  exists rest,
    formatter_args v len
    = (if String.eqb (fs_type v) "ext4" then "/sbin/mke2fs_static"
       else "/sbin/mkfs.f2fs") :: rest.
Proof.
  unfold formatter_args, mke2fs_args, make_f2fs_cmd. cbv zeta.
  destruct (String.eqb (fs_type v) "ext4").
  - destruct (negb _ && negb _); destruct (negb (Z.eqb len 0)); simpl; eauto.
  - destruct (Z.geb len 4096); simpl; eauto.
Qed.

Lemma no_exec_format_tool evs :
  Forall (fun e => is_exec e = false) evs -> Forall format_tool evs.
Proof.
  intros H. eapply Forall_impl; [exact H|].
  intros [] He; first [exact I | discriminate He].
Qed.

Lemma dispatch_outcome_tools v volume directory len :
  Forall format_tool (snd (dispatch_outcome v volume directory len)).
Proof.
  assert (format_tool (Exec (formatter_args v len))) as Hfmt.
  { destruct (formatter_args_head v len) as (rest & ->). simpl.
    eexists _, rest. split; [reflexivity|].
    destruct (String.eqb (fs_type v) "ext4"); rewrite !elem_of_cons; auto 10. }
  assert (forall dir, format_tool (Exec (loader_args v volume dir))) as Hld.
  { intros dir. unfold loader_args, e2fsdroid_args, sload_f2fs_cmd. simpl.
    destruct (String.eqb (fs_type v) "ext4"); eexists _, _;
      (split; [reflexivity|]); rewrite !elem_of_cons; auto 10. }
  unfold dispatch_outcome. cbv zeta.
  destruct (Z.eqb (WEXITSTATUS (wait_status os (formatter_args v len))) 0);
    [destruct directory|]; simpl; repeat constructor; auto.
Qed.

(** X21.  Whatever [format_volume] returns, the calls it has issued extend
    the trace, and each tool among them is one of the two formatters and the
    two loaders, run by an argument vector that is not empty: the check
    [exec_cmd] makes of its arguments never fails. *)
Theorem format_volume_tools path directory st r st' :
  format_volume path directory st = Some (r, st') ->
  exists evs, trace st' = trace st ++ evs /\ Forall format_tool evs.
Proof.
  destruct (volume_for_path path) as [vp|] eqn:Hpath.
  2: { unfold format_volume. rewrite Hpath. intros [= <- <-].
       exists []. split; [rewrite app_nil_r; reflexivity|constructor]. }
  destruct (volume_for_path_valid _ _ Hpath) as [v Hv].
  rewrite (format_volume_run _ _ _ _ _ Hpath Hv).
  assert (forall s, trace s = trace st ->
                    exists evs, trace s = trace st ++ evs /\ Forall format_tool evs)
    as Hnil.
  { intros s Hs. exists []. split; [rewrite app_nil_r; exact Hs|constructor]. }
  destruct (String.eqb (fs_type v) "ramdisk"); [intros [= <- <-]; auto|].
  destruct (negb (String.eqb (mount_point v) path)); [intros [= <- <-]; auto|].
  destruct (ensure_path_unmounted path false st) as [[r1 st1]|] eqn:Hun;
    [|discriminate].
  apply ensure_path_unmounted_events in Hun as (evs1 & Htr1 & Hevs1).
  apply Forall_umount_no_exec, no_exec_format_tool in Hevs1.
  destruct (negb (r1 =? 0)); [intros [= <- <-]; eauto|].
  destruct (negb _ && negb _); [intros [= <- <-]; eauto|].
  destruct (wipe_key_loc v st1) as [[ok st2]|] eqn:Hwipe; [|discriminate].
  apply wipe_key_loc_events in Hwipe as (evs2 & Htr2 & Hevs2).
  apply no_exec_format_tool in Hevs2.
  assert (trace st2 = trace st ++ (evs1 ++ evs2)) as Htr
      by (rewrite Htr2, Htr1, app_assoc; reflexivity).
  assert (Forall format_tool (evs1 ++ evs2)) as Hevs by (apply Forall_app; auto).
  destruct (negb ok); [intros [= <- <-]; eauto|].
  destruct (format_length v) as [len|]; [|intros [= <- <-]; eauto].
  destruct (voldmanaged v); [intros [= <- <-]; eauto|].
  rewrite format_dispatch_run. intros [= <- <-].
  exists ((evs1 ++ evs2) ++ snd (dispatch_outcome v path directory len)). split.
  - simpl. rewrite Htr, <- !app_assoc. reflexivity.
  - apply Forall_app. split; [exact Hevs|apply dispatch_outcome_tools].
Qed.

(** *** Failure of [format_volume] *)

(** X22.  [format_volume] does not fail atomically.  When it rejects a
    volume of type ext4 or f2fs at the length computation or at the
    vold-managed check, [ensure_path_unmounted] has already returned 0 for
    the path, having issued nothing but unmount calls, and a key location
    that is an absolute path has been opened and wiped: the state returned
    with the failure is the one the unmount left, with the calls of the wipe
    added to the trace. *)
Theorem format_volume_rejected_after_wipe path directory vp v st st1 :
  volume_for_path path = Some vp -> recs !! vp = Some v ->
  mount_point v = path ->
  fs_type v = "ext4" \/ fs_type v = "f2fs" ->
  ensure_path_unmounted path false st = Some (0, st1) ->
  (forall k, key_loc v = Some k -> absolute k = true -> open_succeeds os k = true) ->
  format_length v = None \/ voldmanaged v = true ->
  format_volume path directory st = Some (-1, logged st1 (key_wipe v))
  /\ (exists evs, trace st1 = trace st ++ evs
                  /\ Forall (fun e => is_umount e = true) evs)
  /\ (forall k, key_loc v = Some k -> absolute k = true ->
                key_wipe v
                = [OpenCreate k; WipeBlockDevice k (ext4_utils_get_file_size k)]).
Proof.
  intros Hpath Hv Hmp Hty Hun Hopen Hreject. split; [|split].
  - rewrite (format_volume_run _ _ _ _ _ Hpath Hv), Hmp, String.eqb_refl, Hun.
    rewrite (wipe_key_loc_opened _ _ Hopen). cbn [negb Z.eqb].
    assert (String.eqb (fs_type v) "ramdisk" = false) as ->
        by (destruct Hty as [-> | ->]; reflexivity).
    assert (negb (String.eqb (fs_type v) "ext4")
            && negb (String.eqb (fs_type v) "f2fs") = false) as ->
        by (destruct Hty as [-> | ->]; reflexivity).
    destruct Hreject as [-> | ->]; [reflexivity|].
    destruct (format_length v); reflexivity.
  - eapply ensure_path_unmounted_events, Hun.
  - intros k Hk Habs. unfold key_wipe. rewrite Hk, Habs. reflexivity.
Qed.

End Roots.

(** ** The table [load_volume_table] leaves, and the ramdisk *)

Lemma load_fstab_read le read :
  fs_mgr_read_fstab_default le = Some read ->
  load_fstab le = if realloc_succeeds le read
                  then Some (read ++ [synthetic "/tmp" "ramdisk" "ramdisk"])
                  else None.
Proof.
  intros Hread. unfold load_fstab, fs_mgr_add_entry. rewrite Hread.
  destruct (realloc_succeeds le read); reflexivity.
Qed.

Lemma scan_mount_point_snoc rs e i path :
  scan_mount_point rs i path = None ->
  scan_mount_point (rs ++ [e]) i path
  = if String.eqb (mount_point e) path then Some (i + List.length rs)%nat else None.
Proof.
  revert i. induction rs as [|v rs IH]; intros i; simpl.
  - intros _. rewrite Nat.add_0_r. reflexivity.
  - destruct (String.eqb (mount_point v) path); [discriminate|].
    intros Hnone. rewrite (IH _ Hnone), Nat.add_succ_r. reflexivity.
Qed.

(** X17.  [load_volume_table] leaves no table exactly when the fstab could
    not be read or the table read could not grow.  Otherwise the table is the
    one read followed by the ramdisk entry for "/tmp": it has one entry more,
    every mount point other than "/tmp" is looked up as in the table read, a
    "/tmp" entry of the table read is found before the ramdisk entry, and
    every path at or below "/tmp" resolves to a volume. *)
Theorem load_volume_table_result le :
  (load_fstab le = None <->
   fs_mgr_read_fstab_default le = None
   \/ exists read, fs_mgr_read_fstab_default le = Some read
                   /\ realloc_succeeds le read = false)
  /\ forall t,
       load_fstab le = Some t ->
       exists read,
         fs_mgr_read_fstab_default le = Some read
         /\ t = read ++ [synthetic "/tmp" "ramdisk" "ramdisk"]
         /\ get_num_volumes (load_fstab le) = Some (S (List.length read))
         /\ (forall path, path <> "/tmp" ->
               volume_for_mount_point (load_fstab le) path
               = volume_for_mount_point (Some read) path)
         /\ volume_for_mount_point (load_fstab le) "/tmp"
            = Some (default (List.length read)
                            (volume_for_mount_point (Some read) "/tmp"))
         /\ forall os cs,
              Forall (fun c => CStr.free_of slash c = true) cs ->
              is_Some (volume_for_path (load_fstab le) os (nest "/tmp" cs)).
Proof.
  split.
  - destruct (fs_mgr_read_fstab_default le) as [read|] eqn:Hread.
    + rewrite (load_fstab_read le read Hread). split.
      * destruct (realloc_succeeds le read) eqn:Hgrow; [discriminate|].
        intros _. right. exists read. auto.
      * intros [H|(read' & [= <-] & ->)]; [discriminate|reflexivity].
    + unfold load_fstab. rewrite Hread. split; auto.
  - intros t Hload. destruct (fs_mgr_read_fstab_default le) as [read|] eqn:Hread.
    2: { unfold load_fstab in Hload. rewrite Hread in Hload. discriminate. }
    rewrite (load_fstab_read le read Hread) in Hload |- *.
    destruct (realloc_succeeds le read); [|discriminate]. injection Hload as <-.
    exists read. split; [reflexivity|]. split; [reflexivity|].
    assert (forall path,
               volume_for_mount_point
                 (Some (read ++ [synthetic "/tmp" "ramdisk" "ramdisk"])) path
               = match volume_for_mount_point (Some read) path with
                 | Some r => Some r
                 | None => if String.eqb "/tmp" path then Some (List.length read)
                           else None
                 end) as Hlook.
    { intros path.
      unfold volume_for_mount_point, fs_mgr_get_entry_for_mount_point,
        fs_mgr_get_entry_for_mount_point_after, recs, first_after.
      cbn [from_option]. unfold id. rewrite !drop_0.
      destruct (scan_mount_point read 0 path) as [r|] eqn:Hscan.
      - apply scan_mount_point_app, Hscan.
      - rewrite (scan_mount_point_snoc _ _ _ _ Hscan). reflexivity. }
    split; [|split; [|split]].
    + unfold get_num_volumes. cbn [fmap option_fmap option_map].
      rewrite length_app, Nat.add_1_r. reflexivity.
    + intros path Hne. rewrite Hlook.
      destruct (volume_for_mount_point (Some read) path); [reflexivity|].
      destruct (String.eqb_spec "/tmp" path); [congruence|reflexivity].
    + rewrite Hlook.
      destruct (volume_for_mount_point (Some read) "/tmp"); reflexivity.
    + intros os cs Hfree.
      apply (volume_for_path_is_Some _ os (nest "/tmp" cs) "/tmp" (List.length read)).
      * apply nest_nonempty. discriminate.
      * apply search_path_nest; [discriminate|exact Hfree].
      * exists (synthetic "/tmp" "ramdisk" "ramdisk"). split; [|reflexivity].
        unfold recs. cbn [default]. apply list_lookup_middle. reflexivity.
Qed.

(** X18.  After a load whose table read has no mount point beginning with
    "/tmp", every path at or below "/tmp" resolves to the ramdisk entry.  For
    such a path [ensure_path_mounted] returns 0, while
    [ensure_path_unmounted] and [format_volume] return -1; none of them
    issues a call or changes the state. *)
Theorem load_volume_table_ramdisk le os read cs directory detach st :
  fs_mgr_read_fstab_default le = Some read ->
  realloc_succeeds le read = true ->
  (forall v, v ∈ read -> CStr.starts_with "/tmp" (mount_point v) = false) ->
  Forall (fun c => CStr.free_of slash c = true) cs ->
  volume_for_path (load_fstab le) os (nest "/tmp" cs) = Some (List.length read)
  /\ recs (load_fstab le) !! List.length read
     = Some (synthetic "/tmp" "ramdisk" "ramdisk")
  /\ ensure_path_mounted (load_fstab le) os (nest "/tmp" cs) st = Some (0, st)
  /\ ensure_path_unmounted (load_fstab le) os (nest "/tmp" cs) detach st
     = Some (-1, st)
  /\ format_volume (load_fstab le) os (nest "/tmp" cs) directory st = Some (-1, st).
Proof.
  intros Hread Hgrow Hfree Hcs.
  rewrite (load_fstab_read le read Hread), Hgrow.
  destruct (ramdisk_resolution _ os read cs eq_refl Hfree Hcs) as [Hpath Hrec].
  split; [exact Hpath|]. split; [exact Hrec|]. split; [|split].
  - unfold ensure_path_mounted.
    rewrite (ensure_path_mounted_at_run _ _ _ _ _ _ _ Hpath Hrec). reflexivity.
  - rewrite ensure_path_unmounted_by_path by apply nest_tmp_not_storage.
    rewrite Hpath, (ensure_volume_unmounted_run _ _ _ _ _ _ Hrec). reflexivity.
  - rewrite (format_volume_run _ _ _ _ _ _ _ Hpath Hrec). reflexivity.
Qed.

(** ** The statements at concrete inputs *)

(** C1: formatting "/tmp", the ramdisk, is rejected and nothing happens. *)
Lemma format_volume_ramdisk_and_root_witness :
  format_volume Sample.fstab Sample.os "/tmp" None Sample.boot
  = Some (-1, Sample.boot).
Proof.
  apply (proj1 (format_volume_ramdisk_and_root Sample.fstab Sample.os "/tmp" None
                  5%nat Sample.tmp_volume Sample.boot eq_refl eq_refl)).
  reflexivity.
Defined.

(** C1 as stated fails: with an ext4 entry for "/" in the table and an
    environment that lets the unmount succeed, [format_volume "/"] unmounts
    the root volume, runs the ext4 formatter on its device and returns 0. *)
Lemma format_volume_formats_root :
  volume_for_path Sample.fstab Sample.os "/" = Some 0%nat
  /\ mount_point Sample.root_volume = "/"
  /\ match format_volume Sample.fstab Sample.os "/" None
             (Sample.with_mount "/" "/dev/block/system" "ext4") with
     | Some (r, st') =>
         r = 0
         /\ trace st' = [Umount "/" false;
                         Exec ["/sbin/mke2fs_static"; "-F"; "-t"; "ext4"; "-b";
                               "4096"; "/dev/block/system"]]
     | None => False
     end.
Proof. vm_compute. auto. Qed.

(** C2: the vold-managed volume of the sample table, mounted at "/external",
    is rejected by [format_volume] in the state the unmount left, with the
    wipe of its key location issued. *)
Lemma vold_managed_volume_witness :
  exists st1,
    ensure_path_unmounted Sample.fstab Sample.os "/external" false
      (Sample.with_mount "/external" "/dev/block/sdcard" "ext4") = Some (0, st1)
    /\ format_volume Sample.fstab Sample.os "/external" None
         (Sample.with_mount "/external" "/dev/block/sdcard" "ext4")
       = Some (-1, logged st1 (key_wipe Sample.os Sample.external_volume)).
Proof.
  eexists. run_call.
  apply (proj1 (proj2 (proj2
           (vold_managed_volume Sample.fstab Sample.os "/external" None 4%nat
              Sample.external_volume
              (Sample.with_mount "/external" "/dev/block/sdcard" "ext4")
              eq_refl eq_refl eq_refl)))
           _ eq_refl (or_introl eq_refl) Hrun).
  intros k Hk _. injection Hk as <-. reflexivity.
Defined.

(** C2 as stated fails: for the vold-managed volume, mounted at "/external",
    [ensure_path_mounted_at] issues the mount call, [ensure_volume_unmounted]
    issues the unmount call, and [format_volume] has issued the unmount call
    and wiped the key location by the time it rejects the volume. *)
Lemma vold_managed_volume_is_acted_on :
  voldmanaged Sample.external_volume = true
  /\ volume_for_path Sample.fstab Sample.os "/external" = Some 4%nat
  /\ match ensure_path_mounted_at Sample.fstab Sample.os "/external" None
             (Sample.with_mount "/external" "/dev/block/sdcard" "ext4") with
     | Some (r, st') =>
         r = 0
         /\ trace st' = [Mkdirs "/external";
                         Mount "/dev/block/sdcard" "/external" "ext4" 0 None]
     | None => False
     end
  /\ match ensure_volume_unmounted Sample.fstab Sample.os (Some 4%nat) false
             (Sample.with_mount "/external" "/dev/block/sdcard" "ext4") with
     | Some (r, st') => r = 0 /\ trace st' = [Umount "/external" false]
     | None => False
     end
  /\ match format_volume Sample.fstab Sample.os "/external" None
             (Sample.with_mount "/external" "/dev/block/sdcard" "ext4") with
     | Some (r, st') =>
         r = -1
         /\ trace st' = [Umount "/external" false;
                         OpenCreate "/dev/block/key";
                         WipeBlockDevice "/dev/block/key" 2048]
     | None => False
     end.
Proof. vm_compute. auto 10. Qed.

(** C3: the log file below "/cache" resolves to what "/cache" resolves to. *)
Lemma volume_for_path_resolution_witness :
  volume_for_path Sample.fstab Sample.os "/cache/recovery/last_log"
  = volume_for_path Sample.fstab Sample.os "/cache".
Proof.
  apply (proj2 (proj2 (proj2 (volume_for_path_resolution Sample.fstab Sample.os)))
           "/cache" ["recovery"; "last_log"]).
  - intros H. discriminate H.
  - repeat constructor.
  - intros cs' Hne [k Hk].
    destruct cs' as [|a [|b [|c cs']]]; simplify_eq; reflexivity.
Defined.

(** C4: "/cache" is configured ext4 first and f2fs second, the partition
    carries an f2fs signature, and detection returns the second entry. *)
Lemma detect_fs_resolution_witness :
  get_entry_for_mount_point_detect_fs Sample.fstab Sample.os "/cache" = Some 2%nat.
Proof.
  apply (proj2 (proj2 (proj2
           (detect_fs_resolution Sample.fstab Sample.os "/cache" 1%nat
              Sample.cache_ext4 eq_refl eq_refl))) eq_refl eq_refl 2%nat).
  - lia.
  - exists Sample.cache_f2fs. repeat split; reflexivity.
  - intros k Hk. lia.
Defined.

(** C5: a length of -1024 on a block device of 2048 bytes gives 1024. *)
Lemma format_length_computation_witness :
  length Sample.data_volume = -1024
  /\ file_kind Sample.os (blk_device Sample.data_volume) = BlockDevice 2048
  /\ format_length Sample.os Sample.data_volume = Some 1024.
Proof.
  split; [reflexivity|]. split; [reflexivity|].
  assert (int64_range (length Sample.data_volume)) as Hrange
      by (vm_compute; split; discriminate).
  assert (stat_wf (file_kind Sample.os (blk_device Sample.data_volume))) as Hwf
      by (vm_compute; split; [discriminate|reflexivity]).
  apply (proj2 (proj2 (proj2
           (proj1 (proj2 (format_length_computation Sample.os Sample.data_volume
                            Hrange Hwf))
              1024 (or_introl (conj eq_refl eq_refl)))))
           2048 eq_refl (or_intror eq_refl)).
  - reflexivity.
  - discriminate.
Defined.



(** C7: "/cache/recovery" resolves to a volume for "/cache" and is not its
    mount point; formatting it is rejected and nothing happens. *)
Lemma format_volume_rejects_other_paths_witness :
  volume_for_path Sample.fstab Sample.os "/cache/recovery" = Some 2%nat
  /\ format_volume Sample.fstab Sample.os "/cache/recovery" None
       (Sample.with_mount "/cache" "/dev/block/cache" "f2fs")
     = Some (-1, Sample.with_mount "/cache" "/dev/block/cache" "f2fs").
Proof.
  split; [reflexivity|].
  apply (format_volume_rejects_other_paths Sample.fstab Sample.os "/cache/recovery"
           None 2%nat Sample.cache_f2fs); try reflexivity.
  intros H. discriminate H.
Defined.


(** C9: unmounting "/storage/MYLABEL/subdir" is unmounting the volume
    labelled "MYLABEL". *)
Lemma ensure_path_unmounted_resolution_witness :
  ensure_path_unmounted Sample.fstab Sample.os "/storage/MYLABEL/subdir" false
    Sample.boot
  = (do v <- volume_for_label Sample.fstab "MYLABEL";
     ensure_volume_unmounted Sample.fstab Sample.os v false) Sample.boot.
Proof.
  apply (proj1 (ensure_path_unmounted_resolution Sample.fstab Sample.os)
           "MYLABEL" "subdir" false Sample.boot).
  - reflexivity.
  - apply Nat.ltb_lt. reflexivity.
Defined.

(** C10.  The defect: [format_volume] resolves the volume by path but
    unmounts through [ensure_path_unmounted], which resolves a path below
    "/storage/" by label.  The first table mounts a vold-managed ext4 volume
    at "/storage/sd", and "sd" is the label of another volume, which is not
    mounted.  [format_volume "/storage/sd"] passes the length check and
    rejects the volume at the vold-managed check after wiping its key
    location, yet no unmount call was issued and the volume is still
    mounted.  With a volume at "/storage/sd" that is not vold-managed the
    formatter is run on the mounted volume, and the result is 0. *)
Lemma format_volume_leaves_storage_volume_mounted :
  volume_for_path Sample.storage_fstab Sample.os "/storage/sd" = Some 0%nat
  /\ voldmanaged Sample.usb_volume = true
  /\ format_length Sample.os Sample.usb_volume = Some 0
  /\ match format_volume Sample.storage_fstab Sample.os "/storage/sd" None
             (Sample.with_mount "/storage/sd" "/dev/block/sda" "ext4") with
     | Some (r, st') =>
         r = -1
         /\ trace st' = [OpenCreate "/dev/block/key";
                         WipeBlockDevice "/dev/block/key" 2048]
         /\ mounted st' !! "/storage/sd" = Some (mkBacking "/dev/block/sda" "ext4")
     | None => False
     end
  /\ volume_for_path Sample.plain_storage_fstab Sample.os "/storage/sd" = Some 0%nat
  /\ match format_volume Sample.plain_storage_fstab Sample.os "/storage/sd" None
             (Sample.with_mount "/storage/sd" "/dev/block/sda" "ext4") with
     | Some (r, st') =>
         r = 0
         /\ trace st' = [Exec ["/sbin/mke2fs_static"; "-F"; "-t"; "ext4"; "-b";
                               "4096"; "/dev/block/sda"]]
         /\ mounted st' !! "/storage/sd" = Some (mkBacking "/dev/block/sda" "ext4")
     | None => False
     end.
Proof. vm_compute. auto 10. Qed.

(** A run of the set-up on the sample table with "/data" mounted: "/cache"
    is mounted once, with the type detection found on the partition, and
    "/data" is unmounted with the detach flag. *)
Example setup_install_mounts_sample_run :
  match setup_install_mounts Sample.fstab Sample.os
          (Sample.with_mount "/data" "/dev/block/userdata" "f2fs") with
  | Some (r, st') =>
      r = 0
      /\ trace st' = [Mkdirs "/cache";
                      Mount "/dev/block/cache" "/cache" "f2fs" 0 None;
                      Umount "/data" true]
  | None => False
  end.
Proof. vm_compute. auto. Qed.

(** ** The further properties at concrete inputs *)

(** X1: the label "sdcard1" is that of the fifth entry of the sample table,
    and of no entry before it. *)
Lemma volume_for_label_first_witness :
  volume_for_label Sample.fstab "sdcard1" Sample.boot
  = Some (Some 4%nat, Sample.boot).
Proof.
  apply (proj2 (proj1 (proj2 (volume_for_label_first Sample.fstab _ "sdcard1"
                                Sample.boot eq_refl)) 4%nat)).
  split.
  - exists Sample.external_volume. split; reflexivity.
  - intros k w Hk Hw.
    do 4 (destruct k as [|k]; [injection Hw as <-; discriminate|]). lia.
Defined.

(** X3: detection for "/cache" moves from the ext4 entry to the f2fs entry
    after it, whose type is the signature on the partition. *)
Lemma detect_fs_sound_witness :
  (1 <= 2)%nat
  /\ mounted_at Sample.fstab "/cache" 2
  /\ (2%nat = 1%nat
      \/ detects (fs_type Sample.cache_ext4)
         /\ blkid_get_tag_value Sample.os (blk_device Sample.cache_ext4)
            = Some (fs_type_at Sample.fstab 2)).
Proof.
  exact (detect_fs_sound Sample.fstab Sample.os "/cache" 1 Sample.cache_ext4 2
           eq_refl eq_refl eq_refl).
Defined.

(** X5: unmounting the mounted "/data" entry issues the one unmount call,
    detached. *)
Lemma ensure_volume_unmounted_post_witness :
  exists r st',
    ensure_volume_unmounted Sample.fstab Sample.os (Some 3%nat) true
      (Sample.with_mount "/data" "/dev/block/userdata" "f2fs") = Some (r, st')
    /\ (r = 0 \/ r = -1)
    /\ trace st'
       = trace (Sample.with_mount "/data" "/dev/block/userdata" "f2fs")
         ++ [Umount (mount_point Sample.data_volume) true].
Proof.
  destruct (ensure_volume_unmounted_post Sample.fstab Sample.os (Some 3%nat) true
              (Sample.with_mount "/data" "/dev/block/userdata" "f2fs"))
    as (r & st' & Hrun & Hr & _ & Hentry).
  - intros vp Hvp. injection Hvp as <-. exists Sample.data_volume. reflexivity.
  - exists r, st'. split; [exact Hrun|]. split; [exact Hr|].
    apply (proj1 (proj2 (Hentry 3%nat Sample.data_volume eq_refl eq_refl))).
    split; [intros H; discriminate H|]. split; [reflexivity|].
    vm_compute. eauto.
Defined.

(** X6: mounting through the ext4 entry for "/cache" resolves "/cache"
    anew. *)
Lemma ensure_volume_mounted_resolves_witness :
  exists vp' v',
    volume_for_path Sample.fstab Sample.os (mount_point Sample.cache_ext4) = Some vp'
    /\ recs Sample.fstab !! vp' = Some v'
    /\ mount_point v' = mount_point Sample.cache_ext4
    /\ ensure_volume_mounted Sample.fstab Sample.os (Some 1%nat) Sample.boot
       = ensure_path_mounted_at Sample.fstab Sample.os (mount_point v') None
           Sample.boot.
Proof.
  apply (proj2 (proj2 (ensure_volume_mounted_resolves Sample.fstab Sample.os 1
                         Sample.cache_ext4 Sample.boot eq_refl))).
  intros H. discriminate H.
Defined.

(** X8: formatting the mounted "/data" volume where every tool is ended by
    signal 11: the formatter and the loader are run, and the result is 0. *)
Lemma format_volume_dispatch_witness :
  exists st1,
    ensure_path_unmounted Sample.fstab Sample.signal_os "/data" false
      (Sample.with_mount "/data" "/dev/block/userdata" "f2fs") = Some (0, st1)
    /\ exists r loader,
    format_volume Sample.fstab Sample.signal_os "/data" (Some "/tmp/image")
      (Sample.with_mount "/data" "/dev/block/userdata" "f2fs")
    = Some (r, logged st1
                 (key_wipe Sample.signal_os Sample.data_volume
                    ++ Exec (formatter_args Sample.data_volume 1024) :: loader))
    /\ r = 0
    /\ WIFEXITED (wait_status Sample.signal_os
                    (formatter_args Sample.data_volume 1024)) = false.
Proof.
  eexists _. run_call.
  destruct (format_volume_dispatch Sample.fstab Sample.signal_os "/data"
              (Some "/tmp/image") 3 Sample.data_volume
              (Sample.with_mount "/data" "/dev/block/userdata" "f2fs") _ 1024
              eq_refl eq_refl eq_refl (or_intror eq_refl) Hrun)
    as (r & loader & Hformat & _ & _ & _ & Hsignal).
  - intros k Hk. discriminate Hk.
  - reflexivity.
  - reflexivity.
  - exists r, loader. split; [exact Hformat|]. split; [|reflexivity].
    apply Hsignal; [|intros dir _]; (split; [discriminate|reflexivity]).
Defined.

(** X9: the format of the mounted "/data" volume returns 0. *)
Lemma format_volume_success_witness :
  exists st',
    format_volume Sample.fstab Sample.os "/data" None
      (Sample.with_mount "/data" "/dev/block/userdata" "f2fs") = Some (0, st')
    /\ exists v len,
    mount_point v = "/data"
    /\ format_length Sample.os v = Some len
    /\ WEXITSTATUS (wait_status Sample.os (formatter_args v len)) = 0.
Proof.
  eexists _. run_call.
  destruct (format_volume_success Sample.fstab Sample.os "/data" None
              (Sample.with_mount "/data" "/dev/block/userdata" "f2fs") _ Hrun)
    as (vp & v & st1 & len & _ & _ & Hmp & _ & _ & _ & _ & Hlen & Hfmt & _).
  exists v, len. split; [exact Hmp|]. split; assumption.
Defined.

(** X10: the one-argument format of the mounted "/data" volume. *)
Lemma format_volume_1_single_tool_witness :
  exists r st',
    format_volume_1 Sample.fstab Sample.os "/data"
      (Sample.with_mount "/data" "/dev/block/userdata" "f2fs") = Some (r, st')
    /\ exists evs,
         Forall (fun e => is_exec e = false) evs
         /\ (trace st'
             = trace (Sample.with_mount "/data" "/dev/block/userdata" "f2fs") ++ evs
             \/ exists vp v len,
                  volume_for_path Sample.fstab Sample.os "/data" = Some vp
                  /\ recs Sample.fstab !! vp = Some v
                  /\ format_length Sample.os v = Some len
                  /\ trace st'
                     = trace (Sample.with_mount "/data" "/dev/block/userdata" "f2fs")
                       ++ evs ++ [Exec (formatter_args v len)]).
Proof.
  eexists _, _. run_call.
  exact (format_volume_1_single_tool Sample.fstab Sample.os "/data"
           (Sample.with_mount "/data" "/dev/block/userdata" "f2fs") _ _ Hrun).
Defined.

(** X13: deriving the table from the sample table. *)
Lemma derive_fstab_defined_witness :
  exists d,
    derive_fstab Sample.fstab Sample.os Sample.load_env = Some d
    /\ is_Some (fake_fstab d)
    /\ List.length (stdout d) = (List.length (recs Sample.fstab) + 3)%nat
    /\ (is_Some (etc_fstab d) <-> fopen_succeeds Sample.load_env = true).
Proof.
  exact (derive_fstab_defined Sample.fstab Sample.os Sample.load_env eq_refl).
Defined.

(** X14: the table derived from the sample table. *)
Lemma derive_fstab_sound_witness :
  exists d f,
    derive_fstab Sample.fstab Sample.os Sample.load_env = Some d
    /\ fake_fstab d = Some f
    /\ NoDup (mount_point <$> f)
    /\ forall e, e ∈ f -> made_of_table Sample.fstab Sample.os e.
Proof.
  eexists _, _. run_call. run_call.
  exact (derive_fstab_sound Sample.fstab Sample.os Sample.load_env _ _
           Hrun Hrun0).
Defined.

(** X15: the one entry for "/cache" in the table derived from the sample
    table has the type detection found. *)
Lemma derive_fstab_complete_witness :
  exists d f,
    derive_fstab Sample.fstab Sample.os Sample.load_env = Some d
    /\ fake_fstab d = Some f
    /\ exists e di dv,
         e ∈ f /\ mount_point e = mount_point Sample.cache_ext4
         /\ get_entry_for_mount_point_detect_fs Sample.fstab Sample.os
              (mount_point Sample.cache_ext4) = Some di
         /\ recs Sample.fstab !! di = Some dv /\ fs_type e = fs_type dv
         /\ forall e', e' ∈ f -> mount_point e' = mount_point Sample.cache_ext4 ->
                       e' = e.
Proof.
  eexists _, _. run_call. run_call.
  exact (derive_fstab_complete Sample.fstab Sample.os Sample.load_env _ _ 1
           Sample.cache_ext4 (fun _ => eq_refl) Hrun Hrun0 eq_refl).
Defined.

(** X16: the file written for the sample table. *)
Lemma derive_fstab_file_witness :
  exists d,
    derive_fstab Sample.fstab Sample.os Sample.load_env = Some d
    /\ exists f,
    fake_fstab d = Some f
    /\ etc_fstab d
       = Some (concat
                 (map (fun e =>
                         if written e
                         then [(blk_device e ++ " ")%string;
                               (mount_point e ++ " ")%string;
                               (fs_type e ++ " ")%string;
                               ("defaults 0 0" ++ newline)%string]
                         else []) f)).
Proof.
  eexists _. run_call.
  exact (proj2 (derive_fstab_file Sample.fstab Sample.os Sample.load_env _ Hrun)
           eq_refl).
Defined.

(** X18: after loading the sample table, "/tmp/dir/file" is on the
    ramdisk. *)
Lemma load_volume_table_ramdisk_witness :
  volume_for_path (load_fstab Sample.load_env) Sample.os "/tmp/dir/file"
  = Some 5%nat
  /\ ensure_path_mounted (load_fstab Sample.load_env) Sample.os "/tmp/dir/file"
       Sample.boot = Some (0, Sample.boot)
  /\ format_volume (load_fstab Sample.load_env) Sample.os "/tmp/dir/file" None
       Sample.boot = Some (-1, Sample.boot).
Proof.
  destruct (load_volume_table_ramdisk Sample.load_env Sample.os _ ["dir"; "file"]
              None false Sample.boot eq_refl eq_refl)
    as (Hpath & _ & Hmount & _ & Hformat).
  - intros v Hv.
    repeat (apply elem_of_cons in Hv as [->|Hv]; [reflexivity|]).
    apply elem_of_nil in Hv. contradiction.
  - repeat constructor.
  - split; [exact Hpath|]. split; [exact Hmount|exact Hformat].
Defined.

(** X19: a block device of 2048 bytes, less a reserve of 1024. *)
Lemma get_file_size_bounds_witness :
  0 <= get_file_size Sample.os "/dev/block/userdata" 1024 <= 2048.
Proof.
  assert (stat_wf (file_kind Sample.os "/dev/block/userdata")) as Hwf
      by (vm_compute; split; [discriminate|reflexivity]).
  assert (uint64_range 1024) as Hr
      by (vm_compute; split; [discriminate|reflexivity]).
  exact (proj1 (proj1 (proj2 (proj2 (get_file_size_bounds Sample.os
                                       "/dev/block/userdata" 1024 Hwf Hr)))
                  2048 eq_refl)).
Defined.

(** X20: no entry of the sample table is labelled "MYLABEL". *)
Lemma ensure_path_unmounted_storage_witness :
  ensure_path_unmounted Sample.fstab Sample.os "/storage/MYLABEL" false Sample.boot
  = Some (-1, Sample.boot).
Proof.
  apply (proj1 (ensure_path_unmounted_storage Sample.fstab Sample.os _ "MYLABEL"
                  false Sample.boot eq_refl eq_refl)).
  - apply Nat.ltb_lt. reflexivity.
  - intros k w Hw.
    do 6 (destruct k as [|k]; [injection Hw as <-; discriminate|]).
    discriminate Hw.
Defined.

(** X21: the calls of a format of the mounted "/data" volume. *)
Lemma format_volume_tools_witness :
  exists r st',
    format_volume Sample.fstab Sample.os "/data" (Some "/tmp/image")
      (Sample.with_mount "/data" "/dev/block/userdata" "f2fs") = Some (r, st')
    /\ exists evs,
    trace st'
       = trace (Sample.with_mount "/data" "/dev/block/userdata" "f2fs") ++ evs
    /\ Forall format_tool evs.
Proof.
  eexists _, _. run_call.
  exact (format_volume_tools Sample.fstab Sample.os "/data" (Some "/tmp/image")
           (Sample.with_mount "/data" "/dev/block/userdata" "f2fs") _ _ Hrun).
Defined.

(** X2: the log file below "/cache" resolves to an entry mounted at a prefix
    of its path. *)
Lemma volume_for_path_longest_prefix_witness :
  exists v i,
    recs Sample.fstab !! 2%nat = Some v
    /\ search_path "/cache/recovery/last_log" !! i = Some (mount_point v)
    /\ CStr.starts_with (mount_point v) "/cache/recovery/last_log" = true
    /\ forall k b, (k < i)%nat ->
                   search_path "/cache/recovery/last_log" !! k = Some b ->
                   fs_mgr_get_entry_for_mount_point Sample.fstab b = None.
Proof.
  exact (proj1 (volume_for_path_longest_prefix Sample.fstab Sample.os
                  "/cache/recovery/last_log") 2%nat eq_refl).
Defined.

(** X4: mounting "/cache" from the boot state issues the directory creation
    and the mount call, and returns 0. *)
Lemma ensure_path_mounted_at_post_witness :
  exists r st',
    ensure_path_mounted_at Sample.fstab Sample.os "/cache" None Sample.boot
    = Some (r, st')
    /\ r = 0.
Proof.
  destruct (ensure_path_mounted_at_post Sample.fstab Sample.os "/cache" None
              Sample.boot) as (r & st' & Hrun & _ & _ & Hentry).
  exists r, st'. split; [exact Hrun|].
  apply (proj1 (proj2 (Hentry 2%nat Sample.cache_f2fs eq_refl eq_refl))).
  right. split; [reflexivity|]. right. split; [reflexivity|].
  vm_compute. eauto.
Defined.

(** X12: for a length of 1024 the ext4 formatter is told 0 blocks and the
    f2fs formatter is told nothing. *)
Lemma formatter_size_argument_witness :
  last (mke2fs_args Sample.data_volume 1024) = Some "0"
  /\ last (make_f2fs_cmd Sample.data_volume 1024)
     = Some (blk_device Sample.data_volume).
Proof.
  apply (proj2 (proj2 (formatter_size_argument Sample.data_volume 1024))). lia.
Defined.

(** X17: loading the sample fstab gives a table of six entries. *)
Lemma load_volume_table_result_witness :
  exists read,
    fs_mgr_read_fstab_default Sample.load_env = Some read
    /\ load_fstab Sample.load_env
       = Some (read ++ [synthetic "/tmp" "ramdisk" "ramdisk"])
    /\ get_num_volumes (load_fstab Sample.load_env) = Some (S (List.length read)).
Proof.
  destruct (proj2 (load_volume_table_result Sample.load_env) _ eq_refl)
    as (read & Hread & Htab & Hnum & _).
  exists read. split; [exact Hread|]. split; [|exact Hnum].
  rewrite <- Htab. reflexivity.
Defined.

(** X22: a data volume that reserves more than its device holds is rejected
    at the length computation, after the unmount call. *)
Lemma format_volume_rejected_after_wipe_witness :
  exists st1,
    ensure_path_unmounted Sample.short_fstab Sample.os "/data" false
      (Sample.with_mount "/data" "/dev/block/userdata" "f2fs") = Some (0, st1)
    /\ format_volume Sample.short_fstab Sample.os "/data" None
         (Sample.with_mount "/data" "/dev/block/userdata" "f2fs")
       = Some (-1, logged st1 (key_wipe Sample.os Sample.short_volume))
    /\ exists evs,
         trace st1
         = trace (Sample.with_mount "/data" "/dev/block/userdata" "f2fs") ++ evs
         /\ Forall (fun e => is_umount e = true) evs.
Proof.
  eexists. run_call.
  destruct (format_volume_rejected_after_wipe Sample.short_fstab Sample.os "/data"
              None 0%nat Sample.short_volume
              (Sample.with_mount "/data" "/dev/block/userdata" "f2fs") _
              eq_refl eq_refl eq_refl (or_intror eq_refl) Hrun)
    as (Hformat & Hevents & _).
  - intros k Hk. discriminate Hk.
  - left. reflexivity.
  - split; [exact Hformat|exact Hevents].
Defined.
